(** * Shelf-image tag cropper: [ManipulateImage] of [function_app.py]

    A shallow embedding of the blob-triggered function [ManipulateImage]:
    keyword filtering of OCR detections, area filtering of the candidate
    boxes, the upward-expanded crop and the upload loop, together with the
    properties of these stages.

    Conventions of the embedding.
    - Python [str] values are [string]s whose characters are read as the
      code points U+0000..U+00FF (Latin-1); [str.lower] and [str.strip] are
      given on that range.
    - Python [int]s are [Z]; Python [float]s are IEEE-754 binary64 values,
      [spec_float] with precision 53 and maximal exponent 1024.
    - OCR coordinates are Python numbers, [int] or [float]. A difference
      of two of them is computed as Python computes it, exactly for [int]s
      and in binary64 for [float]s; [int(...)] truncates toward zero and
      raises on an infinity or a NaN.
    - The outside world (image decoder, OCR reader, JPEG encoder, blob
      storage, the iteration order of a Python [set]) is an explicit
      argument. *)

From Stdlib Require Import ZArith NArith QArith List String Ascii Bool Lia.
From Stdlib Require Import Permutation Sorted DecimalString DecimalNat.
From Stdlib Require Import Floats.SpecFloat.
Import ListNotations.

Local Open Scope Z_scope.

(* ================================================================== *)
(** * Definitions *)
(* ================================================================== *)

(** ** Python strings *)
Module PyStr.

Local Open Scope N_scope.

(** Upper-case code points below U+0100: A-Z, and the Latin-1 capitals
    U+00C0..U+00DE without the multiplication sign U+00D7. *)
Definition is_upper (c : ascii) : bool :=
  let n := N_of_ascii c in
  ((65 <=? n) && (n <=? 90))
  || ((192 <=? n) && (n <=? 222) && negb (n =? 215)).

Definition lower_char (c : ascii) : ascii :=
  if is_upper c then ascii_of_N (N_of_ascii c + 32) else c.

(** [str.lower()] *)
Fixpoint lower (s : string) : string :=
  match s with
  | EmptyString => EmptyString
  | String c s' => String (lower_char c) (lower s')
  end.

(** [str.isspace()] on one character: TAB..CR, FS..US, space, NEL, NBSP. *)
Definition is_space (c : ascii) : bool :=
  let n := N_of_ascii c in
  ((9 <=? n) && (n <=? 13)) || ((28 <=? n) && (n <=? 32))
  || (n =? 133) || (n =? 160).

Fixpoint lstrip (s : string) : string :=
  match s with
  | EmptyString => EmptyString
  | String c s' => if is_space c then lstrip s' else s
  end.

Fixpoint rstrip (s : string) : string :=
  match s with
  | EmptyString => EmptyString
  | String c s' =>
      match rstrip s' with
      | EmptyString => if is_space c then EmptyString else String c EmptyString
      | r => String c r
      end
  end.

(** [str.strip()] *)
Definition strip (s : string) : string := rstrip (lstrip s).

(** [k in t] on strings: [k] occurs in [t] as a contiguous substring. *)
Fixpoint contains (k t : string) : bool :=
  if String.prefix k t then true
  else match t with
       | EmptyString => false
       | String _ t' => contains k t'
       end.

(** [str(n)] for a non-negative integer. *)
Definition str (n : nat) : string :=
  NilEmpty.string_of_uint (Nat.to_uint n).

(** [p.rfind(c)], [None] standing for -1. *)
Fixpoint rfind (c : ascii) (p : string) : option nat :=
  match p with
  | EmptyString => None
  | String a p' =>
      match rfind c p' with
      | Some i => Some (S i)
      | None => if Ascii.eqb a c then Some O else None
      end
  end.

(** [p[i:]] and [p[:i]] for [0 <= i]. *)
Fixpoint drop (i : nat) (p : string) : string :=
  match i, p with
  | O, _ => p
  | S i', String _ p' => drop i' p'
  | S _, EmptyString => EmptyString
  end.

Fixpoint take (i : nat) (p : string) : string :=
  match i, p with
  | O, _ => EmptyString
  | S i', String a p' => String a (take i' p')
  | S _, EmptyString => EmptyString
  end.

(** [posixpath.basename]: [i = p.rfind('/') + 1; return p[i:]]. *)
Definition basename (p : string) : string :=
  match rfind "/" p with
  | Some i => drop (S i) p
  | None => p
  end.

(** The [while] loop of [genericpath._splitext]: is some character in
    [p[filenameIndex:dotIndex]] different from the dot? *)
Fixpoint non_dot_before (p : string) (filenameIndex dotIndex : nat) : bool :=
  match dotIndex with
  | O => false
  | S d =>
      match p with
      | EmptyString => false
      | String a p' =>
          match filenameIndex with
          | S f => non_dot_before p' f d
          | O => if Ascii.eqb a "." then non_dot_before p' O d else true
          end
      end
  end.

(** [posixpath.splitext]: split at the last dot when it comes after the
    last slash ([dotIndex > sepIndex]) and after a character of the file
    name that is no dot. *)
Definition splitext (p : string) : string * string :=
  match rfind "." p with
  | None => (p, EmptyString)
  | Some dotIndex =>
      let filenameIndex :=
        match rfind "/" p with Some sepIndex => S sepIndex | None => O end in
      if Nat.leb filenameIndex dotIndex
         && non_dot_before p filenameIndex dotIndex
      then (take dotIndex p, drop dotIndex p)
      else (p, EmptyString)
  end.

End PyStr.


(** ** Python floats: IEEE-754 binary64 *)
Module Float64.

Definition prec : Z := 53.
Definition emax : Z := 1024.

Definition float : Type := spec_float.

Definition mul : float -> float -> float := SFmul prec emax.
Definition div : float -> float -> float := SFdiv prec emax.
Definition sub : float -> float -> float := SFsub prec emax.

(** Conversion of a Python [int] to a [float] (round to nearest, ties to
    even); [None] is the [OverflowError] of an integer out of range. *)
Definition of_int (z : Z) : option float :=
  match binary_normalize prec emax z 0 false with
  | S754_infinity _ => None
  | f => Some f
  end.

(** [int * float]: the integer operand is converted first. *)
Definition int_mul (z : Z) (f : float) : option float :=
  match of_int z with
  | Some fz => Some (mul fz f)
  | None => None
  end.

(** Python compares a [float] with an [int] exactly, without rounding the
    integer: [f < z] and [z < f]. A finite [f] is [(-1)^s * m * 2^e]. *)
Definition lt_int (f : float) (z : Z) : bool :=
  match f with
  | S754_nan => false
  | S754_infinity s => s
  | S754_zero _ => 0 <? z
  | S754_finite s m e =>
      match e with
      | Zneg p => cond_Zopp s (Zpos m) <? z * 2 ^ Zpos p
      | _ => cond_Zopp s (Zpos m) * 2 ^ e <? z
      end
  end.

Definition int_lt (z : Z) (f : float) : bool :=
  match f with
  | S754_nan => false
  | S754_infinity s => negb s
  | S754_zero _ => z <? 0
  | S754_finite s m e =>
      match e with
      | Zneg p => z * 2 ^ Zpos p <? cond_Zopp s (Zpos m)
      | _ => z <? cond_Zopp s (Zpos m) * 2 ^ e
      end
  end.

(** The rational a finite float stands for (0 for the others). *)
Definition to_Q (f : float) : Q :=
  match f with
  | S754_finite s m e =>
      match e with
      | Zneg p => Qmake (cond_Zopp s (Zpos m)) (2 ^ p)
      | _ => inject_Z (cond_Zopp s (Zpos m) * 2 ^ e)
      end
  | _ => 0%Q
  end.

Definition is_finite (f : float) : bool :=
  match f with
  | S754_finite _ _ _ | S754_zero _ => true
  | _ => false
  end.

(** No negative number: zero, a positive finite float, plus infinity or
    a NaN. *)
Definition not_negative (f : float) : bool :=
  match f with
  | S754_finite s _ _ | S754_infinity s => negb s
  | _ => true
  end.

(** [int(f)]: truncation toward zero. [None] is the [OverflowError] of an
    infinity or the [ValueError] of a NaN. *)
Definition to_int (f : float) : option Z :=
  match f with
  | S754_zero _ => Some 0
  | S754_finite s m e =>
      Some (cond_Zopp s
              match e with
              | Zneg p => Zpos m / 2 ^ Zpos p
              | _ => Zpos m * 2 ^ e
              end)
  | S754_infinity _ | S754_nan => None
  end.

(** The literals of the source: [0.2] is the double [0x3FC999999999999A],
    [1.0] and [100.0] are exact. *)
Definition lit_0_2 : float := S754_finite false 7205759403792794 (-55).
Definition lit_1_0 : float := S754_finite false 4503599627370496 (-52).
Definition lit_100_0 : float := S754_finite false 7036874417766400 (-46).

End Float64.

(** ** Python numbers *)
Module PyNum.

Inductive number : Type :=
| PyInt (z : Z)
| PyFloat (f : Float64.float).

(** [a - b]. Two [int]s are subtracted exactly. With a [float] operand the
    other operand is converted to [float] ([None] is the [OverflowError] of
    an [int] out of range) and the difference is the binary64 one. *)
Definition sub (a b : number) : option number :=
  match a, b with
  | PyInt x, PyInt y => Some (PyInt (x - y))
  | PyFloat x, PyFloat y => Some (PyFloat (Float64.sub x y))
  | PyInt x, PyFloat y =>
      match Float64.of_int x with
      | Some fx => Some (PyFloat (Float64.sub fx y))
      | None => None
      end
  | PyFloat x, PyInt y =>
      match Float64.of_int y with
      | Some fy => Some (PyFloat (Float64.sub x fy))
      | None => None
      end
  end.

(** [int(a)] *)
Definition int (a : number) : option Z :=
  match a with
  | PyInt z => Some z
  | PyFloat f => Float64.to_int f
  end.

End PyNum.

(** ** numpy basic slicing *)
Module Numpy.

(** An image array: its [shape] is [(height, width, 3)]. *)
Record ndarray : Type := { height : N; width : N }.

(** A view cut out of an array: top-left corner and extent. *)
Record view : Type := { view_y : Z; view_x : Z; view_height : Z; view_width : Z }.

(** A slice bound [i] resolved against an axis of [length] entries:
    negative bounds count from the end, all bounds are clipped. *)
Definition adjust (i length : Z) : Z :=
  if i <? 0 then Z.max (i + length) 0 else Z.min i length.

(** [a[y0:y1, x0:x1]] *)
Definition slice (a : ndarray) (y0 y1 x0 x1 : Z) : view :=
  let ys := adjust y0 (Z.of_N (height a)) in
  let ye := adjust y1 (Z.of_N (height a)) in
  let xs := adjust x0 (Z.of_N (width a)) in
  let xe := adjust x1 (Z.of_N (width a)) in
  {| view_y := ys; view_x := xs;
     view_height := Z.max 0 (ye - ys); view_width := Z.max 0 (xe - xs) |}.

(** [v.size] of a three-channel view. *)
Definition size (v : view) : Z := view_height v * view_width v * 3.

End Numpy.

(** ** Data of the pipeline *)

(** A quadrilateral as the OCR reader gives it: [(tl, tr, br, bl)], each
    point a pair [[x, y]] of numbers. *)
Definition point : Type := (PyNum.number * PyNum.number)%type.
Definition quad : Type := (point * point * point * point)%type.

(** One OCR result: [(bounding_box, text, confidence)]. *)
Definition detection : Type := (quad * string * Float64.float)%type.

(** A candidate box: the tuple [(x, y, w, h)]. *)
Definition box : Type := (Z * Z * Z * Z)%type.

(** ** Configuration constants of the module *)

Definition DISCOUNT_KEYWORDS : list string :=
  ["off"; "%"; "save"; "free"; "discount"; "offer"; "rs"; "!"; "deals"; "keels"]%string.
Definition FINAL_MIN_AREA_PERCENTAGE : Float64.float := Float64.lit_0_2.
Definition FINAL_MAX_AREA_PERCENTAGE : Float64.float := Float64.lit_1_0.
Definition PROCESSED_IMAGES_CONTAINER : string := "processed-images".

(** ** Candidate boxes from keyword matches (lines 47-63) *)

(** [int(a - b)]; [None] when the subtraction or the conversion raises. *)
Definition int_sub (a b : PyNum.number) : option Z :=
  match PyNum.sub a b with
  | Some d => PyNum.int d
  | None => None
  end.

(** Lines 56-62: the tuple appended for a matching detection; [None] when
    one of the four conversions raises. *)
Definition box_of_bbox (bbox : quad) : option box :=
  let '(tl, tr, br, bl) := bbox in
  match int_sub (fst br) (fst tl), int_sub (snd br) (snd tl),
        PyNum.int (fst tl), PyNum.int (snd tl) with
  | Some w, Some h, Some x, Some y => Some (x, y, w, h)
  | _, _, _, _ => None
  end.

(** The inner [for keyword in ...] loop with its [break]; [None] when the
    box of the detection cannot be computed. *)
Fixpoint keyword_loop (keywords : list string) (text : string) (bbox : quad)
    (candidate_boxes : list box) : option (list box) :=
  match keywords with
  | [] => Some candidate_boxes
  | keyword :: keywords' =>
      if PyStr.contains keyword text
      then match box_of_bbox bbox with
           | Some b => Some (candidate_boxes ++ [b])
           | None => None
           end
      else keyword_loop keywords' text bbox candidate_boxes
  end.

(** The outer [for (bbox, text, prob) in results] loop. *)
Fixpoint detection_loop (keywords : list string) (results : list detection)
    (candidate_boxes : list box) : option (list box) :=
  match results with
  | [] => Some candidate_boxes
  | (bbox, text, prob) :: results' =>
      let text := PyStr.strip (PyStr.lower text) in
      match keyword_loop keywords text bbox candidate_boxes with
      | Some candidate_boxes' => detection_loop keywords results' candidate_boxes'
      | None => None
      end
  end.

Definition find_candidates (keywords : list string) (results : list detection)
    : option (list box) :=
  detection_loop keywords results [].

(** ** Area filter (lines 68-75) *)

(** The [for x, y, w, h in set(...)] loop over the boxes in the order the
    set yields them. *)
Fixpoint area_loop (final_min_area final_max_area : Float64.float)
    (boxes : list box) (final_selected_tags : list box) : list box :=
  match boxes with
  | [] => final_selected_tags
  | (x, y, w, h) :: boxes' =>
      let area := w * h in
      area_loop final_min_area final_max_area boxes'
        (if Float64.lt_int final_min_area area && Float64.int_lt area final_max_area
         then final_selected_tags ++ [(x, y, w, h)]
         else final_selected_tags)
  end.

(** Lines 69-70; [None] when the conversion of [total_area] overflows. *)
Definition min_area (min_percentage : Float64.float) (total_area : Z)
    : option Float64.float :=
  Float64.int_mul total_area (Float64.div min_percentage Float64.lit_100_0).

Definition max_area (max_percentage : Float64.float) (total_area : Z)
    : option Float64.float :=
  Float64.int_mul total_area (Float64.div max_percentage Float64.lit_1_0).

(** ** Crop of one tag (lines 91-92) *)

(** The slice bounds [(expanded_y_start, y+h, x, x+w)]. *)
Definition crop_bounds (b : box) : Z * Z * Z * Z :=
  let '(x, y, w, h) := b in
  let expanded_y_start := Z.max 0 (y - h) in
  (expanded_y_start, y + h, x, x + w).

Definition expanded_crop (image : Numpy.ndarray) (b : box) : Numpy.view :=
  let '(y0, y1, x0, x1) := crop_bounds b in
  Numpy.slice image y0 y1 x0 x1.

(** ** Effects: the log, the collaborators and exceptions *)

Inductive log_record : Type :=
| Info_triggered (blob_name : string)
| Error_decode
| Info_candidates (n : nat)
| Info_final (n : nat)
| Info_no_tags
| Info_uploaded (crop_filename container : string)
| Error_exception.

Inductive event : Type :=
| Log (r : log_record)
| Readtext
| Connect
| Upload (container blob : string) (data : Numpy.view).

(** What [cv2.imdecode] does with the blob's bytes. *)
Inductive decoded : Type :=
| Decoded (image : Numpy.ndarray)
| Undecodable
| DecodeRaises.

(** The collaborators of one invocation; [None] and [false] stand for a
    raised exception. [imencode] tells of each region of the image whether
    [cv2.imencode('.jpg', ...)] encodes it. *)
Record world : Type := {
  imdecode : decoded;
  readtext : option (list detection);
  imencode : Numpy.view -> bool;
  from_connection_string : bool;
  upload_blob : string -> bool
}.

(** A computation: the events so far and a value, or [None] once an
    exception is on its way to the handler. *)
Definition M (A : Type) : Type := (list event * option A)%type.

Definition ret {A : Type} (a : A) : M A := ([], Some a).
Definition raise {A : Type} : M A := ([], None).
Definition emit (e : event) : M unit := ([e], Some tt).
Definition lift {A : Type} (o : option A) : M A := ([], o).

Definition bind {A B : Type} (c : M A) (k : A -> M B) : M B :=
  match c with
  | (t, Some a) => let '(t', r) := k a in (t ++ t', r)
  | (t, None) => (t, None)
  end.

Notation "x <- c ;; k" := (bind c (fun x => k))
  (at level 61, c at next level, right associativity).
Notation "c ;; k" := (bind c (fun _ => k))
  (at level 61, right associativity).

Definition logging (r : log_record) : M unit := emit (Log r).

(** [cv2.imencode('.jpg', expanded_crop)], line 95: no event. The flag it
    returns is not looked at; a crop that cannot be encoded is an exception
    before the upload is attempted. *)
Definition do_encode (w : world) (crop : Numpy.view) : M unit :=
  if imencode w crop then ret tt else raise.

(** [blob_client.upload_blob(...)]: the attempt is an event, its failure
    an exception. *)
Definition do_upload (w : world) (blob : string) (data : Numpy.view) : M unit :=
  emit (Upload PROCESSED_IMAGES_CONTAINER blob data) ;;
  if upload_blob w blob then ret tt else raise.

(** ** The crop-and-save loop (lines 89-100) *)

(** Line 96: [f"{name}_crop_{i+1}{ext}"], with [k] for [i+1]. *)
Definition crop_filename (name ext : string) (k : nat) : string :=
  (name ++ "_crop_" ++ PyStr.str k ++ ext)%string.

(** The loop over [enumerate(final_selected_tags)], [i] being the index
    of the first tag still to do. *)
Fixpoint crop_loop (w : world) (image : Numpy.ndarray) (name ext : string)
    (i : nat) (final_selected_tags : list box) : M unit :=
  match final_selected_tags with
  | [] => ret tt
  | b :: tags' =>
      let crop := expanded_crop image b in
      (if 0 <? Numpy.size crop then
         do_encode w crop ;;
         let filename := crop_filename name ext (i + 1) in
         do_upload w filename crop ;;
         logging (Info_uploaded filename PROCESSED_IMAGES_CONTAINER)
       else ret tt) ;;
      crop_loop w image name ext (S i) tags'
  end.

(** ** The triggered function *)

Section Pipeline.

(** The order in which iterating over [set(candidate_boxes)] yields its
    elements. *)
Variable set_iter : list box -> list box.

(** Lines 68-75. *)
Definition filter_by_area (min_percentage max_percentage : Float64.float)
    (total_area : Z) (candidate_boxes : list box) : option (list box) :=
  match min_area min_percentage total_area,
        max_area max_percentage total_area with
  | Some final_min_area, Some final_max_area =>
      Some (area_loop final_min_area final_max_area (set_iter candidate_boxes) [])
  | _, _ => None
  end.

(** The body of the [try] block. *)
Definition try_block (w : world) (blob_name : string) : M unit :=
  match imdecode w with
  | DecodeRaises => raise
  | Undecodable => logging Error_decode
  | Decoded image =>
      let total_area := Z.of_N (Numpy.width image) * Z.of_N (Numpy.height image) in
      results <- (emit Readtext ;; lift (readtext w)) ;;
      candidate_boxes <- lift (find_candidates DISCOUNT_KEYWORDS results) ;;
      logging (Info_candidates (List.length candidate_boxes)) ;;
      final_selected_tags <-
        lift (filter_by_area FINAL_MIN_AREA_PERCENTAGE FINAL_MAX_AREA_PERCENTAGE
                total_area candidate_boxes) ;;
      logging (Info_final (List.length final_selected_tags)) ;;
      match final_selected_tags with
      | [] => logging Info_no_tags
      | _ :: _ =>
          (emit Connect ;;
           if from_connection_string w then ret tt else raise) ;;
          let original_filename := PyStr.basename blob_name in
          let '(name, ext) := PyStr.splitext original_filename in
          crop_loop w image name ext O final_selected_tags
      end
  end.

(** [ManipulateImage]: the events of one invocation. The handler of the
    [try] block logs the exception and the function returns. *)
Definition ManipulateImage (w : world) (blob_name : string) : list event :=
  match (logging (Info_triggered blob_name) ;; try_block w blob_name) with
  | (t, Some _) => t
  | (t, None) => t ++ [Log Error_exception]
  end.

End Pipeline.

(** The upload attempts recorded in a trace, as (blob name, data) pairs. *)
Fixpoint uploads (t : list event) : list (string * Numpy.view) :=
  match t with
  | [] => []
  | Upload _ blob data :: t' => (blob, data) :: uploads t'
  | _ :: t' => uploads t'
  end.

(** A set iterates over each of its elements once: the order is left to the
    runtime, the elements are those of the sequence the set was built from. *)
Definition set_order (set_iter : list box -> list box) : Prop :=
  forall l, NoDup (set_iter l) /\ forall b, In b (set_iter l) <-> In b l.

Definition box_eq_dec (a b : box) : {a = b} + {a <> b}.
Proof. repeat decide equality. Defined.

(** One admissible order: first occurrences, in insertion order. *)
Fixpoint first_seen (l : list box) : list box :=
  match l with
  | [] => []
  | b :: l' => b :: remove box_eq_dec b (first_seen l')
  end.

(** ** Reference notions used in the statements *)

(** The normalized text of a detection: lower-cased, then trimmed. *)
Definition normalize (text : string) : string := PyStr.strip (PyStr.lower text).

(** [k] occurs in [t] as a literal, contiguous substring. *)
Definition Substring (k t : string) : Prop :=
  exists pre post : string, t = (pre ++ k ++ post)%string.

Definition bbox_of (d : detection) : quad := fst (fst d).
Definition text_of (d : detection) : string := snd (fst d).

(** Some keyword occurs in the normalized text. *)
Definition matches (keywords : list string) (d : detection) : bool :=
  existsb (fun k => PyStr.contains k (normalize (text_of d))) keywords.

(** The boxes of a sequence of detections, one for each of them in their
    order; [None] when one of the boxes cannot be computed. *)
Fixpoint boxes_of (ds : list detection) : option (list box) :=
  match ds with
  | [] => Some []
  | d :: ds' =>
      match box_of_bbox (bbox_of d), boxes_of ds' with
      | Some b, Some bs => Some (b :: bs)
      | _, _ => None
      end
  end.

(** The box [b] is the box of the detection [d]. *)
Definition box_is (d : detection) (b : box) : Prop :=
  box_of_bbox (bbox_of d) = Some b.

(** The rational a number stands for (0 for an infinity or a NaN). *)
Definition value (a : PyNum.number) : Q :=
  match a with
  | PyNum.PyInt z => inject_Z z
  | PyNum.PyFloat f => Float64.to_Q f
  end.

(** Two [int]s, or two [float]s. *)
Definition same_kind (a b : PyNum.number) : bool :=
  match a, b with
  | PyNum.PyInt _, PyNum.PyInt _ | PyNum.PyFloat _, PyNum.PyFloat _ => true
  | _, _ => false
  end.

(** The integer [z] is the number [a] with its fraction cut off, toward
    zero. *)
Definition truncated (a : PyNum.number) (z : Z) : Prop :=
  ((0 <= value a)%Q -> (inject_Z z <= value a)%Q /\ (value a < inject_Z z + 1)%Q)
  /\ ((value a <= 0)%Q -> (inject_Z z - 1 < value a)%Q /\ (value a <= inject_Z z)%Q).

(** The area [w * h] of a box, and the test of line 74 on it. *)
Definition area (b : box) : Z := let '(x, y, w, h) := b in w * h.

Definition in_range (final_min_area final_max_area : Float64.float) (b : box)
    : bool :=
  Float64.lt_int final_min_area (area b) && Float64.int_lt (area b) final_max_area.

(** The thresholds of the source as fractions of the total area. *)
Definition min_area_fraction : Float64.float :=
  Float64.div FINAL_MIN_AREA_PERCENTAGE Float64.lit_100_0.
Definition max_area_fraction : Float64.float :=
  Float64.div FINAL_MAX_AREA_PERCENTAGE Float64.lit_1_0.

(** [enumerate(tags)], counting from [i]. *)
Definition enumerate_from (i : nat) (tags : list box) : list (nat * box) :=
  combine (seq i (List.length tags)) tags.

(** The tags, with their indices, whose crop has pixels. *)
Definition emitted_from (image : Numpy.ndarray) (i : nat) (tags : list box)
    : list (nat * box) :=
  filter (fun ib => 0 <? Numpy.size (expanded_crop image (snd ib)))
         (enumerate_from i tags).

(** The upload made for the tag at index [i]: name and data. *)
Definition upload_of (image : Numpy.ndarray) (name ext : string) (ib : nat * box)
    : string * Numpy.view :=
  (crop_filename name ext (fst ib + 1), expanded_crop image (snd ib)).

(** An event that is no failed upload. *)
Definition passes (w : world) (e : event) : Prop :=
  match e with
  | Upload _ blob _ => upload_blob w blob = true
  | _ => True
  end.

(** A trace without a failed upload, and a trace that ends in one. *)
Definition clean (w : world) (t : list event) : Prop := Forall (passes w) t.

Definition ends_in_failure (w : world) (t : list event) : Prop :=
  exists t' c f d,
    t = t' ++ [Upload c f d] /\ clean w t' /\ upload_blob w f = false.

(** What holds of every computation: a failed upload is the last event
    and leaves the computation with an exception. *)
Definition fails_last {A : Type} (w : world) (c : M A) : Prop :=
  clean w (fst c) \/ (snd c = None /\ ends_in_failure w (fst c)).

(** A string of white space only. *)
Fixpoint all_space (s : string) : bool :=
  match s with
  | EmptyString => true
  | String c s' => PyStr.is_space c && all_space s'
  end.

(** ** Notions for the course of an invocation *)

(** The events of the crop loop: uploads that succeed, each followed by
    its log record; the loop ends normally, or with a crop that cannot be
    encoded, or with one failed upload at the very end. *)
Inductive loop_trace (w : world) : list event -> option unit -> Prop :=
| loop_done : loop_trace w [] (Some tt)
| loop_uploaded f d t r :
    upload_blob w f = true -> loop_trace w t r ->
    loop_trace w (Upload PROCESSED_IMAGES_CONTAINER f d
                  :: Log (Info_uploaded f PROCESSED_IMAGES_CONTAINER) :: t) r
| loop_unencoded : loop_trace w [] None
| loop_failed f d :
    upload_blob w f = false ->
    loop_trace w [Upload PROCESSED_IMAGES_CONTAINER f d] None.

(** What the handler adds to the trace of a computation. *)
Definition closing (r : option unit) : list event :=
  match r with
  | Some _ => []
  | None => [Log Error_exception]
  end.

(** The events from line 79 on, given the tags that were kept. *)
Definition storage_events (w : world) (image : Numpy.ndarray) (blob_name : string)
    (tags : list box) : list event :=
  match tags with
  | [] => [Log Info_no_tags]
  | _ :: _ =>
      Connect ::
      (if from_connection_string w then
         let '(name, ext) := PyStr.splitext (PyStr.basename blob_name) in
         fst (crop_loop w image name ext O tags)
         ++ closing (snd (crop_loop w image name ext O tags))
       else [Log Error_exception])
  end.

Definition is_error (e : event) : bool :=
  match e with
  | Log Error_decode | Log Error_exception => true
  | _ => false
  end.

Definition is_upload (e : event) : bool :=
  match e with
  | Upload _ _ _ => true
  | _ => false
  end.

Definition is_readtext (e : event) : bool :=
  match e with
  | Readtext => true
  | _ => false
  end.

Definition is_connect (e : event) : bool :=
  match e with
  | Connect => true
  | _ => false
  end.

Definition is_uploaded_record (e : event) : bool :=
  match e with
  | Log (Info_uploaded _ _) => true
  | _ => false
  end.

(** An event of the stages before the crop loop. *)
Definition plain (e : event) : bool :=
  negb (is_error e) && negb (is_upload e) && negb (is_uploaded_record e).

(** The total area of an image, [img_width * img_height]. *)
Definition total_area_of (image : Numpy.ndarray) : Z :=
  Z.of_N (Numpy.width image) * Z.of_N (Numpy.height image).

(** The crop of a box has pixels. *)
Definition has_pixels (image : Numpy.ndarray) (b : box) : bool :=
  0 <? Numpy.size (expanded_crop image b).

(** The crop of every one of the tags that has pixels can be encoded. *)
Definition encodable (w : world) (image : Numpy.ndarray) (tags : list box) : Prop :=
  forall b, In b tags -> has_pixels image b = true ->
            imencode w (expanded_crop image b) = true.

(** ** Sample inputs *)

(** A detection with an axis-aligned quad: top-left [(x0, y0)],
    bottom-right [(x1, y1)]. *)
Definition axis_detection (x0 y0 x1 y1 : Z) (text : string) : detection :=
  (((PyNum.PyInt x0, PyNum.PyInt y0), (PyNum.PyInt x1, PyNum.PyInt y0),
    (PyNum.PyInt x1, PyNum.PyInt y1), (PyNum.PyInt x0, PyNum.PyInt y1)),
   text, S754_finite false 8106479329266893 (-53)).

(** A detection of "50% off" whose corner points are swapped: the point
    given as bottom-right lies left of and above the one given as
    top-left. *)
Definition swapped_detection : detection :=
  axis_detection 80 100 30 50 "50% off".

(** Two well-formed detections of keywords and one of other text. *)
Definition save_detection : detection := axis_detection 10 50 70 100 " SAVE 20 ".
Definition free_detection : detection := axis_detection 100 100 151 151 "Free!".
Definition other_detection : detection := axis_detection 0 0 300 300 "buy 2 get 1".

(** An encoder with the size limit of JPEG: at most 65500 pixels a side. *)
Definition jpeg_encodable (v : Numpy.view) : bool :=
  (Numpy.view_height v <=? 65500) && (Numpy.view_width v <=? 65500).

(** An invocation on a decodable image of 1000 x 1000 pixels, no region of
    which is too large for the encoder. *)
Definition sample_world (results : list detection) (upload_ok : string -> bool)
    : world :=
  {| imdecode := Decoded {| Numpy.height := 1000; Numpy.width := 1000 |};
     readtext := Some results;
     imencode := fun _ => true;
     from_connection_string := true;
     upload_blob := upload_ok |}.

(** The character [c] occurs in [s]. *)
Fixpoint has_char (c : ascii) (s : string) : bool :=
  match s with
  | EmptyString => false
  | String a s' => Ascii.eqb a c || has_char c s'
  end.

(** A keyword that begins and ends with a character that is no white
    space. *)
Definition starts_nonspace (k : string) : bool :=
  match k with
  | EmptyString => false
  | String a _ => negb (PyStr.is_space a)
  end.

Fixpoint ends_nonspace (k : string) : bool :=
  match k with
  | EmptyString => false
  | String a EmptyString => negb (PyStr.is_space a)
  | String _ k' => ends_nonspace k'
  end.

(** A well-formed box that lies inside the image. *)
Definition inside_image (image : Numpy.ndarray) (b : box) : Prop :=
  let '(x, y, w, h) := b in
  0 <= x /\ 0 <= y /\ 0 < w /\ 0 < h
  /\ x + w <= Z.of_N (Numpy.width image)
  /\ y + h <= Z.of_N (Numpy.height image).

(** A detection whose bottom-right point lies left of and above the image
    origin. *)
Definition outside_detection : detection :=
  axis_detection 10 10 (-50) (-50) "sale 50% off".

(** Invocations in which a collaborator fails: the OCR reader raises, or
    the blob service cannot be reached. *)
Definition unread_world : world :=
  {| imdecode := Decoded {| Numpy.height := 1000; Numpy.width := 1000 |};
     readtext := None;
     imencode := fun _ => true;
     from_connection_string := true;
     upload_blob := fun _ => true |}.

Definition offline_world (results : list detection) : world :=
  {| imdecode := Decoded {| Numpy.height := 1000; Numpy.width := 1000 |};
     readtext := Some results;
     imencode := fun _ => true;
     from_connection_string := false;
     upload_blob := fun _ => true |}.

(** An invocation on a panorama of 66000 x 2 pixels in which every
    collaborator works, the encoder within the limit of JPEG. *)
Definition panorama : Numpy.ndarray := {| Numpy.height := 2; Numpy.width := 66000 |}.

Definition panorama_world (results : list detection) : world :=
  {| imdecode := Decoded panorama;
     readtext := Some results;
     imencode := jpeg_encodable;
     from_connection_string := true;
     upload_blob := fun _ => true |}.

(** A banner over 65501 columns of the panorama, and a small tag. *)
Definition banner_detection : detection := axis_detection 0 0 65501 1 "DEALS".
Definition corner_detection : detection := axis_detection 10 0 510 1 "free".

(** A detection whose quad has [float] coordinates: top-left
    [(0.3, 0.5)], bottom-right [(100.3, 50.5)]. *)
Definition float_0_3 : Float64.float := S754_finite false 5404319552844595 (-54).
Definition float_0_5 : Float64.float := S754_finite false 4503599627370496 (-53).
Definition float_100_3 : Float64.float := S754_finite false 7057985041019699 (-46).
Definition float_50_5 : Float64.float := S754_finite false 7107243161944064 (-47).

Definition float_detection : detection :=
  (((PyNum.PyFloat float_0_3, PyNum.PyFloat float_0_5),
    (PyNum.PyFloat float_100_3, PyNum.PyFloat float_0_5),
    (PyNum.PyFloat float_100_3, PyNum.PyFloat float_50_5),
    (PyNum.PyFloat float_0_3, PyNum.PyFloat float_50_5)),
   "20% off"%string, S754_finite false 8106479329266893 (-53)).

(** A detection of a keyword whose quad has a NaN among its coordinates. *)
Definition nan_detection : detection :=
  (((PyNum.PyFloat S754_nan, PyNum.PyInt 0), (PyNum.PyInt 10, PyNum.PyInt 0),
    (PyNum.PyInt 10, PyNum.PyInt 10), (PyNum.PyInt 0, PyNum.PyInt 10)),
   "save"%string, S754_finite false 8106479329266893 (-53)).

(* ================================================================== *)
(** * Properties *)
(* ================================================================== *)

(** ** Strings *)

Lemma prefix_iff_app (k t : string) :
  String.prefix k t = true <-> exists post, t = (k ++ post)%string.
Proof.
  revert t; induction k as [|a k IH]; intros t.
  - destruct t; simpl; split; intros _; eauto.
  - destruct t as [|b t]; simpl.
    + split; [discriminate | intros [post H]; discriminate].
    + destruct (ascii_dec a b) as [->|Hab].
      * rewrite IH. split; intros [post H]; exists post.
        -- now subst.
        -- now inversion H.
      * split; [discriminate | intros [post H]; inversion H; subst; now elim Hab].
Qed.

Lemma contains_iff_substring (k t : string) :
  PyStr.contains k t = true <-> Substring k t.
Proof.
  unfold Substring. induction t as [|c t IH].
  - cbn [PyStr.contains]. destruct (String.prefix k EmptyString) eqn:E.
    + apply prefix_iff_app in E as [post E]. split; [|reflexivity].
      intros _. exists EmptyString, post. exact E.
    + split; [discriminate|]. intros (pre & post & H).
      destruct pre; [|discriminate]. simpl in H.
      assert (String.prefix k EmptyString = true)
        by (apply prefix_iff_app; eauto).
      congruence.
  - cbn [PyStr.contains]. destruct (String.prefix k (String c t)) eqn:E.
    + apply prefix_iff_app in E as [post E]. split; [|reflexivity].
      intros _. exists EmptyString, post. exact E.
    + rewrite IH. split.
      * intros (pre & post & ->). now exists (String c pre), post.
      * intros (pre & post & H). destruct pre as [|c' pre].
        -- simpl in H.
           assert (String.prefix k (String c t) = true)
             by (apply prefix_iff_app; eauto).
           congruence.
        -- inversion H; subst. eauto.
Qed.

(** ** Candidate extraction *)

Lemma keyword_loop_spec keywords text bbox acc :
  keyword_loop keywords text bbox acc =
  if existsb (fun k => PyStr.contains k text) keywords
  then match box_of_bbox bbox with
       | Some b => Some (acc ++ [b])
       | None => None
       end
  else Some acc.
Proof.
  induction keywords as [|k ks IH]; simpl; [reflexivity|].
  destruct (PyStr.contains k text); simpl; [reflexivity | exact IH].
Qed.

Lemma detection_loop_spec keywords results :
  forall acc,
    detection_loop keywords results acc =
    match boxes_of (filter (matches keywords) results) with
    | Some bs => Some (acc ++ bs)
    | None => None
    end.
Proof.
  induction results as [|[[bbox text] prob] rs IH]; intros acc.
  - cbn. now rewrite app_nil_r.
  - cbn [detection_loop filter]. rewrite keyword_loop_spec.
    change (existsb (fun k => PyStr.contains k (PyStr.strip (PyStr.lower text)))
              keywords)
      with (matches keywords (bbox, text, prob)).
    destruct (matches keywords (bbox, text, prob)).
    + cbn [boxes_of]. change (bbox_of (bbox, text, prob)) with bbox.
      destruct (box_of_bbox bbox) as [b|]; [|reflexivity].
      rewrite IH. destruct (boxes_of (filter (matches keywords) rs)) as [bs|];
        [|reflexivity].
      now rewrite <- app_assoc.
    + apply IH.
Qed.

Lemma find_candidates_boxes_of keywords results :
  find_candidates keywords results = boxes_of (filter (matches keywords) results).
Proof.
  unfold find_candidates. rewrite detection_loop_spec.
  now destruct (boxes_of _).
Qed.

Lemma boxes_of_Forall2 ds :
  forall bs, boxes_of ds = Some bs <-> Forall2 box_is ds bs.
Proof.
  unfold box_is. induction ds as [|d ds IH]; intros bs; cbn [boxes_of].
  - split; [intros [= <-]; constructor | intros H; now inversion H].
  - split.
    + destruct (box_of_bbox (bbox_of d)) as [b|] eqn:Eb; [|discriminate].
      destruct (boxes_of ds) as [bs'|]; [|discriminate].
      intros [= <-]. constructor; [exact Eb | now apply IH].
    + intros H. inversion H as [|d' b ds' bs' Hb Hrest]; subst.
      rewrite Hb. apply IH in Hrest. now rewrite Hrest.
Qed.

Lemma Forall2_length_eq {A B} (R : A -> B -> Prop) l l' :
  Forall2 R l l' -> List.length l = List.length l'.
Proof. induction 1; simpl; congruence. Qed.

Lemma Forall2_In_l {A B} (R : A -> B -> Prop) l l' a :
  Forall2 R l l' -> In a l -> exists b, In b l' /\ R a b.
Proof.
  induction 1 as [|x y l l' Hxy Hl IH]; intros Hin; [destruct Hin|].
  destruct Hin as [<-|Hin].
  - exists y. split; [now left | exact Hxy].
  - destruct (IH Hin) as (b & Hb & Hab). exists b. split; [now right | exact Hab].
Qed.

Lemma Forall2_In_r {A B} (R : A -> B -> Prop) l l' b :
  Forall2 R l l' -> In b l' -> exists a, In a l /\ R a b.
Proof.
  induction 1 as [|x y l l' Hxy Hl IH]; intros Hin; [destruct Hin|].
  destruct Hin as [<-|Hin].
  - exists x. split; [now left | exact Hxy].
  - destruct (IH Hin) as (a & Ha & Hab). exists a. split; [now right | exact Hab].
Qed.

(** The candidates are the boxes of the detections that match. *)
Lemma find_candidates_In keywords results candidate_boxes :
  find_candidates keywords results = Some candidate_boxes ->
  forall b, In b candidate_boxes <->
            exists d, In d results /\ matches keywords d = true /\ box_is d b.
Proof.
  rewrite find_candidates_boxes_of, boxes_of_Forall2. intros HF b. split.
  - intros Hb. destruct (Forall2_In_r _ _ _ _ HF Hb) as (d & Hd & Hdb).
    apply filter_In in Hd as [Hd Hm]. eauto.
  - intros (d & Hd & Hm & Hdb).
    destruct (Forall2_In_l _ _ _ d HF) as (b' & Hb' & Hdb');
      [apply filter_In; auto|].
    unfold box_is in *. congruence.
Qed.

Lemma find_candidates_length keywords results candidate_boxes :
  find_candidates keywords results = Some candidate_boxes ->
  (List.length candidate_boxes <= List.length results)%nat.
Proof.
  rewrite find_candidates_boxes_of, boxes_of_Forall2. intros HF.
  rewrite <- (Forall2_length_eq _ _ _ HF). apply filter_length_le.
Qed.




(** ** Floats *)

(** The literal [0.2] is the double next to 1/5: its distance to 1/5 is
    [2/5] of a unit in the last place of the 53-bit mantissa. *)
Lemma lit_0_2_nearest :
  (Float64.to_Q Float64.lit_0_2 - (1 # 5) == 2 # (5 * 2 ^ 55))%Q
  /\ SFclassify Float64.prec Float64.lit_0_2 = FloatClass.PNormal
  /\ valid_binary Float64.prec Float64.emax Float64.lit_0_2 = true.
Proof. split; [|split]; vm_compute; reflexivity. Qed.

Lemma lit_exact :
  Float64.of_int 1 = Some Float64.lit_1_0
  /\ Float64.of_int 100 = Some Float64.lit_100_0.
Proof. split; reflexivity. Qed.

(** The exact comparisons agree with the order of the rationals. *)
Lemma lt_int_spec (f : Float64.float) (z : Z) :
  Float64.is_finite f = true ->
  (Float64.lt_int f z = true <-> (Float64.to_Q f < inject_Z z)%Q).
Proof.
  destruct f as [s| | |s m e]; try discriminate; intros _.
  - simpl. unfold Qlt; simpl. rewrite Z.ltb_lt. lia.
  - unfold Float64.lt_int, Float64.to_Q. destruct e as [|p|p];
      rewrite Z.ltb_lt; unfold Qlt; cbn [Qnum Qden inject_Z];
      rewrite ?Pos2Z.inj_pow; lia.
Qed.

Lemma int_lt_spec (z : Z) (f : Float64.float) :
  Float64.is_finite f = true ->
  (Float64.int_lt z f = true <-> (inject_Z z < Float64.to_Q f)%Q).
Proof.
  destruct f as [s| | |s m e]; try discriminate; intros _.
  - simpl. unfold Qlt; simpl. rewrite Z.ltb_lt. lia.
  - unfold Float64.int_lt, Float64.to_Q. destruct e as [|p|p];
      rewrite Z.ltb_lt; unfold Qlt; cbn [Qnum Qden inject_Z];
      rewrite ?Pos2Z.inj_pow; lia.
Qed.

(** Rounding keeps the sign it is given. *)
Lemma binary_round_aux_not_negative mx ex lx :
  Float64.not_negative
    (binary_round_aux Float64.prec Float64.emax false mx ex lx) = true.
Proof.
  unfold binary_round_aux.
  destruct (shr_fexp _ _ mx ex lx) as [mrs' e'].
  destruct (shr_fexp _ _ _ e' loc_Exact) as [mrs'' e''].
  destruct (shr_m mrs''); [reflexivity | | reflexivity].
  destruct (_ <=? _); reflexivity.
Qed.




(** ** Rounding in binary64 *)

(** The fractions of the source: the double next to 0.002, and 1. *)
Lemma default_fractions :
  min_area_fraction = S754_finite false 4611686018427388 (-61)
  /\ max_area_fraction = Float64.lit_1_0.
Proof. split; vm_compute; reflexivity. Qed.

Lemma iter_pos_nat {A} (f : A -> A) p : forall x, iter_pos f p x = Nat.iter (Pos.to_nat p) f x.
Proof.
  induction p as [p IH|p IH|]; intros x; cbn [iter_pos].
  - rewrite !IH, Pos2Nat.inj_xI.
    replace (S (2 * Pos.to_nat p))%nat with (Pos.to_nat p + S (Pos.to_nat p))%nat by lia.
    now rewrite Nat.iter_add, Nat.iter_succ_r.
  - rewrite !IH, Pos2Nat.inj_xO.
    replace (2 * Pos.to_nat p)%nat with (Pos.to_nat p + Pos.to_nat p)%nat by lia.
    now rewrite Nat.iter_add.
  - reflexivity.
Qed.

Lemma shr_1_spec mrs :
  0 <= shr_m mrs ->
  shr_m (shr_1 mrs) = shr_m mrs / 2 /\ shr_r (shr_1 mrs) = Z.odd (shr_m mrs).
Proof.
  destruct mrs as [m r s]. cbn [shr_m]. intros Hm.
  rewrite <- Z.div2_div.
  destruct m as [|[p|p|]|p]; try lia; split; reflexivity.
Qed.

Lemma shr_iter_spec M n :
  0 <= M ->
  shr_m (Nat.iter n shr_1 {| shr_m := M; shr_r := false; shr_s := false |})
  = M / 2 ^ Z.of_nat n
  /\ (shr_r (Nat.iter n shr_1 {| shr_m := M; shr_r := false; shr_s := false |}) = true ->
      2 ^ Z.of_nat n <= 2 * (M mod 2 ^ Z.of_nat n)).
Proof.
  intros HM. induction n as [|n [IHm IHr]].
  - cbn. split; [now rewrite Z.div_1_r | discriminate].
  - rewrite Nat.iter_succ.
    set (mrs := Nat.iter n shr_1 _) in *.
    assert (Hpow : 0 < 2 ^ Z.of_nat n) by (apply Z.pow_pos_nonneg; lia).
    assert (Hm : 0 <= shr_m mrs) by (rewrite IHm; apply Z.div_pos; lia).
    destruct (shr_1_spec mrs Hm) as [H1 H2].
    rewrite Nat2Z.inj_succ, Z.pow_succ_r by lia.
    split.
    + rewrite H1, IHm, Z.div_div by lia. f_equal. lia.
    + rewrite H2. intros Hodd.
      rewrite (Z.mul_comm 2 (2 ^ Z.of_nat n)).
      rewrite Z.rem_mul_r by lia.
      rewrite <- IHm.
      pose proof (Zmod_odd (shr_m mrs)) as Hmod. rewrite Hodd in Hmod.
      pose proof (Z.mod_pos_bound M (2 ^ Z.of_nat n) Hpow). nia.
Qed.

Lemma digits2_pos_bounds p :
  2 ^ (Z.pos (digits2_pos p) - 1) <= Z.pos p < 2 ^ Z.pos (digits2_pos p).
Proof.
  induction p as [p IH|p IH|]; cbn [digits2_pos].
  - rewrite Pos2Z.inj_succ. pose proof (Pos2Z.inj_xI p) as Hx.
    replace (Z.succ (Z.pos (digits2_pos p)) - 1) with (Z.succ (Z.pos (digits2_pos p) - 1)) by lia.
    rewrite !Z.pow_succ_r by lia. lia.
  - rewrite Pos2Z.inj_succ. pose proof (Pos2Z.inj_xO p) as Hx.
    replace (Z.succ (Z.pos (digits2_pos p)) - 1) with (Z.succ (Z.pos (digits2_pos p) - 1)) by lia.
    rewrite !Z.pow_succ_r by lia. lia.
  - change (2 ^ (1 - 1) <= 1 < 2 ^ 1). lia.
Qed.

Lemma digits2_pos_unique p d :
  2 ^ (d - 1) <= Z.pos p < 2 ^ d -> Z.pos (digits2_pos p) = d.
Proof.
  intros [Hlo Hhi]. pose proof (digits2_pos_bounds p) as [Hl Hh].
  assert (0 < d).
  { destruct (Z.le_gt_cases d 0) as [Hd|Hd]; [|exact Hd].
    assert (2 ^ d <= 2 ^ 0) by (apply Z.pow_le_mono_r; lia).
    change (2 ^ 0) with 1 in *. lia. }
  assert (Z.pos (digits2_pos p) - 1 < d).
  { apply (Z.pow_lt_mono_r_iff 2); lia. }
  assert (d - 1 < Z.pos (digits2_pos p)).
  { apply (Z.pow_lt_mono_r_iff 2); lia. }
  lia.
Qed.

Lemma iter_xO p d : Z.pos (Pos.iter xO p d) = Z.pos p * 2 ^ Z.pos d.
Proof.
  induction d as [|d IH] using Pos.peano_ind.
  - cbn [Pos.iter]. pose proof (Pos2Z.inj_xO p). change (2 ^ 1) with 2. lia.
  - rewrite Pos.iter_succ, Pos2Z.inj_succ, Z.pow_succ_r by lia.
    pose proof (Pos2Z.inj_xO (Pos.iter xO p d)). lia.
Qed.

Lemma shr_fexp_shift (m : positive) (e : Z) (l : location) (pn : positive) :
  Z.pos (digits2_pos m) + e - 53 = e + Z.pos pn ->
  -1074 <= e + Z.pos pn ->
  shr_fexp 53 1024 (Z.pos m) e l
  = (Nat.iter (Pos.to_nat pn) shr_1 (shr_record_of_loc (Z.pos m) l), e + Z.pos pn).
Proof.
  intros Hd Hmin. unfold shr_fexp, fexp, emin.
  cbn [Zdigits2].
  replace (Z.max (Z.pos (digits2_pos m) + e - 53) (3 - 1024 - 53) - e)
    with (Z.pos pn) by lia.
  unfold shr. now rewrite iter_pos_nat.
Qed.

Lemma shr_fexp_noshift (m : positive) (e : Z) (l : location) :
  Z.pos (digits2_pos m) = 53 -> -1074 <= e ->
  shr_fexp 53 1024 (Z.pos m) e l
  = (shr_record_of_loc (Z.pos m) l, e).
Proof.
  intros Hd Hmin. unfold shr_fexp, fexp, emin.
  cbn [Zdigits2].
  replace (Z.max (Z.pos (digits2_pos m) + e - 53) (3 - 1024 - 53) - e)
    with 0 by lia.
  reflexivity.
Qed.

Lemma round_nearest_even_cases mrs :
  round_nearest_even (shr_m mrs) (loc_of_shr_record mrs) = shr_m mrs
  \/ (round_nearest_even (shr_m mrs) (loc_of_shr_record mrs) = shr_m mrs + 1
      /\ shr_r mrs = true).
Proof.
  destruct mrs as [m [] []]; cbn [shr_m shr_r loc_of_shr_record round_nearest_even];
    auto.
  destruct (Z.even m); auto.
Qed.

(** Rounding a mantissa of more than 53 bits: the bits beyond the 53rd
    are shifted out, the mantissa goes up by one only when the bits
    shifted out make at least half a unit, and the result is the float
    of the rounded mantissa. *)
Lemma binary_round_aux_spec (M : positive) (e : Z) (pn : positive) :
  Z.pos (digits2_pos M) = 53 + Z.pos pn ->
  -1074 <= e + Z.pos pn -> e + Z.pos pn < 971 ->
  exists (m2 : positive) (e2 R : Z),
    binary_round_aux 53 1024 false (Z.pos M) e loc_Exact
    = S754_finite false m2 e2
    /\ (R = Z.pos M / 2 ^ Z.pos pn
        \/ (R = Z.pos M / 2 ^ Z.pos pn + 1
            /\ 2 ^ Z.pos pn <= 2 * (Z.pos M mod 2 ^ Z.pos pn)))
    /\ e + Z.pos pn <= e2 <= e + Z.pos pn + 1
    /\ Z.pos m2 * 2 ^ (e2 - (e + Z.pos pn)) = R.
Proof.
  intros HD Hmin Hmax.
  unfold binary_round_aux.
  rewrite (shr_fexp_shift M e loc_Exact pn) by lia.
  cbv beta iota.
  cbn [shr_record_of_loc].
  destruct (shr_iter_spec (Z.pos M) (Pos.to_nat pn) ltac:(lia)) as [Hm Hr].
  rewrite positive_nat_Z in Hm, Hr.
  set (mrs := Nat.iter (Pos.to_nat pn) shr_1 _) in *.
  pose proof (digits2_pos_bounds M) as [Hlo Hhi]. rewrite HD in Hlo, Hhi.
  assert (Hpn : 0 < 2 ^ Z.pos pn) by (apply Z.pow_pos_nonneg; lia).
  replace (53 + Z.pos pn - 1) with (52 + Z.pos pn) in Hlo by lia.
  rewrite Z.pow_add_r in Hlo, Hhi by lia.
  assert (Hmlo : 2 ^ 52 <= shr_m mrs).
  { rewrite Hm. apply Z.div_le_lower_bound; lia. }
  assert (Hmhi : shr_m mrs < 2 ^ 53).
  { rewrite Hm. apply Z.div_lt_upper_bound; lia. }
  remember (round_nearest_even (shr_m mrs) (loc_of_shr_record mrs)) as R eqn:ER.
  assert (HR : R = Z.pos M / 2 ^ Z.pos pn
               \/ (R = Z.pos M / 2 ^ Z.pos pn + 1
                   /\ 2 ^ Z.pos pn <= 2 * (Z.pos M mod 2 ^ Z.pos pn))).
  { destruct (round_nearest_even_cases mrs) as [H|[H Hrt]]; rewrite <- ER in H.
    - left. congruence.
    - right. split; [congruence | auto]. }
  assert (HRb : 2 ^ 52 <= R <= 2 ^ 53) by (destruct HR as [->|[-> _]]; lia).
  clear ER.
  assert (H52 : 0 < 2 ^ 52) by (apply Z.pow_pos_nonneg; lia).
  destruct R as [|pr|pr]; [lia | | lia].
  destruct (Z.eq_dec (Z.pos pr) (2 ^ 53)) as [Heq|Hne].
  - rewrite (shr_fexp_shift pr (e + Z.pos pn) loc_Exact 1).
    + cbv beta iota. cbn [shr_record_of_loc].
      change (Nat.iter (Pos.to_nat 1) shr_1
                {| shr_m := Z.pos pr; shr_r := false; shr_s := false |})
        with (shr_1 {| shr_m := Z.pos pr; shr_r := false; shr_s := false |}).
      destruct (shr_1_spec {| shr_m := Z.pos pr; shr_r := false; shr_s := false |}
                  ltac:(cbn [shr_m]; lia)) as [H1 _].
      cbn [shr_m] in H1. rewrite H1, Heq.
      change (2 ^ 53 / 2) with (Z.pos (2 ^ 52)).
      replace (e + Z.pos pn + 1 <=? 1024 - 53) with true
        by (symmetry; apply Z.leb_le; lia).
      exists (2 ^ 52)%positive, (e + Z.pos pn + 1), (Z.pos pr).
      split; [reflexivity|]. split; [exact HR|]. split; [lia|].
      replace (e + Z.pos pn + 1 - (e + Z.pos pn)) with 1 by lia.
      rewrite Heq. reflexivity.
    + rewrite (digits2_pos_unique pr 54); [lia|].
      rewrite Heq. split; [apply Z.pow_le_mono_r | apply Z.pow_lt_mono_r]; lia.
    + lia.
  - rewrite (shr_fexp_noshift pr (e + Z.pos pn) loc_Exact).
    + cbv beta iota. cbn [shr_record_of_loc shr_m].
      replace (e + Z.pos pn <=? 1024 - 53) with true
        by (symmetry; apply Z.leb_le; lia).
      exists pr, (e + Z.pos pn), (Z.pos pr).
      split; [reflexivity|]. split; [exact HR|]. split; [lia|].
      rewrite Z.sub_diag. change (2 ^ 0) with 1. lia.
    + apply digits2_pos_unique. change (53 - 1) with 52. lia.
    + lia.
Qed.

Lemma binary_round_aux_exact (m : positive) (e : Z) :
  Z.pos (digits2_pos m) = 53 -> -1074 <= e <= 971 ->
  binary_round_aux 53 1024 false (Z.pos m) e loc_Exact
  = S754_finite false m e.
Proof.
  intros Hd He. unfold binary_round_aux.
  rewrite (shr_fexp_noshift m e loc_Exact) by lia.
  cbv beta iota. cbn [shr_record_of_loc shr_m loc_of_shr_record round_nearest_even].
  rewrite (shr_fexp_noshift m e loc_Exact) by lia.
  cbv beta iota. cbn [shr_record_of_loc shr_m].
  replace (e <=? 1024 - 53) with true by (symmetry; apply Z.leb_le; lia).
  reflexivity.
Qed.

(** The conversion of a positive integer below [2^53] is exact: the
    mantissa is the integer shifted to 53 bits. *)
Lemma of_int_exact (T : Z) :
  0 < T < 2 ^ 53 ->
  exists (mt : positive) (k : Z),
    Float64.of_int T = Some (S754_finite false mt (- k))
    /\ 0 <= k <= 52
    /\ Z.pos mt = T * 2 ^ k
    /\ Z.pos (digits2_pos mt) = 53.
Proof.
  intros [Hpos Hlt]. destruct T as [|t|t]; try lia.
  pose proof (digits2_pos_bounds t) as [Hlo Hhi].
  assert (Hd : Z.pos (digits2_pos t) <= 53).
  { destruct (Z.le_gt_cases (Z.pos (digits2_pos t)) 53) as [H|H]; [exact H|].
    assert (2 ^ 53 <= 2 ^ (Z.pos (digits2_pos t) - 1))
      by (apply Z.pow_le_mono_r; lia). lia. }
  unfold Float64.of_int, binary_normalize, binary_round, Float64.prec, Float64.emax.
  unfold fexp at 1, emin. unfold shl_align.
  replace (Z.max (Z.pos (digits2_pos t) + 0 - 53) (3 - 1024 - 53) - 0)
    with (Z.pos (digits2_pos t) - 53) by lia.
  destruct (Z.pos (digits2_pos t) - 53) as [|d|d] eqn:Ed; try lia.
  - rewrite (binary_round_aux_exact t 0) by lia.
    exists t, 0. split; [reflexivity|]. split; [lia|].
    split; [change (2 ^ 0) with 1; lia | lia].
  - replace (Z.max (Z.pos (digits2_pos t) + 0 - 53) (3 - 1024 - 53))
      with (- Z.pos d) by lia.
    assert (Hmz : Z.pos (digits2_pos (Pos.iter xO t d)) = 53).
    { apply digits2_pos_unique. rewrite iter_xO.
      assert (E52 : 2 ^ 52 = 2 ^ (Z.pos (digits2_pos t) - 1) * 2 ^ Z.pos d)
        by (rewrite <- Z.pow_add_r by lia; f_equal; lia).
      assert (E53 : 2 ^ 53 = 2 ^ Z.pos (digits2_pos t) * 2 ^ Z.pos d)
        by (rewrite <- Z.pow_add_r by lia; f_equal; lia).
      assert (0 < 2 ^ Z.pos d) by (apply Z.pow_pos_nonneg; lia).
      change (53 - 1) with 52. rewrite E52, E53.
      split; [apply Z.mul_le_mono_nonneg_r | apply Z.mul_lt_mono_pos_r]; lia. }
    rewrite (binary_round_aux_exact (Pos.iter xO t d) (- Z.pos d)) by lia.
    exists (Pos.iter xO t d), (Z.pos d). split; [reflexivity|]. split; [lia|].
    split; [apply iter_xO | exact Hmz].
Qed.

(** The arithmetic behind the minimal area: [q] and [rem] are quotient and
    remainder of the exact product by [N], [R] the rounded quotient. *)
Lemma threshold_arith (T a R q rem N P Q2 : Z) :
  0 < T < 4503599627370496 ->
  0 < N -> 0 < P -> 0 < Q2 ->
  N * Q2 = 2305843009213693952 * P ->
  N <= 4503599627370496 * P ->
  T * P * 4611686018427388 = N * q + rem ->
  0 <= rem < N ->
  R = q \/ (R = q + 1 /\ N <= 2 * rem) ->
  (R < a * Q2 <-> T < 500 * a).
Proof.
  intros HT HN HP HQ HNQ HNP HM Hrem HR.
  assert (HTP : 0 < T * P) by (apply Z.mul_pos_pos; lia).
  assert (Hq : 0 <= q).
  { assert (H : 0 < N * (q + 1)) by lia.
    apply Z.mul_pos_cancel_l in H; lia. }
  assert (HRN : 2 * (R * N) <= 2 * (N * q + rem) + N)
    by (destruct HR as [->|[-> Hh]]; lia).
  split.
  - intros HRa. destruct (Z.lt_ge_cases T (500 * a)) as [Hlt|Hge]; [exact Hlt|exfalso].
    destruct (Z.le_gt_cases a 0) as [Ha|Ha].
    + assert (a * Q2 <= 0) by (apply Z.mul_nonpos_nonneg; lia).
      destruct HR as [->|[-> _]]; lia.
    + assert (H0 : 0 <= a * P) by (apply Z.mul_nonneg_nonneg; lia).
      assert (H500 : 500 * a * P <= T * P)
        by (apply Z.mul_le_mono_nonneg_r; lia).
      assert (H2 : a * Q2 * N = a * P * 2305843009213693952).
      { replace (a * Q2 * N) with (a * (N * Q2)) by ring. rewrite HNQ. ring. }
      assert (H3 : a * Q2 * N < (q + 1) * N) by lia.
      apply Z.mul_lt_mono_pos_r in H3; [|exact HN].
      destruct HR as [->|[-> _]]; lia.
  - intros HTa.
    assert (Hd : 500 * (T / 500) <= T < 500 * (T / 500) + 500).
    { pose proof (Z.div_mod T 500 ltac:(lia)).
      pose proof (Z.mod_pos_bound T 500 ltac:(lia)). lia. }
    set (a0 := T / 500 + 1) in *.
    assert (Ha0 : a0 <= a) by (unfold a0; lia).
    assert (Ha0T : 500 * a0 - 500 <= T < 500 * a0) by (unfold a0; lia).
    clearbody a0.
    assert (H2 : T * P <= (500 * a0 - 1) * P)
      by (apply Z.mul_le_mono_nonneg_r; lia).
    assert (H3 : 96 * a0 * P < 4719772409484280 * P)
      by (apply Z.mul_lt_mono_pos_r; lia).
    assert (H4 : a0 * Q2 * N = a0 * P * 2305843009213693952).
    { replace (a0 * Q2 * N) with (a0 * (N * Q2)) by ring. rewrite HNQ. ring. }
    assert (H5 : R * N < a0 * Q2 * N) by lia.
    apply Z.mul_lt_mono_pos_r in H5; [|exact HN].
    assert (a0 * Q2 <= a * Q2) by (apply Z.mul_le_mono_nonneg_r; lia).
    lia.
Qed.

Lemma lt_int_nonpos_exp m e a :
  e <= 0 ->
  Float64.lt_int (S754_finite false m e) a = (Z.pos m <? a * 2 ^ (- e)).
Proof.
  intros He. destruct e as [|p|p]; [| lia |]; cbn [Float64.lt_int cond_Zopp Z.opp].
  - rewrite Z.pow_0_r, !Z.mul_1_r. reflexivity.
  - reflexivity.
Qed.

Lemma int_lt_nonpos_exp a m e :
  e <= 0 ->
  Float64.int_lt a (S754_finite false m e) = (a * 2 ^ (- e) <? Z.pos m).
Proof.
  intros He. destruct e as [|p|p]; [| lia |]; cbn [Float64.int_lt cond_Zopp Z.opp].
  - rewrite Z.pow_0_r, !Z.mul_1_r. reflexivity.
  - reflexivity.
Qed.

(** The minimal area of the source is the total area over 500, as far as
    integer areas can tell: for a total area below [2^52] the float
    threshold lies strictly below an integer [a] exactly when
    [total_area < 500 * a]. *)
Lemma default_min_area_exact (T : Z) :
  0 < T < 2 ^ 52 ->
  exists f,
    min_area FINAL_MIN_AREA_PERCENTAGE T = Some f
    /\ Float64.is_finite f = true
    /\ forall a, Float64.lt_int f a = true <-> T < 500 * a.
Proof.
  intros HT.
  assert (E52 : 2 ^ 52 = 4503599627370496) by reflexivity.
  assert (E53 : 2 ^ 53 = 9007199254740992) by reflexivity.
  assert (E61 : 2 ^ 61 = 2305843009213693952) by reflexivity.
  destruct (of_int_exact T) as (mt & k & Hof & Hk & Hmt & Hdt); [lia|].
  pose proof (digits2_pos_bounds mt) as Hmtb. rewrite Hdt in Hmtb.
  change (53 - 1) with 52 in Hmtb.
  assert (Hk1 : 1 <= k).
  { destruct (Z.eq_dec k 0) as [->|]; [|lia].
    rewrite Z.pow_0_r in Hmt. lia. }
  unfold min_area, Float64.int_mul. rewrite Hof.
  change (Float64.div FINAL_MIN_AREA_PERCENTAGE Float64.lit_100_0)
    with min_area_fraction.
  destruct default_fractions as [Hfrac _]. rewrite Hfrac.
  change (Float64.mul (S754_finite false mt (- k))
            (S754_finite false 4611686018427388 (-61)))
    with (binary_round_aux 53 1024 false (Z.pos (mt * 4611686018427388))
            (- k + -61) loc_Exact).
  pose proof (digits2_pos_bounds (mt * 4611686018427388)) as HD.
  set (D := Z.pos (digits2_pos (mt * 4611686018427388))) in *.
  assert (HM : Z.pos (mt * 4611686018427388) = T * 2 ^ k * 4611686018427388)
    by (rewrite Pos2Z.inj_mul, Hmt; reflexivity).
  assert (HMlo : 2 ^ 104 <= Z.pos (mt * 4611686018427388)).
  { rewrite Pos2Z.inj_mul. change (2 ^ 104) with (2 ^ 52 * 2 ^ 52).
    apply Z.mul_le_mono_nonneg; lia. }
  assert (HMhi : Z.pos (mt * 4611686018427388) < 2 ^ 106).
  { rewrite Pos2Z.inj_mul. change (2 ^ 106) with (2 ^ 53 * 2 ^ 53).
    apply Z.mul_lt_mono_nonneg; lia. }
  assert (HD1 : 104 < D) by (apply (Z.pow_lt_mono_r_iff 2); lia).
  assert (HD2 : D - 1 < 106) by (apply (Z.pow_lt_mono_r_iff 2); lia).
  destruct (D - 53) as [|pn|pn] eqn:En; try lia.
  destruct (binary_round_aux_spec (mt * 4611686018427388) (- k + -61) pn)
    as (m2 & e2 & R & Hround & HR & He2 & Hval); [fold D; lia | lia | lia |].
  rewrite Hround. eexists. split; [reflexivity|]. split; [reflexivity|].
  intros a. rewrite lt_int_nonpos_exp by lia. rewrite Z.ltb_lt.
  assert (HN : 0 < 2 ^ Z.pos pn) by (apply Z.pow_pos_nonneg; lia).
  assert (HP : 0 < 2 ^ k) by (apply Z.pow_pos_nonneg; lia).
  assert (HQ : 0 < 2 ^ (k + 61 - Z.pos pn)) by (apply Z.pow_pos_nonneg; lia).
  rewrite <- (threshold_arith T a R
                (Z.pos (mt * 4611686018427388) / 2 ^ Z.pos pn)
                (Z.pos (mt * 4611686018427388) mod 2 ^ Z.pos pn)
                (2 ^ Z.pos pn) (2 ^ k) (2 ^ (k + 61 - Z.pos pn))).
  - destruct (Z.eq_dec e2 (- k + -61 + Z.pos pn)) as [He|He].
    + rewrite He, Z.sub_diag, Z.pow_0_r in Hval.
      replace (- e2) with (k + 61 - Z.pos pn) by lia. lia.
    + replace (e2 - (- k + -61 + Z.pos pn)) with 1 in Hval by lia.
      replace (k + 61 - Z.pos pn) with (Z.succ (- e2)) by lia.
      rewrite Z.pow_succ_r by lia. change (2 ^ 1) with 2 in Hval. lia.
  - lia.
  - exact HN.
  - exact HP.
  - exact HQ.
  - rewrite <- Z.pow_add_r, <- E61, <- Z.pow_add_r by lia. f_equal. lia.
  - rewrite <- E52, <- Z.pow_add_r by lia. apply Z.pow_le_mono_r; lia.
  - rewrite <- HM. apply Z.div_mod. lia.
  - apply Z.mod_pos_bound. exact HN.
  - exact HR.
Qed.

(** The maximal area of the source is the total area itself. *)
Lemma default_max_area_exact (T : Z) :
  0 < T < 2 ^ 52 ->
  exists f,
    max_area FINAL_MAX_AREA_PERCENTAGE T = Some f
    /\ Float64.is_finite f = true
    /\ forall a, Float64.int_lt a f = true <-> a < T.
Proof.
  intros HT.
  assert (E52 : 2 ^ 52 = 4503599627370496) by reflexivity.
  assert (E53 : 2 ^ 53 = 9007199254740992) by reflexivity.
  destruct (of_int_exact T) as (mt & k & Hof & Hk & Hmt & Hdt); [lia|].
  pose proof (digits2_pos_bounds mt) as Hmtb. rewrite Hdt in Hmtb.
  change (53 - 1) with 52 in Hmtb.
  assert (Hk1 : 1 <= k).
  { destruct (Z.eq_dec k 0) as [->|]; [|lia].
    rewrite Z.pow_0_r in Hmt. lia. }
  unfold max_area, Float64.int_mul. rewrite Hof.
  change (Float64.div FINAL_MAX_AREA_PERCENTAGE Float64.lit_1_0)
    with max_area_fraction.
  destruct default_fractions as [_ Hfrac]. rewrite Hfrac.
  change (Float64.mul (S754_finite false mt (- k)) Float64.lit_1_0)
    with (binary_round_aux 53 1024 false (Z.pos (mt * 4503599627370496))
            (- k + -52) loc_Exact).
  assert (HM : Z.pos (mt * 4503599627370496) = Z.pos mt * 2 ^ 52)
    by (rewrite Pos2Z.inj_mul, E52; reflexivity).
  assert (HD : Z.pos (digits2_pos (mt * 4503599627370496)) = 53 + 52).
  { apply digits2_pos_unique. rewrite HM.
    change (2 ^ (53 + 52 - 1)) with (2 ^ 52 * 2 ^ 52).
    change (2 ^ (53 + 52)) with (2 ^ 53 * 2 ^ 52).
    split; [apply Z.mul_le_mono_nonneg_r | apply Z.mul_lt_mono_pos_r]; lia. }
  destruct (binary_round_aux_spec (mt * 4503599627370496) (- k + -52) 52)
    as (m2 & e2 & R & Hround & HR & He2 & Hval); [exact HD | lia | lia |].
  rewrite Hround. eexists. split; [reflexivity|]. split; [reflexivity|].
  intros a. rewrite int_lt_nonpos_exp by lia. rewrite Z.ltb_lt.
  rewrite HM in HR.
  rewrite Z.div_mul, Z.mod_mul in HR by lia.
  assert (HRT : R = T * 2 ^ k) by (destruct HR as [->|[_ H]]; lia).
  assert (HP : 0 < 2 ^ k) by (apply Z.pow_pos_nonneg; lia).
  destruct (Z.eq_dec e2 (- k + -52 + 52)) as [He|He].
  - rewrite He, Z.sub_diag, Z.pow_0_r in Hval.
    replace (- e2) with k by lia.
    replace (Z.pos m2) with (T * 2 ^ k) by lia.
    split; intros H.
    + apply Z.mul_lt_mono_pos_r in H; assumption.
    + apply Z.mul_lt_mono_pos_r; assumption.
  - replace (e2 - (- k + -52 + 52)) with 1 in Hval by lia.
    change (2 ^ 1) with 2 in Hval.
    assert (Hk' : k = Z.succ (- e2)) by lia.
    assert (HP' : 0 < 2 ^ (- e2)) by (apply Z.pow_pos_nonneg; lia).
    rewrite Hk', Z.pow_succ_r in HRT by lia.
    assert (Hm2 : Z.pos m2 = T * 2 ^ (- e2)) by lia.
    rewrite Hm2. split; intros H.
    + apply Z.mul_lt_mono_pos_r in H; assumption.
    + apply Z.mul_lt_mono_pos_r; assumption.
Qed.

(** ** Area filter *)

Lemma area_loop_spec mn mx boxes acc :
  area_loop mn mx boxes acc = acc ++ filter (in_range mn mx) boxes.
Proof.
  revert acc; induction boxes as [|[[[x y] w] h] bs IH]; intros acc; simpl.
  - now rewrite app_nil_r.
  - rewrite IH. unfold in_range at 2. cbn [area].
    destruct (_ && _); [now rewrite <- app_assoc | reflexivity].
Qed.

Lemma NoDup_filter {A} (f : A -> bool) (l : list A) :
  NoDup l -> NoDup (filter f l).
Proof.
  induction 1 as [|a l Hin Hnd IH]; simpl; [constructor|].
  destruct (f a); [constructor|]; auto.
  rewrite filter_In. tauto.
Qed.

Lemma filter_by_area_inv set_iter minp maxp total boxes tags :
  filter_by_area set_iter minp maxp total boxes = Some tags ->
  exists totalArea,
    Float64.of_int total = Some totalArea
    /\ tags = filter (in_range
                        (Float64.mul totalArea (Float64.div minp Float64.lit_100_0))
                        (Float64.mul totalArea (Float64.div maxp Float64.lit_1_0)))
                     (set_iter boxes).
Proof.
  unfold filter_by_area, min_area, max_area, Float64.int_mul.
  destruct (Float64.of_int total) as [fz|]; [|discriminate].
  intros [= <-]. exists fz. split; [reflexivity|].
  now rewrite area_loop_spec.
Qed.

Lemma first_seen_order : set_order first_seen.
Proof.
  intros l. induction l as [|a l [IHnd IHin]]; simpl.
  - split; [constructor | tauto].
  - split.
    + constructor.
      * apply remove_In.
      * clear IHin. induction IHnd as [|c m Hc Hm IHm]; simpl; [constructor|].
        destruct (box_eq_dec a c); [exact IHm|].
        constructor; [|exact IHm].
        intros Hin. apply in_remove in Hin. tauto.
    + intros b. split.
      * intros [->|Hin]; [now left|]. apply in_remove in Hin. right.
        apply IHin. tauto.
      * intros [->|Hin]; [now left|].
        destruct (box_eq_dec a b) as [->|Hne]; [now left|].
        right. apply in_in_remove; [congruence | now apply IHin].
Qed.

Lemma filter_by_area_default_exact set_iter total boxes :
  set_order set_iter ->
  0 < total < 2 ^ 52 ->
  exists tags,
    filter_by_area set_iter FINAL_MIN_AREA_PERCENTAGE FINAL_MAX_AREA_PERCENTAGE
      total boxes = Some tags
    /\ forall x y w h,
         In (x, y, w, h) tags <->
         In (x, y, w, h) boxes /\ total < 500 * (w * h) /\ w * h < total.
Proof.
  intros Hset HT.
  destruct (default_min_area_exact total HT) as (mn & Hmn & _ & Hlo).
  destruct (default_max_area_exact total HT) as (mx & Hmx & _ & Hhi).
  unfold filter_by_area. rewrite Hmn, Hmx. eexists. split; [reflexivity|].
  intros x y w h. rewrite area_loop_spec. cbn [app].
  rewrite filter_In. unfold in_range. cbn [area].
  rewrite andb_true_iff, Hlo, Hhi.
  destruct (Hset boxes) as [_ Hin]. rewrite Hin. tauto.
Qed.

(** C3. The area filter keeps a candidate box exactly when its area
    [w * h] lies strictly between the two thresholds, the thresholds being
    the total area [imageWidth * imageHeight] times the minimal and the
    maximal fraction; the comparisons are the exact, strict order of the
    numbers compared. With the fractions of the source, 0.2 / 100 and
    1.0 / 1.0, and a total area below [2^52], the rounding of the float
    product never shows: a box is kept exactly when
    [total / 500 < w * h < total] over the rationals. *)
Theorem filter_by_area_strict_range :
  forall (set_iter : list box -> list box) (min_percentage max_percentage : Float64.float)
         (imageWidth imageHeight : Z) (boxes tags : list box),
    set_order set_iter ->
    filter_by_area set_iter min_percentage max_percentage
      (imageWidth * imageHeight) boxes = Some tags ->
    exists totalArea minArea maxArea : Float64.float,
      Float64.of_int (imageWidth * imageHeight) = Some totalArea
      /\ minArea = Float64.mul totalArea (Float64.div min_percentage Float64.lit_100_0)
      /\ maxArea = Float64.mul totalArea (Float64.div max_percentage Float64.lit_1_0)
      /\ (forall x y w h,
            In (x, y, w, h) tags <->
            In (x, y, w, h) boxes
            /\ Float64.lt_int minArea (w * h) = true
            /\ Float64.int_lt (w * h) maxArea = true)
      /\ (Float64.is_finite minArea = true -> Float64.is_finite maxArea = true ->
          forall x y w h,
            In (x, y, w, h) tags <->
            In (x, y, w, h) boxes
            /\ (Float64.to_Q minArea < inject_Z (w * h))%Q
            /\ (inject_Z (w * h) < Float64.to_Q maxArea)%Q)
      /\ (min_percentage = FINAL_MIN_AREA_PERCENTAGE ->
          max_percentage = FINAL_MAX_AREA_PERCENTAGE ->
          0 < imageWidth * imageHeight < 2 ^ 52 ->
          forall x y w h,
            In (x, y, w, h) tags <->
            In (x, y, w, h) boxes
            /\ (inject_Z (imageWidth * imageHeight) * (1 # 500) < inject_Z (w * h))%Q
            /\ (inject_Z (w * h) < inject_Z (imageWidth * imageHeight) * 1)%Q).
Proof.
  intros set_iter minp maxp W H boxes tags Hset Hf.
  pose proof Hf as Hf0.
  apply filter_by_area_inv in Hf as (totalArea & Hconv & ->).
  exists totalArea. eexists. eexists.
  split; [exact Hconv|]. split; [reflexivity|]. split; [reflexivity|].
  assert (Hmem : forall x y w h mn mx,
    In (x, y, w, h) (filter (in_range mn mx) (set_iter boxes)) <->
    In (x, y, w, h) boxes
    /\ Float64.lt_int mn (w * h) = true /\ Float64.int_lt (w * h) mx = true).
  { intros x y w h mn mx. rewrite filter_In. unfold in_range. cbn [area].
    rewrite andb_true_iff. destruct (Hset boxes) as [_ Hin]. rewrite Hin. tauto. }
  split; [intros; apply Hmem|]. split.
  - intros Hmin Hmax x y w h. rewrite Hmem.
    rewrite (lt_int_spec _ _ Hmin), (int_lt_spec _ _ Hmax). tauto.
  - intros -> -> HT x y w h.
    destruct (filter_by_area_default_exact set_iter (W * H) boxes Hset HT)
      as (tags' & Hf' & Hex).
    assert (Htags : Some (filter (in_range
                (Float64.mul totalArea
                   (Float64.div FINAL_MIN_AREA_PERCENTAGE Float64.lit_100_0))
                (Float64.mul totalArea
                   (Float64.div FINAL_MAX_AREA_PERCENTAGE Float64.lit_1_0)))
              (set_iter boxes)) = Some tags') by (rewrite <- Hf0; exact Hf').
    apply (f_equal (fun o => match o with Some l => l | None => [] end)) in Htags.
    cbv beta iota in Htags. rewrite Htags, Hex.
    unfold Qlt. cbn [Qnum Qden inject_Z Qmult].
    change (Z.pos (1 * 500)) with 500. change (Z.pos (1 * 1)) with 1.
    split; intros (Hin & Ha & Hb); repeat split; auto; lia.
Qed.

Lemma filter_by_area_strict_range_witness :
  set_order first_seen
  /\ filter_by_area first_seen FINAL_MIN_AREA_PERCENTAGE FINAL_MAX_AREA_PERCENTAGE
       (1000 * 1000) [(10, 50, 60, 50); (0, 0, 40, 50); (10, 50, 60, 50)]
     = Some [(10, 50, 60, 50)]
  /\ exists totalArea minArea maxArea : Float64.float,
      Float64.of_int (1000 * 1000) = Some totalArea
      /\ minArea = Float64.mul totalArea (Float64.div FINAL_MIN_AREA_PERCENTAGE Float64.lit_100_0)
      /\ maxArea = Float64.mul totalArea (Float64.div FINAL_MAX_AREA_PERCENTAGE Float64.lit_1_0)
      /\ (forall x y w h,
            In (x, y, w, h) [(10, 50, 60, 50)] <->
            In (x, y, w, h) [(10, 50, 60, 50); (0, 0, 40, 50); (10, 50, 60, 50)]
            /\ Float64.lt_int minArea (w * h) = true
            /\ Float64.int_lt (w * h) maxArea = true).
Proof.
  split; [exact first_seen_order|].
  split; [vm_compute; reflexivity|].
  destruct (filter_by_area_strict_range first_seen
              FINAL_MIN_AREA_PERCENTAGE FINAL_MAX_AREA_PERCENTAGE 1000 1000
              [(10, 50, 60, 50); (0, 0, 40, 50); (10, 50, 60, 50)]
              [(10, 50, 60, 50)] first_seen_order)
    as (totalArea & minArea & maxArea & H1 & H2 & H3 & H4 & _).
  - vm_compute. reflexivity.
  - exists totalArea, minArea, maxArea. auto.
Defined.

(** The thresholds of the source for an image of 1000 x 1000 pixels:
    the fraction is the double next to 0.002, the minimal area is 2000 and
    the maximal area 1000000, both exact. *)
Lemma thresholds_1000x1000 :
  min_area_fraction = S754_finite false 4611686018427388 (-61)
  /\ max_area_fraction = Float64.lit_1_0
  /\ min_area FINAL_MIN_AREA_PERCENTAGE (1000 * 1000) = Float64.of_int 2000
  /\ max_area FINAL_MAX_AREA_PERCENTAGE (1000 * 1000) = Float64.of_int 1000000
  /\ (forall a, Float64.lt_int (S754_finite false 8796093022208000 (-42)) a = (2000 <? a))
  /\ (forall a, Float64.int_lt a (S754_finite false 8589934592000000 (-33)) = (a <? 1000000)).
Proof.
  split; [vm_compute; reflexivity|].
  split; [vm_compute; reflexivity|].
  split; [vm_compute; reflexivity|].
  split; [vm_compute; reflexivity|].
  split; intros a.
  - unfold Float64.lt_int, cond_Zopp.
    apply eq_true_iff_eq. rewrite !Z.ltb_lt.
    replace (2 ^ Z.pos 42) with 4398046511104 by (vm_compute; reflexivity). lia.
  - unfold Float64.int_lt, cond_Zopp.
    apply eq_true_iff_eq. rewrite !Z.ltb_lt.
    replace (2 ^ Z.pos 33) with 8589934592 by (vm_compute; reflexivity). lia.
Qed.

Lemma filter_by_area_1000x1000 set_iter boxes tags :
  filter_by_area set_iter FINAL_MIN_AREA_PERCENTAGE FINAL_MAX_AREA_PERCENTAGE
    (1000 * 1000) boxes = Some tags ->
  tags = filter (fun b => (2000 <? area b) && (area b <? 1000000)) (set_iter boxes).
Proof.
  intros Hf. apply filter_by_area_inv in Hf as (totalArea & Hconv & ->).
  vm_compute in Hconv. injection Hconv as <-.
  apply filter_ext. intros b. unfold in_range.
  destruct thresholds_1000x1000 as (_ & _ & _ & _ & Hlo & Hhi).
  change (Float64.mul _ (Float64.div FINAL_MIN_AREA_PERCENTAGE Float64.lit_100_0))
    with (S754_finite false 8796093022208000 (-42)).
  change (Float64.mul _ (Float64.div FINAL_MAX_AREA_PERCENTAGE Float64.lit_1_0))
    with (S754_finite false 8589934592000000 (-33)).
  now rewrite Hlo, Hhi.
Qed.

(** C5 (as the code has it). In an image of 1000 x 1000 pixels with the
    thresholds of the source (0.2 percent and 100 percent of the image
    area) the minimal area is 2000: a candidate box is kept exactly when
    [2000 < w * h < 1000000]. A box of area 2000 is the boundary value and
    is dropped; boxes of area 2500 and of area 2600 are kept. *)
Theorem area_filter_1000x1000 :
  forall (set_iter : list box -> list box) (boxes tags : list box),
    set_order set_iter ->
    filter_by_area set_iter FINAL_MIN_AREA_PERCENTAGE FINAL_MAX_AREA_PERCENTAGE
      (1000 * 1000) boxes = Some tags ->
    forall x y w h,
      (In (x, y, w, h) tags <->
       In (x, y, w, h) boxes /\ 2000 < w * h < 1000000)
      /\ (w * h = 2000 -> In (x, y, w, h) tags -> False)
      /\ (w * h = 2500 -> In (x, y, w, h) boxes -> In (x, y, w, h) tags)
      /\ (w * h = 2600 -> In (x, y, w, h) boxes -> In (x, y, w, h) tags).
Proof.
  intros set_iter boxes tags Hset Hf x y w h.
  apply filter_by_area_1000x1000 in Hf as ->.
  assert (Hiff : In (x, y, w, h)
                   (filter (fun b => (2000 <? area b) && (area b <? 1000000))
                      (set_iter boxes)) <->
                 In (x, y, w, h) boxes /\ 2000 < w * h < 1000000).
  { rewrite filter_In. cbn [area]. rewrite andb_true_iff, !Z.ltb_lt.
    destruct (Hset boxes) as [_ Hin]. rewrite Hin. tauto. }
  split; [exact Hiff|]. rewrite Hiff.
  repeat split; intros; try tauto; lia.
Qed.

Lemma area_filter_1000x1000_witness :
  set_order first_seen
  /\ filter_by_area first_seen FINAL_MIN_AREA_PERCENTAGE FINAL_MAX_AREA_PERCENTAGE
       (1000 * 1000) [(0, 0, 40, 50); (0, 0, 50, 50); (0, 0, 52, 50)]
     = Some [(0, 0, 50, 50); (0, 0, 52, 50)]
  /\ forall x y w h,
      (In (x, y, w, h) [(0, 0, 50, 50); (0, 0, 52, 50)] <->
       In (x, y, w, h) [(0, 0, 40, 50); (0, 0, 50, 50); (0, 0, 52, 50)]
       /\ 2000 < w * h < 1000000)
      /\ (w * h = 2000 -> In (x, y, w, h) [(0, 0, 50, 50); (0, 0, 52, 50)] -> False)
      /\ (w * h = 2500 -> In (x, y, w, h) [(0, 0, 40, 50); (0, 0, 50, 50); (0, 0, 52, 50)] ->
          In (x, y, w, h) [(0, 0, 50, 50); (0, 0, 52, 50)])
      /\ (w * h = 2600 -> In (x, y, w, h) [(0, 0, 40, 50); (0, 0, 50, 50); (0, 0, 52, 50)] ->
          In (x, y, w, h) [(0, 0, 50, 50); (0, 0, 52, 50)]).
Proof.
  split; [exact first_seen_order|].
  split; [vm_compute; reflexivity|].
  apply (area_filter_1000x1000 first_seen
           [(0, 0, 40, 50); (0, 0, 50, 50); (0, 0, 52, 50)]
           [(0, 0, 50, 50); (0, 0, 52, 50)]).
  - exact first_seen_order.
  - vm_compute. reflexivity.
Defined.

(** C5 as stated fails: with the minimal fraction 0.2 / 100 the threshold
    in a 1000 x 1000 image is 2000, so a box of area 2500 (50 x 50) is not
    a boundary value and the filter keeps it. *)
Lemma area_2500_is_kept :
  area (0, 0, 50, 50) = 2500
  /\ min_area FINAL_MIN_AREA_PERCENTAGE (1000 * 1000) = Float64.of_int 2000
  /\ filter_by_area first_seen FINAL_MIN_AREA_PERCENTAGE FINAL_MAX_AREA_PERCENTAGE
       (1000 * 1000) [(0, 0, 50, 50)] = Some [(0, 0, 50, 50)].
Proof. repeat (split; [vm_compute; reflexivity|]). vm_compute. reflexivity. Qed.

(** C9. The filter iterates over the set of the candidate boxes: equal
    boxes collapse to one, so the kept boxes are pairwise distinct, and the
    set of kept boxes depends only on which boxes occur among the
    candidates, on the image area and on the thresholds. Permuting or
    repeating candidates, or another iteration order of the set, changes
    at most the order of the kept boxes. *)
Theorem filter_by_area_set_semantics :
  forall (set_iter set_iter' : list box -> list box)
         (min_percentage max_percentage : Float64.float) (total_area : Z)
         (boxes boxes' : list box),
    set_order set_iter -> set_order set_iter' ->
    (forall b, In b boxes <-> In b boxes') ->
    match filter_by_area set_iter min_percentage max_percentage total_area boxes,
          filter_by_area set_iter' min_percentage max_percentage total_area boxes'
    with
    | Some tags, Some tags' =>
        NoDup tags /\ NoDup tags'
        /\ (forall b, In b tags <-> In b tags')
        /\ Permutation tags tags'
    | None, None => True
    | _, _ => False
    end.
Proof.
  intros set_iter set_iter' minp maxp total boxes boxes' Hs Hs' Hsame.
  destruct (filter_by_area set_iter minp maxp total boxes) as [tags|] eqn:E;
    destruct (filter_by_area set_iter' minp maxp total boxes') as [tags'|] eqn:E'.
  - apply filter_by_area_inv in E as (fz & Hc & ->).
    apply filter_by_area_inv in E' as (fz' & Hc' & ->).
    assert (fz' = fz) by congruence. subst fz'.
    destruct (Hs boxes) as [Hnd Hin]. destruct (Hs' boxes') as [Hnd' Hin'].
    assert (Hmem : forall b,
      In b (filter (in_range (Float64.mul fz (Float64.div minp Float64.lit_100_0))
                             (Float64.mul fz (Float64.div maxp Float64.lit_1_0)))
              (set_iter boxes)) <->
      In b (filter (in_range (Float64.mul fz (Float64.div minp Float64.lit_100_0))
                             (Float64.mul fz (Float64.div maxp Float64.lit_1_0)))
              (set_iter' boxes'))).
    { intros b. rewrite !filter_In, Hin, Hin', Hsame. tauto. }
    split; [now apply NoDup_filter|]. split; [now apply NoDup_filter|].
    split; [exact Hmem|].
    apply NoDup_Permutation; auto using NoDup_filter.
  - unfold filter_by_area, min_area, max_area, Float64.int_mul in E, E'.
    destruct (Float64.of_int total); discriminate.
  - unfold filter_by_area, min_area, max_area, Float64.int_mul in E, E'.
    destruct (Float64.of_int total); discriminate.
  - exact I.
Qed.

Lemma filter_by_area_set_semantics_witness :
  set_order first_seen
  /\ (forall b, In b [(10, 50, 60, 50); (5, 5, 70, 70); (10, 50, 60, 50)] <->
                In b [(5, 5, 70, 70); (10, 50, 60, 50)])
  /\ match filter_by_area first_seen FINAL_MIN_AREA_PERCENTAGE FINAL_MAX_AREA_PERCENTAGE
             (1000 * 1000) [(10, 50, 60, 50); (5, 5, 70, 70); (10, 50, 60, 50)],
           filter_by_area first_seen FINAL_MIN_AREA_PERCENTAGE FINAL_MAX_AREA_PERCENTAGE
             (1000 * 1000) [(5, 5, 70, 70); (10, 50, 60, 50)]
     with
     | Some tags, Some tags' =>
         NoDup tags /\ NoDup tags'
         /\ (forall b, In b tags <-> In b tags')
         /\ Permutation tags tags'
     | None, None => True
     | _, _ => False
     end.
Proof.
  assert (Hsame : forall b, In b [(10, 50, 60, 50); (5, 5, 70, 70); (10, 50, 60, 50)] <->
                            In b [(5, 5, 70, 70); (10, 50, 60, 50)])
    by (intros b; simpl; tauto).
  split; [exact first_seen_order|]. split; [exact Hsame|].
  exact (filter_by_area_set_semantics first_seen first_seen
           FINAL_MIN_AREA_PERCENTAGE FINAL_MAX_AREA_PERCENTAGE (1000 * 1000)
           _ _ first_seen_order first_seen_order Hsame).
Defined.

(** ** The crop of a tag *)

Lemma adjust_nonneg i len : 0 <= i -> Numpy.adjust i len = Z.min i len.
Proof.
  intros Hi. unfold Numpy.adjust.
  destruct (Z.ltb_spec i 0); [lia | reflexivity].
Qed.

Lemma expanded_crop_nonneg image x y w h :
  0 <= y -> 0 <= h -> 0 <= x -> 0 <= w ->
  expanded_crop image (x, y, w, h) =
  {| Numpy.view_y := Z.min (Z.max 0 (y - h)) (Z.of_N (Numpy.height image));
     Numpy.view_x := Z.min x (Z.of_N (Numpy.width image));
     Numpy.view_height :=
       Z.max 0 (Z.min (y + h) (Z.of_N (Numpy.height image))
                - Z.min (Z.max 0 (y - h)) (Z.of_N (Numpy.height image)));
     Numpy.view_width :=
       Z.max 0 (Z.min (x + w) (Z.of_N (Numpy.width image))
                - Z.min x (Z.of_N (Numpy.width image))) |}.
Proof.
  intros Hy Hh Hx Hw. unfold expanded_crop, crop_bounds, Numpy.slice.
  rewrite !adjust_nonneg by lia. reflexivity.
Qed.

(** C2. The crop of a box reaches upward by the height of the box, not
    above row 0: the slice runs over the rows from
    [expanded_y_start = max(0, y - h)] to [y + h] and over the columns
    from [x] to [x + w]; for a box inside the image this is the region
    that is cut out. The two boxes of the examples give the regions
    (x 10, y 20, w 20, h 60) and (x 10, y 0, w 20, h 35). *)
Theorem crop_region_expanded_upward :
  forall (image : Numpy.ndarray) (x y w h : Z),
    0 <= y -> 0 <= h ->
    crop_bounds (x, y, w, h) = (Z.max 0 (y - h), y + h, x, x + w)
    /\ 0 <= Z.max 0 (y - h) <= y + h
    /\ (0 <= x -> 0 <= w ->
        x + w <= Z.of_N (Numpy.width image) ->
        y + h <= Z.of_N (Numpy.height image) ->
        expanded_crop image (x, y, w, h) =
        {| Numpy.view_y := Z.max 0 (y - h); Numpy.view_x := x;
           Numpy.view_height := (y + h) - Z.max 0 (y - h);
           Numpy.view_width := (x + w) - x |})
    /\ expanded_crop {| Numpy.height := 200; Numpy.width := 200 |} (10, 50, 20, 30) =
       {| Numpy.view_y := 20; Numpy.view_x := 10;
          Numpy.view_height := 60; Numpy.view_width := 20 |}
    /\ expanded_crop {| Numpy.height := 200; Numpy.width := 200 |} (10, 5, 20, 30) =
       {| Numpy.view_y := 0; Numpy.view_x := 10;
          Numpy.view_height := 35; Numpy.view_width := 20 |}.
Proof.
  intros image x y w h Hy Hh.
  split; [reflexivity|]. split; [lia|].
  split; [|split; reflexivity].
  intros Hx Hw HW HH. rewrite expanded_crop_nonneg by assumption.
  f_equal; lia.
Qed.

Lemma crop_region_expanded_upward_witness :
  crop_bounds (10, 50, 20, 30) = (Z.max 0 (50 - 30), 50 + 30, 10, 10 + 20)
  /\ 0 <= Z.max 0 (50 - 30) <= 50 + 30
  /\ expanded_crop {| Numpy.height := 200; Numpy.width := 200 |} (10, 50, 20, 30) =
     {| Numpy.view_y := Z.max 0 (50 - 30); Numpy.view_x := 10;
        Numpy.view_height := (50 + 30) - Z.max 0 (50 - 30);
        Numpy.view_width := (10 + 20) - 10 |}.
Proof.
  destruct (crop_region_expanded_upward
              {| Numpy.height := 200; Numpy.width := 200 |} 10 50 20 30
              ltac:(lia) ltac:(lia)) as (Hb & Hr & Hv & _).
  split; [exact Hb|]. split; [exact Hr|].
  apply Hv; simpl; lia.
Defined.

(** C10 (as the code has it). For a box with [0 <= y] and [0 <= h] the
    slice that plans the crop ends at [y + h], the bottom edge of the box,
    and runs over [min(2 * h, y + h)] rows, at most twice the height of the
    box. The rows that are cut out of the image are those of the slice
    clipped to the image: they begin at [min(max(0, y - h), height)] and
    end at [min(y + h, height)]. They never reach below [y + h] and are at
    most [min(2 * h, y + h)]; they end at [y + h] exactly when the box ends
    inside the image, and then they are [min(2 * h, y + h)] rows. *)
Theorem crop_rows_bounded :
  forall (image : Numpy.ndarray) (x y w h y0 y1 x0 x1 : Z),
    0 <= y -> 0 <= h ->
    crop_bounds (x, y, w, h) = (y0, y1, x0, x1) ->
    y1 = y + h
    /\ y1 - y0 = Z.min (2 * h) (y + h)
    /\ y1 - y0 <= 2 * h
    /\ Numpy.view_y (expanded_crop image (x, y, w, h))
       = Z.min (Z.max 0 (y - h)) (Z.of_N (Numpy.height image))
    /\ Numpy.view_y (expanded_crop image (x, y, w, h))
       + Numpy.view_height (expanded_crop image (x, y, w, h))
       = Z.min (y + h) (Z.of_N (Numpy.height image))
    /\ Numpy.view_y (expanded_crop image (x, y, w, h))
       + Numpy.view_height (expanded_crop image (x, y, w, h)) <= y + h
    /\ Numpy.view_height (expanded_crop image (x, y, w, h)) <= Z.min (2 * h) (y + h)
    /\ (Numpy.view_y (expanded_crop image (x, y, w, h))
        + Numpy.view_height (expanded_crop image (x, y, w, h)) = y + h
        <-> y + h <= Z.of_N (Numpy.height image))
    /\ (y + h <= Z.of_N (Numpy.height image) ->
        Numpy.view_height (expanded_crop image (x, y, w, h)) = Z.min (2 * h) (y + h)).
Proof.
  intros image x y w h y0 y1 x0 x1 Hy Hh Hb.
  unfold crop_bounds in Hb. injection Hb as <- <- <- <-.
  unfold expanded_crop, crop_bounds, Numpy.slice.
  cbn [Numpy.view_y Numpy.view_height].
  rewrite !adjust_nonneg by lia.
  split; [reflexivity|]. split; [lia|]. split; [lia|]. split; [reflexivity|].
  split; [lia|]. split; [lia|]. split; [lia|]. split; [split; lia | lia].
Qed.

Lemma crop_rows_bounded_witness :
  crop_bounds (10, 5, 20, 30) = (0, 35, 10, 30)
  /\ 35 = 5 + 30
  /\ 35 - 0 = Z.min (2 * 30) (5 + 30)
  /\ 35 - 0 <= 2 * 30.
Proof.
  destruct (crop_rows_bounded {| Numpy.height := 200; Numpy.width := 200 |}
              10 5 20 30 0 35 10 30 ltac:(lia) ltac:(lia) eq_refl)
    as (H1 & H2 & H3 & _).
  split; [reflexivity|]. split; [exact H1|]. split; [exact H2 | exact H3].
Defined.

(** C10 as stated fails: the box (950, 950, 100, 100) is kept by the area
    filter for an image of 1000 x 1000 pixels; its slice ends at row 1050,
    below the image, and the crop is cut at the bottom edge of the image:
    rows 850 to 1000, 150 of them and not [min(2 * 100, 950 + 100) = 200]. *)
Lemma crop_cut_at_image_bottom :
  filter_by_area first_seen FINAL_MIN_AREA_PERCENTAGE FINAL_MAX_AREA_PERCENTAGE
    (1000 * 1000) [(950, 950, 100, 100)] = Some [(950, 950, 100, 100)]
  /\ expanded_crop {| Numpy.height := 1000; Numpy.width := 1000 |} (950, 950, 100, 100)
     = {| Numpy.view_y := 850; Numpy.view_x := 950;
          Numpy.view_height := 150; Numpy.view_width := 50 |}
  /\ 850 + 150 = 1000
  /\ 950 + 100 = 1050
  /\ Z.min (2 * 100) (950 + 100) = 200.
Proof.
  split; [vm_compute; reflexivity|].
  split; [vm_compute; reflexivity|].
  split; [reflexivity|]. split; reflexivity.
Qed.

(** ** Degenerate boxes *)





(** A tag whose crop has no pixels is skipped: the loop goes on with the
    next tag, without an event or an exception. *)
Lemma crop_loop_skip w image name ext i b tags :
  Numpy.size (expanded_crop image b) <= 0 ->
  crop_loop w image name ext i (b :: tags) = crop_loop w image name ext (S i) tags.
Proof.
  intros Hsize. cbn [crop_loop].
  destruct (Z.ltb_spec 0 (Numpy.size (expanded_crop image b))); [lia|].
  unfold ret. cbn [bind app].
  now destruct (crop_loop w image name ext (S i) tags).
Qed.





(** ** The invocation *)

Lemma uploads_app t t' : uploads (t ++ t') = uploads t ++ uploads t'.
Proof.
  induction t as [|e t IH]; simpl; [reflexivity|].
  destruct e; simpl; now rewrite IH.
Qed.

(** C8. When the bytes of the blob cannot be decoded ([imdecode] gives no
    image, or raises), the invocation ends at the decode stage: the failure
    is logged, the OCR reader is not called, the blob storage is not
    contacted and nothing is uploaded. *)
Theorem undecodable_input_aborts :
  forall (set_iter : list box -> list box) (w : world) (blob_name : string),
    imdecode w = Undecodable \/ imdecode w = DecodeRaises ->
    (imdecode w = Undecodable ->
     ManipulateImage set_iter w blob_name =
     [Log (Info_triggered blob_name); Log Error_decode])
    /\ (imdecode w = DecodeRaises ->
        ManipulateImage set_iter w blob_name =
        [Log (Info_triggered blob_name); Log Error_exception])
    /\ uploads (ManipulateImage set_iter w blob_name) = []
    /\ (In Readtext (ManipulateImage set_iter w blob_name) -> False)
    /\ (In Connect (ManipulateImage set_iter w blob_name) -> False).
Proof.
  intros set_iter w blob_name Hd.
  unfold ManipulateImage, try_block.
  destruct Hd as [Hd|Hd]; rewrite Hd; cbn.
  - split; [reflexivity|]. split; [intros; discriminate|].
    split; [reflexivity|].
    split; intros [H|[H|[]]]; discriminate.
  - split; [intros; discriminate|]. split; [reflexivity|].
    split; [reflexivity|].
    split; intros [H|[H|[]]]; discriminate.
Qed.

Lemma undecodable_input_aborts_witness :
  ManipulateImage first_seen
    {| imdecode := Undecodable; readtext := Some [swapped_detection];
       imencode := fun _ => true;
       from_connection_string := true; upload_blob := fun _ => true |}
    "raw-images/photo.jpg"
  = [Log (Info_triggered "raw-images/photo.jpg"); Log Error_decode]
  /\ uploads (ManipulateImage first_seen
       {| imdecode := Undecodable; readtext := Some [swapped_detection];
          imencode := fun _ => true;
          from_connection_string := true; upload_blob := fun _ => true |}
       "raw-images/photo.jpg") = [].
Proof.
  destruct (undecodable_input_aborts first_seen
              {| imdecode := Undecodable; readtext := Some [swapped_detection];
                 imencode := fun _ => true;
                 from_connection_string := true; upload_blob := fun _ => true |}
              "raw-images/photo.jpg" (or_introl eq_refl))
    as (H1 & _ & H3 & _).
  split; [exact (H1 eq_refl) | exact H3].
Defined.

(** ** Failed uploads *)

Lemma fails_last_bind {A B} w (c : M A) (k : A -> M B) :
  fails_last w c -> (forall a, fails_last w (k a)) -> fails_last w (bind c k).
Proof.
  intros Hc Hk. destruct c as [t [a|]]; simpl.
  - specialize (Hk a). destruct (k a) as [t' r'].
    destruct Hc as [Hc|[Hc _]]; [|discriminate]. simpl in Hc.
    destruct Hk as [Hk|[Hr (t0 & c0 & f & d & Ht & Hcl & Hf)]]; simpl in *.
    + left. simpl. apply Forall_app. split; assumption.
    + right. simpl. split; [exact Hr|].
      exists (t ++ t0), c0, f, d. subst t'. rewrite app_assoc.
      split; [reflexivity|]. split; [|exact Hf].
      apply Forall_app. split; assumption.
  - destruct Hc as [Hc|[_ Hc]]; [left | right]; simpl in *; auto.
Qed.

Lemma fails_last_plain {A} w (e : list event) (r : option A) :
  Forall (passes w) e -> fails_last w (e, r).
Proof. intros H. left. exact H. Qed.

Lemma fails_last_do_upload w blob data : fails_last w (do_upload w blob data).
Proof.
  unfold do_upload, emit, bind, ret, raise.
  destruct (upload_blob w blob) eqn:E; simpl.
  - left. simpl. constructor; [exact E | constructor].
  - right. simpl. split; [reflexivity|].
    exists [], PROCESSED_IMAGES_CONTAINER, blob, data.
    split; [reflexivity|]. split; [constructor | exact E].
Qed.

Lemma fails_last_crop_loop w image name ext tags :
  forall i, fails_last w (crop_loop w image name ext i tags).
Proof.
  induction tags as [|b tags IH]; intros i; simpl.
  - apply fails_last_plain. constructor.
  - apply fails_last_bind; [|intros _; apply IH].
    destruct (0 <? Numpy.size (expanded_crop image b)).
    + apply fails_last_bind.
      { unfold do_encode. destruct (imencode w _);
          apply fails_last_plain; constructor. }
      intros _. apply fails_last_bind; [apply fails_last_do_upload|].
      intros _. apply fails_last_plain. repeat constructor.
    + apply fails_last_plain. constructor.
Qed.

Lemma fails_last_try_block set_iter w blob_name :
  fails_last w (try_block set_iter w blob_name).
Proof.
  unfold try_block. destruct (imdecode w) as [image| |].
  - apply fails_last_bind.
    { apply fails_last_bind; [apply fails_last_plain; repeat constructor|].
      intros _. apply fails_last_plain. constructor. }
    intros results.
    apply fails_last_bind; [apply fails_last_plain; constructor|].
    intros candidate_boxes. apply fails_last_bind;
      [apply fails_last_plain; repeat constructor|]. intros _.
    apply fails_last_bind; [apply fails_last_plain; constructor|].
    intros tags. apply fails_last_bind;
      [apply fails_last_plain; repeat constructor|]. intros _.
    destruct tags as [|b tags]; [apply fails_last_plain; repeat constructor|].
    apply fails_last_bind.
    { apply fails_last_bind; [apply fails_last_plain; repeat constructor|].
      intros _. destruct (from_connection_string w);
        apply fails_last_plain; constructor. }
    intros _. destruct (PyStr.splitext _) as [name ext].
    apply fails_last_crop_loop.
  - apply fails_last_plain. repeat constructor.
  - apply fails_last_plain. constructor.
Qed.

(** The trace of an invocation has no failed upload, or it ends with the
    failed upload followed by the error record of the handler. *)
Lemma ManipulateImage_failure_shape set_iter w blob_name :
  clean w (ManipulateImage set_iter w blob_name)
  \/ exists t' c f d,
       ManipulateImage set_iter w blob_name
       = t' ++ Upload c f d :: [Log Error_exception]
       /\ clean w t' /\ upload_blob w f = false.
Proof.
  unfold ManipulateImage.
  assert (H : fails_last w
                (logging (Info_triggered blob_name) ;; try_block set_iter w blob_name)).
  { apply fails_last_bind; [apply fails_last_plain; repeat constructor|].
    intros _. apply fails_last_try_block. }
  destruct (logging _ ;; _) as [t [u|]]; unfold fails_last in H; simpl in H.
  - destruct H as [H|[H _]]; [left; exact H | discriminate].
  - destruct H as [H|[_ (t' & c & f & d & -> & Hcl & Hf)]].
    + left. apply Forall_app. split; [exact H | repeat constructor].
    + right. exists t', c, f, d. rewrite <- app_assoc. simpl. auto.
Qed.

Lemma only_failure_position w (a b pre post : list event) (x y : event) :
  clean w a -> clean w b -> ~ passes w y ->
  a ++ x :: b = pre ++ y :: post ->
  pre = a /\ y = x /\ post = b.
Proof.
  intros Ha Hb Hy. revert pre. induction Ha as [|e a He Ha IH]; intros pre Heq.
  - destruct pre as [|p pre]; simpl in Heq.
    + now inversion Heq.
    + inversion Heq; subst. exfalso. apply Hy.
      unfold clean in Hb. rewrite Forall_forall in Hb. apply Hb.
      apply in_or_app. right. now left.
  - destruct pre as [|p pre]; simpl in Heq.
    + inversion Heq; subst. contradiction.
    + inversion Heq; subst. destruct (IH pre H1) as (-> & -> & ->). auto.
Qed.

(** C7 (as the code has it). The uploads are made inside the one [try]
    block of the function: a failed upload is the last thing the
    invocation does before its handler logs the error. What comes before
    it in the trace has no failed upload, and no further crop is uploaded
    or attempted after it. *)
Theorem failed_upload_ends_invocation :
  forall (set_iter : list box -> list box) (w : world) (blob_name : string)
         (pre post : list event) (c f : string) (data : Numpy.view),
    ManipulateImage set_iter w blob_name = pre ++ Upload c f data :: post ->
    upload_blob w f = false ->
    post = [Log Error_exception] /\ uploads post = [] /\ clean w pre.
Proof.
  intros set_iter w blob_name pre post c f data Heq Hf.
  assert (Hy : ~ passes w (Upload c f data)) by (simpl; congruence).
  destruct (ManipulateImage_failure_shape set_iter w blob_name)
    as [Hcl|(t' & c0 & f0 & d0 & Ht & Hcl & Hf0)].
  - exfalso. apply Hy. rewrite Heq in Hcl. unfold clean in Hcl.
    rewrite Forall_forall in Hcl. apply Hcl. apply in_or_app. right. now left.
  - rewrite Ht in Heq.
    destruct (only_failure_position w t' [Log Error_exception] pre post
                (Upload c0 f0 d0) (Upload c f data) Hcl)
      as (-> & _ & ->); auto.
    repeat constructor.
Qed.

Lemma failed_upload_ends_invocation_witness :
  ManipulateImage first_seen
    (sample_world [save_detection; free_detection]
       (fun f => negb (String.eqb f "photo_crop_1.jpg")))
    "raw-images/photo.jpg"
  = [Log (Info_triggered "raw-images/photo.jpg"); Readtext;
     Log (Info_candidates 2); Log (Info_final 2); Connect]
    ++ Upload "processed-images" "photo_crop_1.jpg"
         {| Numpy.view_y := 0; Numpy.view_x := 10;
            Numpy.view_height := 100; Numpy.view_width := 60 |}
       :: [Log Error_exception]
  /\ [Log Error_exception] = [Log Error_exception]
  /\ uploads [Log Error_exception] = []
  /\ clean (sample_world [save_detection; free_detection]
              (fun f => negb (String.eqb f "photo_crop_1.jpg")))
           [Log (Info_triggered "raw-images/photo.jpg"); Readtext;
            Log (Info_candidates 2); Log (Info_final 2); Connect].
Proof.
  split; [vm_compute; reflexivity|].
  apply (failed_upload_ends_invocation first_seen
           (sample_world [save_detection; free_detection]
              (fun f => negb (String.eqb f "photo_crop_1.jpg")))
           "raw-images/photo.jpg" _ _ "processed-images" "photo_crop_1.jpg"
           {| Numpy.view_y := 0; Numpy.view_x := 10;
              Numpy.view_height := 100; Numpy.view_width := 60 |}).
  - vm_compute. reflexivity.
  - vm_compute. reflexivity.
Defined.

(** C7 as stated fails: two tags give two crops, the upload of the first
    one fails, and the second crop, whose upload would succeed, is never
    attempted. *)
Lemma second_upload_not_attempted :
  uploads (ManipulateImage first_seen
             (sample_world [save_detection; free_detection] (fun _ => true))
             "raw-images/photo.jpg")
  = [("photo_crop_1.jpg"%string,
      {| Numpy.view_y := 0; Numpy.view_x := 10;
         Numpy.view_height := 100; Numpy.view_width := 60 |});
     ("photo_crop_2.jpg"%string,
      {| Numpy.view_y := 49; Numpy.view_x := 100;
         Numpy.view_height := 102; Numpy.view_width := 51 |})]
  /\ uploads (ManipulateImage first_seen
                (sample_world [save_detection; free_detection]
                   (fun f => negb (String.eqb f "photo_crop_1.jpg")))
                "raw-images/photo.jpg")
     = [("photo_crop_1.jpg"%string,
         {| Numpy.view_y := 0; Numpy.view_x := 10;
            Numpy.view_height := 100; Numpy.view_width := 60 |})]
  /\ ManipulateImage first_seen
       (sample_world [save_detection; free_detection]
          (fun f => negb (String.eqb f "photo_crop_1.jpg")))
       "raw-images/photo.jpg"
     = [Log (Info_triggered "raw-images/photo.jpg"); Readtext;
        Log (Info_candidates 2); Log (Info_final 2); Connect;
        Upload "processed-images" "photo_crop_1.jpg"
          {| Numpy.view_y := 0; Numpy.view_x := 10;
             Numpy.view_height := 100; Numpy.view_width := 60 |};
        Log Error_exception].
Proof.
  split; [vm_compute; reflexivity|].
  split; vm_compute; reflexivity.
Qed.

(** ** Names and indices of the crops *)

Lemma take_drop n p : (PyStr.take n p ++ PyStr.drop n p)%string = p.
Proof.
  revert p; induction n as [|n IH]; intros p; simpl; [reflexivity|].
  destruct p as [|a p]; simpl; [reflexivity | now rewrite IH].
Qed.

Lemma splitext_app p name ext :
  PyStr.splitext p = (name, ext) -> (name ++ ext)%string = p.
Proof.
  unfold PyStr.splitext. destruct (PyStr.rfind "." p) as [dotIndex|].
  - destruct (_ && _); intros [= <- <-].
    + apply take_drop.
    + clear. induction p as [|a p IH]; simpl; [reflexivity | now rewrite IH].
  - intros [= <- <-].
    clear. induction p as [|a p IH]; simpl; [reflexivity | now rewrite IH].
Qed.

Lemma emitted_from_cons image i b tags :
  emitted_from image i (b :: tags) =
  if 0 <? Numpy.size (expanded_crop image b)
  then (i, b) :: emitted_from image (S i) tags
  else emitted_from image (S i) tags.
Proof. reflexivity. Qed.

Lemma crop_loop_uploads w image name ext tags :
  forall i, exists k,
    uploads (fst (crop_loop w image name ext i tags)) =
    map (upload_of image name ext) (firstn k (emitted_from image i tags))
    /\ (encodable w image tags -> (forall f, upload_blob w f = true) ->
        k = List.length (emitted_from image i tags)).
Proof.
  induction tags as [|b tags IH]; intros i.
  - exists O. split; [reflexivity | intros _ _; reflexivity].
  - destruct (IH (S i)) as (k & Hk & Hall).
    assert (Hall' : encodable w image (b :: tags) ->
                    (forall f, upload_blob w f = true) ->
                    k = List.length (emitted_from image (S i) tags)).
    { intros He Hu. apply Hall; [|exact Hu].
      intros b' Hb'. apply He. now right. }
    rewrite emitted_from_cons. cbn [crop_loop].
    destruct (0 <? Numpy.size (expanded_crop image b)) eqn:Epix.
    + unfold do_encode, do_upload, logging, emit, ret, raise.
      destruct (imencode w (expanded_crop image b)) eqn:Ee.
      * destruct (upload_blob w (crop_filename name ext (i + 1))) eqn:E.
        -- exists (S k). cbn [bind app fst].
           destruct (crop_loop w image name ext (S i) tags) as [t r].
           cbn [fst] in *. cbn [uploads app firstn map]. rewrite Hk.
           split; [reflexivity|]. intros He Hu. cbn [List.length].
           now rewrite (Hall' He Hu).
        -- exists 1%nat. cbn. split; [reflexivity|].
           intros _ Hu. rewrite Hu in E. discriminate.
      * exists O. cbn. split; [reflexivity|].
        intros He _. rewrite (He b (or_introl eq_refl) Epix) in Ee. discriminate.
    + exists k. unfold ret. cbn [bind app fst].
      destruct (crop_loop w image name ext (S i) tags) as [t r].
      cbn [fst] in *. auto.
Qed.

Lemma emitted_from_positions image tags :
  forall i,
    StronglySorted lt (map fst (emitted_from image i tags))
    /\ (forall j b, In (j, b) (emitted_from image i tags) ->
          (i <= j)%nat /\ nth_error tags (j - i) = Some b
          /\ 0 < Numpy.size (expanded_crop image b)).
Proof.
  induction tags as [|b tags IH]; intros i.
  - split; [constructor | intros j b' []].
  - destruct (IH (S i)) as [Hs Hin]. rewrite emitted_from_cons.
    assert (Hrest : forall j b', In (j, b') (emitted_from image (S i) tags) ->
              (i <= j)%nat /\ nth_error (b :: tags) (j - i) = Some b'
              /\ 0 < Numpy.size (expanded_crop image b')).
    { intros j b' H. destruct (Hin j b' H) as (Hle & Hn & Hp).
      split; [lia|]. split; [|exact Hp].
      replace (j - i)%nat with (S (j - S i)) by lia. exact Hn. }
    destruct (0 <? Numpy.size (expanded_crop image b)) eqn:E.
    + split.
      * cbn [map fst]. constructor; [exact Hs|].
        apply Forall_forall. intros j Hj. apply in_map_iff in Hj as ([j' b'] & <- & Hj).
        apply Hin in Hj. simpl. lia.
      * intros j b' [[= <- <-]|H]; [|now apply Hrest].
        split; [lia|]. rewrite Nat.sub_diag. split; [reflexivity|].
        now apply Z.ltb_lt.
    + split; [exact Hs | exact Hrest].
Qed.



Lemma emitted_from_snd image tags :
  forall i, map snd (emitted_from image i tags) = filter (has_pixels image) tags.
Proof.
  induction tags as [|b tags IH]; intros i; [reflexivity|].
  rewrite emitted_from_cons. cbn [filter]. unfold has_pixels at 1.
  destruct (0 <? Numpy.size (expanded_crop image b)); cbn [map snd];
    now rewrite IH.
Qed.

Lemma emitted_from_length image tags i :
  (List.length (emitted_from image i tags) <= List.length tags)%nat.
Proof.
  rewrite <- (length_map snd), emitted_from_snd. apply filter_length_le.
Qed.







(** ** The string operations and the examples of the specification *)

Lemma lower_char_not_upper c : PyStr.is_upper (PyStr.lower_char c) = false.
Proof. destruct c as [[] [] [] [] [] [] [] []]; vm_compute; reflexivity. Qed.

(** After [lower] no upper-case character is left. *)
Lemma lower_no_upper s c :
  Substring (String c EmptyString) (PyStr.lower s) -> PyStr.is_upper c = false.
Proof.
  intros (pre & post & H). revert pre H.
  induction s as [|a s IH]; intros pre H.
  - destruct pre; discriminate.
  - destruct pre as [|b pre]; simpl in H; inversion H; subst.
    + apply lower_char_not_upper.
    + eapply IH; eauto.
Qed.

Lemma lstrip_spec s :
  exists pre, s = (pre ++ PyStr.lstrip s)%string /\ all_space pre = true
              /\ (forall c r, PyStr.lstrip s = String c r -> PyStr.is_space c = false).
Proof.
  induction s as [|a s (pre & Hs & Hpre & Hhd)]; simpl.
  - exists EmptyString. repeat split; intros; discriminate.
  - destruct (PyStr.is_space a) eqn:E.
    + exists (String a pre). simpl. rewrite <- Hs, E, Hpre. auto.
    + exists EmptyString. repeat split. intros c r [= <- <-]. exact E.
Qed.

Lemma rstrip_spec s :
  exists post, s = (PyStr.rstrip s ++ post)%string /\ all_space post = true
               /\ (forall r c, PyStr.rstrip s = (r ++ String c EmptyString)%string ->
                               PyStr.is_space c = false)
               /\ (forall c r, PyStr.rstrip s = String c r -> exists r', s = String c r').
Proof.
  induction s as [|a s (post & Hs & Hpost & Hlast & Hhd)]; cbn [PyStr.rstrip].
  - exists EmptyString. repeat split; intros; try discriminate.
    destruct r; discriminate.
  - destruct (PyStr.rstrip s) as [|b t] eqn:Er.
    + cbn [append] in Hs. subst post.
      destruct (PyStr.is_space a) eqn:E.
      * exists (String a s). cbn [append all_space]. rewrite E, Hpost.
        repeat split; intros; try discriminate. destruct r; discriminate.
      * exists s. cbn [append]. repeat split; auto.
        -- intros r c H. destruct r as [|x r]; cbn [append] in H.
           ++ now inversion H; subst.
           ++ inversion H. destruct r; discriminate.
        -- intros c r [= <- <-]. eauto.
    + exists post. split; [cbn [append]; f_equal; exact Hs|].
      repeat split; auto.
      * intros r c H. destruct r as [|x r]; cbn [append] in H; inversion H.
        eapply Hlast; eauto.
      * intros c r [= <- <-]. eauto.
Qed.

(** [strip] removes white space at both ends and nothing else. *)
Lemma strip_spec s :
  exists pre post,
    s = (pre ++ PyStr.strip s ++ post)%string
    /\ all_space pre = true /\ all_space post = true
    /\ (forall c r, PyStr.strip s = String c r -> PyStr.is_space c = false)
    /\ (forall r c, PyStr.strip s = (r ++ String c EmptyString)%string ->
                    PyStr.is_space c = false).
Proof.
  unfold PyStr.strip.
  destruct (lstrip_spec s) as (pre & Hs & Hpre & Hhd).
  destruct (rstrip_spec (PyStr.lstrip s)) as (post & Hr & Hpost & Hlast & Hsame).
  exists pre, post. split; [now rewrite <- Hr|].
  repeat split; auto.
  intros c r H. destruct (Hsame c r H) as [r' Hr']. eauto.
Qed.

(** The examples of the keyword match. *)
Example keyword_examples :
  matches DISCOUNT_KEYWORDS other_detection = false
  /\ matches DISCOUNT_KEYWORDS swapped_detection = true
  /\ PyStr.contains "%" "50% off" = true
  /\ PyStr.contains "off" "50% off" = true
  /\ PyStr.contains "rs" "ruairs" = true
  /\ normalize "  50% OFF " = "50% off"%string.
Proof. repeat (split; [vm_compute; reflexivity|]). vm_compute. reflexivity. Qed.

(** End to end: two keyword detections at the same place and one
    detection of other text give one crop, with the number 1. *)
Example duplicate_detections_one_crop :
  ManipulateImage first_seen
    (sample_world [save_detection; other_detection; save_detection] (fun _ => true))
    "raw-images/photo.jpg"
  = [Log (Info_triggered "raw-images/photo.jpg"); Readtext;
     Log (Info_candidates 2); Log (Info_final 1); Connect;
     Upload "processed-images" "photo_crop_1.jpg"
       {| Numpy.view_y := 0; Numpy.view_x := 10;
          Numpy.view_height := 100; Numpy.view_width := 60 |};
     Log (Info_uploaded "photo_crop_1.jpg" "processed-images")].
Proof. vm_compute. reflexivity. Qed.

(* ================================================================== *)
(** * Further properties of the invocation *)
(* ================================================================== *)

(** ** The courses an invocation can take *)

Lemma crop_loop_loop_trace w image name ext tags :
  forall i, loop_trace w (fst (crop_loop w image name ext i tags))
                         (snd (crop_loop w image name ext i tags)).
Proof.
  induction tags as [|b tags IH]; intros i; cbn [crop_loop].
  - constructor.
  - specialize (IH (S i)).
    destruct (crop_loop w image name ext (S i) tags) as [t r].
    cbn [fst snd] in IH.
    destruct (0 <? Numpy.size (expanded_crop image b)).
    + unfold do_encode, do_upload, logging, emit, ret, raise.
      destruct (imencode w (expanded_crop image b));
        [|cbn [bind app fst snd]; constructor].
      destruct (upload_blob w (crop_filename name ext (i + 1))) eqn:E;
        cbn [bind app fst snd].
      * now constructor.
      * now constructor.
    + unfold ret. cbn [bind app fst snd]. exact IH.
Qed.

Lemma ManipulateImage_decoded set_iter w blob_name image results candidate_boxes tags :
  imdecode w = Decoded image ->
  readtext w = Some results ->
  find_candidates DISCOUNT_KEYWORDS results = Some candidate_boxes ->
  filter_by_area set_iter FINAL_MIN_AREA_PERCENTAGE FINAL_MAX_AREA_PERCENTAGE
    (total_area_of image) candidate_boxes = Some tags ->
  ManipulateImage set_iter w blob_name =
  [Log (Info_triggered blob_name); Readtext;
   Log (Info_candidates (List.length candidate_boxes));
   Log (Info_final (List.length tags))]
  ++ storage_events w image blob_name tags.
Proof.
  intros Hdec Hread Hc Hf. unfold total_area_of in Hf.
  unfold ManipulateImage, try_block, storage_events. rewrite Hdec, Hread. cbv zeta.
  unfold logging, emit, lift. cbn [bind app]. rewrite Hc. cbn [bind app].
  rewrite Hf. cbn [bind app].
  destruct tags as [|b tags]; [reflexivity|].
  destruct (from_connection_string w); unfold ret, raise; cbn [bind app];
    [|reflexivity].
  destruct (PyStr.splitext (PyStr.basename blob_name)) as [name ext].
  destruct (crop_loop w image name ext 0 (b :: tags)) as [t [u|]];
    cbn [fst snd closing]; [now rewrite app_nil_r | reflexivity].
Qed.

Lemma ManipulateImage_no_thresholds set_iter w blob_name image results candidate_boxes :
  imdecode w = Decoded image ->
  readtext w = Some results ->
  find_candidates DISCOUNT_KEYWORDS results = Some candidate_boxes ->
  filter_by_area set_iter FINAL_MIN_AREA_PERCENTAGE FINAL_MAX_AREA_PERCENTAGE
    (total_area_of image) candidate_boxes = None ->
  ManipulateImage set_iter w blob_name =
  [Log (Info_triggered blob_name); Readtext;
   Log (Info_candidates (List.length candidate_boxes));
   Log Error_exception].
Proof.
  intros Hdec Hread Hc Hf. unfold total_area_of in Hf.
  unfold ManipulateImage, try_block. rewrite Hdec, Hread. cbv zeta.
  unfold logging, emit, lift. cbn [bind app]. rewrite Hc. cbn [bind app].
  rewrite Hf. reflexivity.
Qed.

Lemma ManipulateImage_no_boxes set_iter w blob_name image results :
  imdecode w = Decoded image ->
  readtext w = Some results ->
  find_candidates DISCOUNT_KEYWORDS results = None ->
  ManipulateImage set_iter w blob_name =
  [Log (Info_triggered blob_name); Readtext; Log Error_exception].
Proof.
  intros Hdec Hread Hc.
  unfold ManipulateImage, try_block. rewrite Hdec, Hread. cbv zeta.
  unfold logging, emit, lift. cbn [bind app]. rewrite Hc. reflexivity.
Qed.

Lemma ManipulateImage_no_readtext set_iter w blob_name image :
  imdecode w = Decoded image ->
  readtext w = None ->
  ManipulateImage set_iter w blob_name =
  [Log (Info_triggered blob_name); Readtext; Log Error_exception].
Proof.
  intros Hdec Hread.
  unfold ManipulateImage, try_block. rewrite Hdec, Hread. reflexivity.
Qed.

Lemma ManipulateImage_not_decoded set_iter w blob_name :
  (forall image, imdecode w <> Decoded image) ->
  ManipulateImage set_iter w blob_name = [Log (Info_triggered blob_name); Log Error_decode]
  \/ ManipulateImage set_iter w blob_name = [Log (Info_triggered blob_name); Log Error_exception].
Proof.
  intros H. unfold ManipulateImage, try_block.
  destruct (imdecode w) as [image| |]; [now elim (H image) | left | right];
    reflexivity.
Qed.

(** Every invocation takes one of these courses. *)
Lemma ManipulateImage_courses set_iter w blob_name :
  (exists image results candidate_boxes tags,
      imdecode w = Decoded image /\ readtext w = Some results
      /\ find_candidates DISCOUNT_KEYWORDS results = Some candidate_boxes
      /\ filter_by_area set_iter FINAL_MIN_AREA_PERCENTAGE FINAL_MAX_AREA_PERCENTAGE
           (total_area_of image) candidate_boxes = Some tags
      /\ ManipulateImage set_iter w blob_name =
         [Log (Info_triggered blob_name); Readtext;
          Log (Info_candidates (List.length candidate_boxes));
          Log (Info_final (List.length tags))]
         ++ storage_events w image blob_name tags)
  \/ (exists m,
        ManipulateImage set_iter w blob_name =
        [Log (Info_triggered blob_name); Readtext; Log (Info_candidates m);
         Log Error_exception])
  \/ ManipulateImage set_iter w blob_name =
     [Log (Info_triggered blob_name); Readtext; Log Error_exception]
  \/ ManipulateImage set_iter w blob_name =
     [Log (Info_triggered blob_name); Log Error_decode]
  \/ ManipulateImage set_iter w blob_name =
     [Log (Info_triggered blob_name); Log Error_exception].
Proof.
  destruct (imdecode w) as [image| |] eqn:Hdec.
  - destruct (readtext w) as [results|] eqn:Hread.
    + destruct (find_candidates DISCOUNT_KEYWORDS results) as [candidate_boxes|] eqn:Hc.
      * destruct (filter_by_area set_iter FINAL_MIN_AREA_PERCENTAGE
                    FINAL_MAX_AREA_PERCENTAGE (total_area_of image)
                    candidate_boxes) as [tags|] eqn:Hf.
        -- left. exists image, results, candidate_boxes, tags. repeat split; auto.
           exact (ManipulateImage_decoded _ _ _ _ _ _ _ Hdec Hread Hc Hf).
        -- right. left. exists (List.length candidate_boxes).
           exact (ManipulateImage_no_thresholds _ _ _ _ _ _ Hdec Hread Hc Hf).
      * right. right. left.
        exact (ManipulateImage_no_boxes _ _ _ _ _ Hdec Hread Hc).
    + right. right. left. now apply (ManipulateImage_no_readtext _ _ _ image).
  - right. right. right. left. unfold ManipulateImage, try_block.
    rewrite Hdec. reflexivity.
  - right. right. right. right. unfold ManipulateImage, try_block.
    rewrite Hdec. reflexivity.
Qed.

(** ** Lists of events *)

Lemma split_middle {A} (P : A -> bool) (p l c a b : list A) (e : A) :
  Forall (fun x => P x = false) p ->
  Forall (fun x => P x = false) c ->
  P e = true ->
  p ++ l ++ c = a ++ e :: b ->
  exists a' b', a = p ++ a' /\ b = b' ++ c /\ l = a' ++ e :: b'.
Proof.
  intros Hp Hc He. revert a. induction Hp as [|x p Hx Hp IH]; intros a Heq.
  - cbn [app] in Heq. revert a Heq. induction l as [|y l IHl]; intros a Heq.
    + cbn [app] in Heq. exfalso. rewrite Forall_forall in Hc.
      assert (Hin : In e c) by (rewrite Heq; apply in_or_app; right; now left).
      specialize (Hc e Hin). congruence.
    + destruct a as [|z a]; cbn [app] in Heq; injection Heq as <- Heq.
      * exists [], l. subst b. auto.
      * destruct (IHl a Heq) as (a' & b' & Ha & Hb & Hl).
        cbn [app] in Ha. subst a.
        exists (y :: a'), b'. subst l. auto.
  - destruct a as [|z a]; cbn [app] in Heq; injection Heq as <- Heq.
    + congruence.
    + destruct (IH a Heq) as (a' & b' & -> & Hb & Hl).
      exists a', b'. auto.
Qed.

Lemma none_in_list {A} (P : A -> bool) (l a b : list A) (e : A) :
  Forall (fun x => P x = false) l -> P e = true -> l = a ++ e :: b -> False.
Proof.
  intros Hl He Heq. rewrite Forall_forall in Hl.
  assert (Hin : In e l) by (rewrite Heq; apply in_or_app; right; now left).
  specialize (Hl e Hin). congruence.
Qed.

(** ** The events of the crop loop *)

Lemma loop_trace_events w t r :
  loop_trace w t r ->
  Forall (fun e => is_error e = false) t
  /\ Forall (fun e => is_readtext e = false) t
  /\ Forall (fun e => is_connect e = false) t.
Proof.
  induction 1 as [|f d t r Hf Hl (IH1 & IH2 & IH3)| |f d Hf];
    repeat split; repeat constructor; auto.
Qed.

Lemma loop_trace_logged w t r :
  loop_trace w t r ->
  forall a b f c,
    t = a ++ Log (Info_uploaded f c) :: b ->
    exists a' d, a = a' ++ [Upload c f d] /\ upload_blob w f = true.
Proof.
  induction 1 as [|f0 d0 t r Hf Hl IH| |f0 d0 Hf]; intros a b f c Heq.
  - destruct a; discriminate.
  - destruct a as [|x [|y a]]; cbn [app] in Heq.
    + discriminate.
    + injection Heq as <- <- <- _. exists [], d0. auto.
    + injection Heq as <- <- Heq.
      destruct (IH a b f c Heq) as (a' & d & -> & Hok).
      exists (Upload PROCESSED_IMAGES_CONTAINER f0 d0
              :: Log (Info_uploaded f0 PROCESSED_IMAGES_CONTAINER) :: a'), d. auto.
  - destruct a; discriminate.
  - destruct a as [|x [|y a]]; discriminate.
Qed.

Lemma loop_trace_uploaded w t r :
  loop_trace w t r ->
  forall a b c f d,
    t = a ++ Upload c f d :: b ->
    upload_blob w f = true ->
    exists b', b = Log (Info_uploaded f c) :: b'.
Proof.
  induction 1 as [|f0 d0 t r Hf Hl IH| |f0 d0 Hf]; intros a b c f d Heq Hok.
  - destruct a; discriminate.
  - destruct a as [|x [|y a]]; cbn [app] in Heq.
    + injection Heq as <- <- <- <-. eauto.
    + discriminate.
    + injection Heq as <- <- Heq. eauto.
  - destruct a; discriminate.
  - destruct a as [|x [|y a]]; cbn [app] in Heq; try discriminate.
    injection Heq as <- <- <- _. congruence.
Qed.

(** Every trace is a run of plain events, then the events of the crop
    loop, then at most one error record. *)
Lemma ManipulateImage_shape set_iter w blob_name :
  exists p t r c,
    ManipulateImage set_iter w blob_name = p ++ t ++ c
    /\ Forall (fun e => plain e = true) p
    /\ loop_trace w t r
    /\ (c = [] \/ c = [Log Error_decode] \/ c = [Log Error_exception])
    /\ (t <> [] -> In Readtext p /\ In Connect p)
    /\ (exists rest, p = Log (Info_triggered blob_name) :: rest).
Proof.
  destruct (ManipulateImage_courses set_iter w blob_name)
    as [(image & results & cands & tags & Hdec & Hread & Hc & Hf & E)|[[m E]|[E|[E|E]]]];
    rewrite E; clear E.
  - set (m := List.length cands).
    set (n := List.length tags).
    unfold storage_events. destruct tags as [|b tags].
    + exists [Log (Info_triggered blob_name); Readtext; Log (Info_candidates m);
              Log (Info_final n); Log Info_no_tags], [], (Some tt), [].
      split; [reflexivity|].
      split; [repeat constructor|]. split; [constructor|].
      split; [auto|]. split; [intros H; now elim H | eauto].
    + destruct (from_connection_string w).
      * destruct (PyStr.splitext (PyStr.basename blob_name)) as [name ext].
        pose proof (crop_loop_loop_trace w image name ext (b :: tags) O) as Hl.
        destruct (crop_loop w image name ext 0 (b :: tags)) as [t r].
        cbn [fst snd] in *.
        exists [Log (Info_triggered blob_name); Readtext; Log (Info_candidates m);
                Log (Info_final n); Connect], t, r, (closing r).
        split; [reflexivity|].
        split; [repeat constructor|]. split; [exact Hl|].
        split; [destruct r; cbn [closing]; auto|].
        split; [intros _; cbn [In]; auto 10 | eauto].
      * exists [Log (Info_triggered blob_name); Readtext; Log (Info_candidates m);
                Log (Info_final n); Connect], [], (Some tt), [Log Error_exception].
        split; [reflexivity|].
        split; [repeat constructor|]. split; [constructor|].
        split; [auto|]. split; [intros H; now elim H | eauto].
  - exists [Log (Info_triggered blob_name); Readtext; Log (Info_candidates m)],
      [], (Some tt), [Log Error_exception].
    split; [reflexivity|].
    split; [repeat constructor|]. split; [constructor|].
    split; [auto|]. split; [intros H; now elim H | eauto].
  - exists [Log (Info_triggered blob_name); Readtext], [], (Some tt),
      [Log Error_exception].
    split; [reflexivity|].
    split; [repeat constructor|]. split; [constructor|].
    split; [auto|]. split; [intros H; now elim H | eauto].
  - exists [Log (Info_triggered blob_name)], [], (Some tt), [Log Error_decode].
    split; [reflexivity|].
    split; [repeat constructor|]. split; [constructor|].
    split; [auto|]. split; [intros H; now elim H | eauto].
  - exists [Log (Info_triggered blob_name)], [], (Some tt), [Log Error_exception].
    split; [reflexivity|].
    split; [repeat constructor|]. split; [constructor|].
    split; [auto|]. split; [intros H; now elim H | eauto].
Qed.

(** ** Failing collaborators and runs without tags *)

(** X1. When the OCR reader raises, the invocation ends there: the handler
    logs the exception, the blob service is not contacted and nothing is
    uploaded. *)
Theorem ocr_failure_aborts :
  forall (set_iter : list box -> list box) (w : world) (blob_name : string)
         (image : Numpy.ndarray),
    imdecode w = Decoded image ->
    readtext w = None ->
    ManipulateImage set_iter w blob_name =
    [Log (Info_triggered blob_name); Readtext; Log Error_exception]
    /\ uploads (ManipulateImage set_iter w blob_name) = [].
Proof.
  intros set_iter w blob_name image Hdec Hread.
  rewrite (ManipulateImage_no_readtext set_iter w blob_name image Hdec Hread).
  split; reflexivity.
Qed.

Lemma ocr_failure_aborts_witness :
  ManipulateImage first_seen unread_world "raw-images/photo.jpg" =
  [Log (Info_triggered "raw-images/photo.jpg"); Readtext; Log Error_exception]
  /\ uploads (ManipulateImage first_seen unread_world "raw-images/photo.jpg") = [].
Proof.
  exact (ocr_failure_aborts first_seen unread_world "raw-images/photo.jpg"
           {| Numpy.height := 1000; Numpy.width := 1000 |} eq_refl eq_refl).
Defined.

(** X2. When tags were kept but the connection to the blob service cannot
    be made, the invocation logs the two counts, attempts the connection,
    logs the exception and uploads nothing. *)
Theorem connection_failure_aborts :
  forall (set_iter : list box -> list box) (w : world) (blob_name : string)
         (image : Numpy.ndarray) (results : list detection)
         (candidate_boxes : list box) (b : box) (tags : list box),
    imdecode w = Decoded image ->
    readtext w = Some results ->
    find_candidates DISCOUNT_KEYWORDS results = Some candidate_boxes ->
    filter_by_area set_iter FINAL_MIN_AREA_PERCENTAGE FINAL_MAX_AREA_PERCENTAGE
      (total_area_of image) candidate_boxes
    = Some (b :: tags) ->
    from_connection_string w = false ->
    ManipulateImage set_iter w blob_name =
    [Log (Info_triggered blob_name); Readtext;
     Log (Info_candidates (List.length candidate_boxes));
     Log (Info_final (S (List.length tags)));
     Connect; Log Error_exception]
    /\ uploads (ManipulateImage set_iter w blob_name) = [].
Proof.
  intros set_iter w blob_name image results candidate_boxes b tags
         Hdec Hread Hc Hf Hconn.
  rewrite (ManipulateImage_decoded _ _ _ _ _ _ _ Hdec Hread Hc Hf).
  unfold storage_events. rewrite Hconn. split; reflexivity.
Qed.

Lemma connection_failure_aborts_witness :
  ManipulateImage first_seen (offline_world [save_detection; free_detection])
    "raw-images/photo.jpg" =
  [Log (Info_triggered "raw-images/photo.jpg"); Readtext;
   Log (Info_candidates (List.length [(10, 50, 60, 50); (100, 100, 51, 51)]));
   Log (Info_final 2); Connect; Log Error_exception]
  /\ uploads (ManipulateImage first_seen
                (offline_world [save_detection; free_detection])
                "raw-images/photo.jpg") = [].
Proof.
  apply (connection_failure_aborts first_seen
           (offline_world [save_detection; free_detection])
           "raw-images/photo.jpg"
           {| Numpy.height := 1000; Numpy.width := 1000 |}
           [save_detection; free_detection]
           [(10, 50, 60, 50); (100, 100, 51, 51)]
           (10, 50, 60, 50) [(100, 100, 51, 51)]).
  - reflexivity.
  - reflexivity.
  - vm_compute. reflexivity.
  - vm_compute. reflexivity.
  - reflexivity.
Defined.

(** X3. When no candidate box has an area strictly between 0.2 percent and
    100 percent of the image (in particular when no detection matches a
    keyword), the invocation is a normal run without tags: it logs the two
    counts and that no tag met the criteria, and it neither contacts the
    blob service nor uploads anything nor logs an error. *)
Theorem no_tag_no_storage :
  forall (set_iter : list box -> list box) (w : world) (blob_name : string)
         (image : Numpy.ndarray) (results : list detection)
         (candidate_boxes : list box),
    set_order set_iter ->
    imdecode w = Decoded image ->
    readtext w = Some results ->
    find_candidates DISCOUNT_KEYWORDS results = Some candidate_boxes ->
    0 < total_area_of image < 2 ^ 52 ->
    (forall x y wd h,
        In (x, y, wd, h) candidate_boxes ->
        total_area_of image < 500 * (wd * h) -> wd * h < total_area_of image ->
        False) ->
    ManipulateImage set_iter w blob_name =
    [Log (Info_triggered blob_name); Readtext;
     Log (Info_candidates (List.length candidate_boxes));
     Log (Info_final 0); Log Info_no_tags].
Proof.
  intros set_iter w blob_name image results candidate_boxes
         Hset Hdec Hread Hc HT Hnone.
  destruct (filter_by_area_default_exact set_iter (total_area_of image)
              candidate_boxes Hset HT)
    as (tags & Hf & Hmem).
  assert (Htags : tags = []).
  { destruct tags as [|[[[x y] wd] h] tags]; [reflexivity|]. exfalso.
    destruct (proj1 (Hmem x y wd h) (or_introl eq_refl)) as (Hin & Hlo & Hhi).
    exact (Hnone x y wd h Hin Hlo Hhi). }
  subst tags.
  rewrite (ManipulateImage_decoded _ _ _ _ _ _ _ Hdec Hread Hc Hf). reflexivity.
Qed.

Lemma no_tag_no_storage_witness :
  ManipulateImage first_seen
    (sample_world [other_detection; axis_detection 5 5 25 30 "SAVE"] (fun _ => true))
    "raw-images/photo.jpg" =
  [Log (Info_triggered "raw-images/photo.jpg"); Readtext;
   Log (Info_candidates (List.length [(5, 5, 20, 25)]));
   Log (Info_final 0); Log Info_no_tags].
Proof.
  apply (no_tag_no_storage first_seen
           (sample_world [other_detection; axis_detection 5 5 25 30 "SAVE"]
              (fun _ => true))
           "raw-images/photo.jpg"
           {| Numpy.height := 1000; Numpy.width := 1000 |}
           [other_detection; axis_detection 5 5 25 30 "SAVE"]
           [(5, 5, 20, 25)] first_seen_order eq_refl eq_refl).
  - vm_compute. reflexivity.
  - split; vm_compute; reflexivity.
  - intros x y wd h [[= <- <- <- <-]|[]] Hlo _. vm_compute in Hlo. discriminate.
Defined.

(** ** The order of the stages *)

Lemma filter_none {A} (P : A -> bool) (l : list A) :
  Forall (fun x => P x = false) l -> filter P l = [].
Proof.
  induction 1 as [|x l Hx Hl IH]; cbn [filter]; [reflexivity|].
  now rewrite Hx.
Qed.

Lemma plain_kinds e :
  plain e = true ->
  is_error e = false /\ is_upload e = false /\ is_uploaded_record e = false.
Proof.
  unfold plain. intros H.
  apply andb_true_iff in H as [H H3]. apply andb_true_iff in H as [H1 H2].
  apply negb_true_iff in H1, H2, H3. auto.
Qed.

Lemma Forall_plain_kinds p :
  Forall (fun e => plain e = true) p ->
  Forall (fun e => is_error e = false) p
  /\ Forall (fun e => is_upload e = false) p
  /\ Forall (fun e => is_uploaded_record e = false) p.
Proof.
  induction 1 as [|e p He Hp (IH1 & IH2 & IH3)]; [repeat constructor|].
  destruct (plain_kinds e He) as (H1 & H2 & H3).
  repeat split; constructor; assumption.
Qed.

Lemma closing_kinds c :
  c = [] \/ c = [Log Error_decode] \/ c = [Log Error_exception] ->
  Forall (fun e => is_upload e = false) c
  /\ Forall (fun e => is_uploaded_record e = false) c.
Proof. intros [H|[H|H]]; subst c; repeat constructor. Qed.

Lemma storage_events_counts w image blob_name tags :
  filter is_readtext (storage_events w image blob_name tags) = []
  /\ (List.length (filter is_connect (storage_events w image blob_name tags)) <= 1)%nat.
Proof.
  unfold storage_events. destruct tags as [|b tags]; [split; cbn; auto|].
  destruct (from_connection_string w); [|split; cbn; auto].
  destruct (PyStr.splitext (PyStr.basename blob_name)) as [name ext].
  pose proof (crop_loop_loop_trace w image name ext (b :: tags) O) as Hl.
  destruct (crop_loop w image name ext 0 (b :: tags)) as [t r].
  cbn [fst snd] in *.
  destruct (loop_trace_events w t r Hl) as (_ & Hr & Hc).
  cbn [filter is_readtext is_connect]. rewrite !filter_app.
  rewrite (filter_none _ _ Hr), (filter_none _ _ Hc).
  destruct r; cbn; auto.
Qed.

(** X4. The stages run in order and once: the OCR reader is called exactly
    once when the image was decoded and never otherwise, the blob service
    is contacted at most once, and every upload comes after both. *)
Theorem stages_run_once_in_order :
  forall (set_iter : list box -> list box) (w : world) (blob_name : string),
    List.length (filter is_readtext (ManipulateImage set_iter w blob_name))
    = match imdecode w with Decoded _ => 1%nat | _ => 0%nat end
    /\ (List.length (filter is_connect (ManipulateImage set_iter w blob_name)) <= 1)%nat
    /\ (forall a b c f d,
          ManipulateImage set_iter w blob_name = a ++ Upload c f d :: b ->
          In Readtext a /\ In Connect a).
Proof.
  intros set_iter w blob_name. split; [|split].
  - destruct (imdecode w) as [image| |] eqn:Hdec.
    + destruct (readtext w) as [results|] eqn:Hread.
      * destruct (find_candidates DISCOUNT_KEYWORDS results) as [cands|] eqn:Hc.
        -- destruct (filter_by_area set_iter FINAL_MIN_AREA_PERCENTAGE
                       FINAL_MAX_AREA_PERCENTAGE (total_area_of image)
                       cands) as [tags|] eqn:Hf.
           ++ rewrite (ManipulateImage_decoded _ _ _ _ _ _ _ Hdec Hread Hc Hf),
                filter_app.
              destruct (storage_events_counts w image blob_name tags) as [Hs _].
              rewrite Hs. reflexivity.
           ++ rewrite (ManipulateImage_no_thresholds _ _ _ _ _ _ Hdec Hread Hc Hf).
              reflexivity.
        -- rewrite (ManipulateImage_no_boxes _ _ _ _ _ Hdec Hread Hc). reflexivity.
      * rewrite (ManipulateImage_no_readtext _ _ _ _ Hdec Hread). reflexivity.
    + unfold ManipulateImage, try_block. rewrite Hdec. reflexivity.
    + unfold ManipulateImage, try_block. rewrite Hdec. reflexivity.
  - destruct (ManipulateImage_courses set_iter w blob_name)
      as [(image & results & cands & tags & Hdec & Hread & Hc & Hf & E)|[[m E]|[E|[E|E]]]];
      rewrite E; clear E; try (cbn; lia).
    rewrite filter_app, length_app.
    destruct (storage_events_counts w image blob_name tags) as [_ H].
    cbn [filter is_connect List.length]. lia.
  - intros a b c f d Heq.
    destruct (ManipulateImage_shape set_iter w blob_name)
      as (p & t & r & cl & E & Hp & Hl & Hcl & Hin & _).
    rewrite E in Heq.
    destruct (Forall_plain_kinds p Hp) as (_ & Hup & _).
    destruct (closing_kinds cl Hcl) as [Hcu _].
    destruct (split_middle is_upload p t cl a b (Upload c f d) Hup Hcu eq_refl Heq)
      as (a' & b' & -> & _ & Ht).
    assert (Hne : t <> []) by (rewrite Ht; destruct a'; discriminate).
    destruct (Hin Hne) as [H1 H2].
    split; apply in_or_app; left; assumption.
Qed.

(** X5. Success is logged for successful uploads only, and for each of
    them: a record that a crop was uploaded stands right after the upload
    of that blob, which succeeded, and every upload that succeeded is
    followed at once by its record. *)
Theorem upload_logged_iff_succeeded :
  forall (set_iter : list box -> list box) (w : world) (blob_name : string),
    (forall a b f c,
        ManipulateImage set_iter w blob_name = a ++ Log (Info_uploaded f c) :: b ->
        exists a' d, a = a' ++ [Upload c f d] /\ upload_blob w f = true)
    /\ (forall a b c f d,
          ManipulateImage set_iter w blob_name = a ++ Upload c f d :: b ->
          upload_blob w f = true ->
          exists b', b = Log (Info_uploaded f c) :: b').
Proof.
  intros set_iter w blob_name.
  destruct (ManipulateImage_shape set_iter w blob_name)
    as (p & t & r & cl & E & Hp & Hl & Hcl & _ & _).
  rewrite E.
  destruct (Forall_plain_kinds p Hp) as (_ & Hup & Hrec).
  destruct (closing_kinds cl Hcl) as [Hcu Hcr].
  split.
  - intros a b f c Heq.
    destruct (split_middle is_uploaded_record p t cl a b
                (Log (Info_uploaded f c)) Hrec Hcr eq_refl Heq)
      as (a' & b' & -> & _ & Ht).
    destruct (loop_trace_logged w t r Hl a' b' f c Ht) as (a'' & d & -> & Hok).
    exists (p ++ a''), d. rewrite app_assoc. auto.
  - intros a b c f d Heq Hok.
    destruct (split_middle is_upload p t cl a b (Upload c f d) Hup Hcu eq_refl Heq)
      as (a' & b' & -> & -> & Ht).
    destruct (loop_trace_uploaded w t r Hl a' b' c f d Ht Hok) as (b'' & ->).
    eexists. reflexivity.
Qed.

(** X6. Every invocation starts with the record that it was triggered for
    the blob, and an error record (failed decode, or an exception) can only
    be the last event: after an error nothing more happens, and no
    invocation logs two errors. *)
Theorem error_record_is_last :
  forall (set_iter : list box -> list box) (w : world) (blob_name : string),
    (exists rest,
        ManipulateImage set_iter w blob_name = Log (Info_triggered blob_name) :: rest)
    /\ (forall a e b,
          ManipulateImage set_iter w blob_name = a ++ e :: b ->
          is_error e = true -> b = []).
Proof.
  intros set_iter w blob_name.
  destruct (ManipulateImage_shape set_iter w blob_name)
    as (p & t & r & cl & E & Hp & Hl & Hcl & _ & (rest & Hrest)).
  rewrite E. split.
  - subst p. eexists. reflexivity.
  - intros a e b Heq He.
    destruct (Forall_plain_kinds p Hp) as (Hpe & _ & _).
    destruct (loop_trace_events w t r Hl) as (Hte & _ & _).
    assert (Hpt : Forall (fun x => is_error x = false) (p ++ t))
      by (apply Forall_app; split; assumption).
    rewrite app_assoc in Heq.
    assert (Heq' : (p ++ t) ++ cl ++ [] = a ++ e :: b)
      by (rewrite app_nil_r; exact Heq).
    destruct (split_middle is_error (p ++ t) cl [] a b e Hpt (Forall_nil _) He Heq')
      as (a' & b' & _ & -> & Hc).
    rewrite app_nil_r.
    destruct Hcl as [Hc'|[Hc'|Hc']]; subst cl.
    + destruct a'; discriminate.
    + destruct a' as [|x [|y a']]; try discriminate. now injection Hc as _ <-.
    + destruct a' as [|x [|y a']]; try discriminate. now injection Hc as _ <-.
Qed.

(** ** The region that is cut out *)

Lemma adjust_range i len : 0 <= len -> 0 <= Numpy.adjust i len <= len.
Proof.
  intros Hl. unfold Numpy.adjust. destruct (Z.ltb_spec i 0); lia.
Qed.

(** X7. Whatever the box, the region that is cut out lies inside the
    image: numpy clips the slice, so the crop starts at a row and a column
    of the image and ends at most at its last row and column. *)
Theorem crop_inside_image :
  forall (image : Numpy.ndarray) (b : box),
    0 <= Numpy.view_y (expanded_crop image b)
    /\ 0 <= Numpy.view_height (expanded_crop image b)
    /\ Numpy.view_y (expanded_crop image b) + Numpy.view_height (expanded_crop image b)
       <= Z.of_N (Numpy.height image)
    /\ 0 <= Numpy.view_x (expanded_crop image b)
    /\ 0 <= Numpy.view_width (expanded_crop image b)
    /\ Numpy.view_x (expanded_crop image b) + Numpy.view_width (expanded_crop image b)
       <= Z.of_N (Numpy.width image).
Proof.
  intros image [[[x y] w] h].
  unfold expanded_crop, crop_bounds, Numpy.slice.
  cbn [Numpy.view_y Numpy.view_x Numpy.view_height Numpy.view_width].
  pose proof (N2Z.is_nonneg (Numpy.height image)) as HH.
  pose proof (N2Z.is_nonneg (Numpy.width image)) as HW.
  pose proof (adjust_range (Z.max 0 (y - h)) _ HH).
  pose proof (adjust_range (y + h) _ HH).
  pose proof (adjust_range x _ HW).
  pose proof (adjust_range (x + w) _ HW).
  lia.
Qed.

Lemma has_pixels_nonneg image x y w h :
  0 <= x -> 0 <= y -> 0 <= w -> 0 <= h ->
  (has_pixels image (x, y, w, h) = true <->
   0 < w /\ 0 < h /\ x < Z.of_N (Numpy.width image)
   /\ Z.max 0 (y - h) < Z.of_N (Numpy.height image)).
Proof.
  intros Hx Hy Hw Hh. unfold has_pixels. rewrite Z.ltb_lt.
  rewrite expanded_crop_nonneg by assumption.
  unfold Numpy.size. cbn [Numpy.view_height Numpy.view_width].
  set (H := Z.of_N (Numpy.height image)). set (W := Z.of_N (Numpy.width image)).
  set (rows := Z.max 0 (Z.min (y + h) H - Z.min (Z.max 0 (y - h)) H)).
  set (cols := Z.max 0 (Z.min (x + w) W - Z.min x W)).
  assert (Hr : 0 <= rows) by (unfold rows; lia).
  assert (Hc : 0 <= cols) by (unfold cols; lia).
  split.
  - intros Hpos.
    assert (0 < rows /\ 0 < cols) as [Hr' Hc'].
    { destruct (Z.eq_dec rows 0) as [E|E]; [rewrite E in Hpos; lia|].
      destruct (Z.eq_dec cols 0) as [E'|E']; [rewrite E', Z.mul_0_r in Hpos; lia|].
      lia. }
    unfold rows, cols in *. lia.
  - intros (Hw' & Hh' & HxW & HyH).
    assert (0 < rows) by (unfold rows; lia).
    assert (0 < cols) by (unfold cols; lia).
    assert (0 < rows * cols) by (apply Z.mul_pos_pos; assumption). lia.
Qed.

(** X8. For a box with non-negative coordinates and extents the crop has
    pixels exactly when the box has a positive width and height, starts
    left of the right edge of the image, and its expanded top row lies
    above the bottom edge. When it has none, the crop loop skips the tag
    without an event or an error and goes on with the next tag. When it
    has pixels the crop is encoded: if the encoder raises, the loop ends
    there with nothing uploaded for the tag; if not, the upload of the crop
    under the name with the number [i + 1] is the next event. *)
Theorem crop_skipped_iff :
  forall (w : world) (image : Numpy.ndarray) (name ext : string) (i : nat)
         (tags : list box) (x y wd h : Z),
    0 <= x -> 0 <= y -> 0 <= wd -> 0 <= h ->
    (0 < Numpy.size (expanded_crop image (x, y, wd, h)) <->
     0 < wd /\ 0 < h /\ x < Z.of_N (Numpy.width image)
     /\ Z.max 0 (y - h) < Z.of_N (Numpy.height image))
    /\ (inside_image image (x, y, wd, h) ->
        0 < Numpy.size (expanded_crop image (x, y, wd, h)))
    /\ (Numpy.size (expanded_crop image (x, y, wd, h)) <= 0 ->
        crop_loop w image name ext i ((x, y, wd, h) :: tags)
        = crop_loop w image name ext (S i) tags)
    /\ (0 < Numpy.size (expanded_crop image (x, y, wd, h)) ->
        imencode w (expanded_crop image (x, y, wd, h)) = false ->
        crop_loop w image name ext i ((x, y, wd, h) :: tags) = ([], None))
    /\ (0 < Numpy.size (expanded_crop image (x, y, wd, h)) ->
        imencode w (expanded_crop image (x, y, wd, h)) = true ->
        exists t r,
          crop_loop w image name ext i ((x, y, wd, h) :: tags)
          = (Upload PROCESSED_IMAGES_CONTAINER (crop_filename name ext (i + 1))
               (expanded_crop image (x, y, wd, h)) :: t, r)).
Proof.
  intros w image name ext i tags x y wd h Hx Hy Hw Hh.
  pose proof (has_pixels_nonneg image x y wd h Hx Hy Hw Hh) as Hiff.
  unfold has_pixels in Hiff. rewrite Z.ltb_lt in Hiff.
  split; [exact Hiff|]. split; [|split; [|split]].
  - intros (_ & _ & Hw' & Hh' & HW & HH). apply Hiff. lia.
  - intros Hsize. now apply crop_loop_skip.
  - intros Hsize He. cbn [crop_loop]. apply Z.ltb_lt in Hsize.
    rewrite Hsize. unfold do_encode. rewrite He. reflexivity.
  - intros Hsize He. cbn [crop_loop]. apply Z.ltb_lt in Hsize.
    rewrite Hsize. unfold do_encode, do_upload, logging, emit, ret, raise.
    rewrite He.
    destruct (crop_loop w image name ext (S i) tags) as [t r].
    destruct (upload_blob w (crop_filename name ext (i + 1)));
      cbn [bind app]; eexists; eexists; reflexivity.
Qed.

Lemma crop_skipped_iff_witness :
  (exists t r,
      crop_loop (sample_world [] (fun _ => true))
        {| Numpy.height := 1000; Numpy.width := 1000 |} "photo" ".jpg" 0
        [(10, 50, 60, 50); (2000, 10, 50, 50)]
      = (Upload PROCESSED_IMAGES_CONTAINER (crop_filename "photo" ".jpg" (0 + 1))
           (expanded_crop {| Numpy.height := 1000; Numpy.width := 1000 |}
              (10, 50, 60, 50)) :: t, r))
  /\ crop_loop (sample_world [] (fun _ => true))
       {| Numpy.height := 1000; Numpy.width := 1000 |} "photo" ".jpg" 1
       [(2000, 10, 50, 50)]
     = crop_loop (sample_world [] (fun _ => true))
         {| Numpy.height := 1000; Numpy.width := 1000 |} "photo" ".jpg" 2 [].
Proof.
  split.
  - destruct (crop_skipped_iff (sample_world [] (fun _ => true))
                {| Numpy.height := 1000; Numpy.width := 1000 |} "photo" ".jpg" 0
                [(2000, 10, 50, 50)] 10 50 60 50
                ltac:(lia) ltac:(lia) ltac:(lia) ltac:(lia))
      as (_ & _ & _ & _ & H).
    apply H; [vm_compute; reflexivity | reflexivity].
  - destruct (crop_skipped_iff (sample_world [] (fun _ => true))
                {| Numpy.height := 1000; Numpy.width := 1000 |} "photo" ".jpg" 1
                [] 2000 10 50 50
                ltac:(lia) ltac:(lia) ltac:(lia) ltac:(lia))
      as (_ & _ & H & _).
    apply H. vm_compute. discriminate.
Defined.

(** X9. A box whose far corner has negative coordinates is not cut to
    nothing: the negative slice bounds count from the end of the image, and
    the crop is the region from row [y - h] and column [x] to the rows and
    columns that far from the bottom and right edges. *)
Theorem negative_far_corner_wraps :
  forall (image : Numpy.ndarray) (x y w h : Z),
    0 <= x -> 0 <= y -> x + w < 0 -> y + h < 0 ->
    - w < Z.of_N (Numpy.width image) ->
    - (2 * h) < Z.of_N (Numpy.height image) ->
    expanded_crop image (x, y, w, h) =
    {| Numpy.view_y := y - h; Numpy.view_x := x;
       Numpy.view_height := Z.of_N (Numpy.height image) + 2 * h;
       Numpy.view_width := Z.of_N (Numpy.width image) + w |}
    /\ 0 < Numpy.size (expanded_crop image (x, y, w, h)).
Proof.
  intros image x y w h Hx Hy Hxw Hyh HW HH.
  assert (E : expanded_crop image (x, y, w, h) =
              {| Numpy.view_y := y - h; Numpy.view_x := x;
                 Numpy.view_height := Z.of_N (Numpy.height image) + 2 * h;
                 Numpy.view_width := Z.of_N (Numpy.width image) + w |}).
  { unfold expanded_crop, crop_bounds, Numpy.slice, Numpy.adjust.
    destruct (Z.ltb_spec (Z.max 0 (y - h)) 0); [lia|].
    destruct (Z.ltb_spec (y + h) 0); [|lia].
    destruct (Z.ltb_spec x 0); [lia|].
    destruct (Z.ltb_spec (x + w) 0); [|lia].
    f_equal; lia. }
  split; [exact E|]. rewrite E. unfold Numpy.size.
  cbn [Numpy.view_height Numpy.view_width].
  assert (0 < (Z.of_N (Numpy.height image) + 2 * h)
              * (Z.of_N (Numpy.width image) + w))
    by (apply Z.mul_pos_pos; lia).
  lia.
Qed.

Lemma negative_far_corner_wraps_witness :
  box_of_bbox (bbox_of outside_detection) = Some (10, 10, -60, -60)
  /\ expanded_crop {| Numpy.height := 1000; Numpy.width := 1000 |} (10, 10, -60, -60) =
     {| Numpy.view_y := 10 - -60; Numpy.view_x := 10;
        Numpy.view_height := Z.of_N 1000 + 2 * -60;
        Numpy.view_width := Z.of_N 1000 + -60 |}
  /\ 0 < Numpy.size (expanded_crop {| Numpy.height := 1000; Numpy.width := 1000 |}
                       (10, 10, -60, -60)).
Proof.
  split; [vm_compute; reflexivity|].
  apply (negative_far_corner_wraps {| Numpy.height := 1000; Numpy.width := 1000 |}
           10 10 (-60) (-60)); cbn; lia.
Defined.

(** End to end, the detection with its far corner at (-50, -50) is kept by
    the area filter and a crop of 880 x 940 pixels is uploaded for it. *)
Example outside_detection_is_uploaded :
  uploads (ManipulateImage first_seen
             (sample_world [outside_detection] (fun _ => true))
             "raw-images/photo.jpg")
  = [("photo_crop_1.jpg"%string,
      {| Numpy.view_y := 70; Numpy.view_x := 10;
         Numpy.view_height := 880; Numpy.view_width := 940 |})].
Proof. vm_compute. reflexivity. Qed.

(** ** Counts and uploads *)

Lemma loop_closing_uploads t r : uploads (t ++ closing r) = uploads t.
Proof.
  rewrite uploads_app. destruct r; cbn [closing uploads]; apply app_nil_r.
Qed.

(** The uploads of the events from line 79 on. *)
Lemma storage_events_uploads w image blob_name tags name ext :
  PyStr.splitext (PyStr.basename blob_name) = (name, ext) ->
  exists k,
    uploads (storage_events w image blob_name tags)
    = map (upload_of image name ext) (firstn k (emitted_from image 0 tags))
    /\ (from_connection_string w = true -> encodable w image tags ->
        (forall f, upload_blob w f = true) ->
        k = List.length (emitted_from image 0 tags)).
Proof.
  intros Hsplit. unfold storage_events. destruct tags as [|b tags].
  - exists O. split; [reflexivity | intros _ _ _; reflexivity].
  - destruct (from_connection_string w).
    + rewrite Hsplit. cbn [uploads]. rewrite loop_closing_uploads.
      destruct (crop_loop_uploads w image name ext (b :: tags) O) as (k & Hk & Hall).
      exists k. split; [exact Hk | intros _; exact Hall].
    + exists O. split; [reflexivity | discriminate].
Qed.

Lemma filter_by_area_length set_iter minp maxp total boxes tags :
  set_order set_iter ->
  filter_by_area set_iter minp maxp total boxes = Some tags ->
  (List.length tags <= List.length boxes)%nat.
Proof.
  intros Hset Hf. apply filter_by_area_inv in Hf as (fz & _ & ->).
  destruct (Hset boxes) as [Hnd Hin].
  etransitivity; [apply filter_length_le|].
  apply NoDup_incl_length; [exact Hnd|]. intros b Hb. now apply Hin.
Qed.

(** X10. The counts only go down along the pipeline: when the number of
    final tags is logged, it is at most the number of candidates logged
    before it, which is at most the number of OCR detections; and at most
    one crop is uploaded per final tag. *)
Theorem counts_decrease :
  forall (set_iter : list box -> list box) (w : world) (blob_name : string) (n : nat),
    set_order set_iter ->
    In (Log (Info_final n)) (ManipulateImage set_iter w blob_name) ->
    exists m results,
      readtext w = Some results
      /\ In (Log (Info_candidates m)) (ManipulateImage set_iter w blob_name)
      /\ (List.length (uploads (ManipulateImage set_iter w blob_name)) <= n)%nat
      /\ (n <= m)%nat
      /\ (m <= List.length results)%nat.
Proof.
  intros set_iter w blob_name n Hset Hin.
  destruct (ManipulateImage_courses set_iter w blob_name)
    as [(image & results & cands & tags & Hdec & Hread & Hc & Hf & E)|[[m E]|[E|[E|E]]]];
    rewrite E in *; clear E;
    try (cbn [In] in Hin; repeat (destruct Hin as [Hin|Hin]; try discriminate);
         contradiction).
  assert (Hn : n = List.length tags).
  { apply in_app_or in Hin as [Hin|Hin].
    - cbn [In] in Hin.
      repeat (destruct Hin as [Hin|Hin]; try discriminate); [|contradiction].
      now injection Hin.
    - exfalso. destruct (PyStr.splitext (PyStr.basename blob_name)) as [name ext] eqn:Hs.
      unfold storage_events in Hin. rewrite Hs in Hin.
      destruct tags as [|b tags];
        [cbn [In] in Hin; destruct Hin as [Hin|[]]; discriminate|].
      destruct Hin as [Hin|Hin]; [discriminate|].
      destruct (from_connection_string w);
        [|cbn [In] in Hin; destruct Hin as [Hin|[]]; discriminate].
      pose proof (crop_loop_loop_trace w image name ext (b :: tags) O) as Hl.
      destruct (crop_loop w image name ext 0 (b :: tags)) as [t r].
      cbn [fst snd] in *.
      apply in_app_or in Hin as [Hin|Hin].
      + clear - Hl Hin. induction Hl as [|f d t r Hf Hl IH| |f d Hf].
        * destruct Hin.
        * destruct Hin as [Hin|[Hin|Hin]]; try discriminate. auto.
        * destruct Hin.
        * destruct Hin as [Hin|[]]. discriminate.
      + destruct r; cbn [closing In] in Hin; [destruct Hin|].
        destruct Hin as [Hin|[]]. discriminate. }
  subst n. exists (List.length cands), results.
  split; [exact Hread|]. split; [apply in_or_app; left; cbn; auto|].
  split; [|split].
  - rewrite uploads_app. cbn [uploads app].
    destruct (PyStr.splitext (PyStr.basename blob_name)) as [name ext] eqn:Hs.
    destruct (storage_events_uploads w image blob_name tags name ext Hs)
      as (k & Hk & _).
    rewrite Hk, length_map, length_firstn.
    pose proof (emitted_from_length image tags 0). lia.
  - exact (filter_by_area_length _ _ _ _ _ _ Hset Hf).
  - exact (find_candidates_length _ _ _ Hc).
Qed.

Lemma counts_decrease_witness :
  exists m results,
    readtext (sample_world [save_detection; other_detection; save_detection]
                (fun _ => true)) = Some results
    /\ In (Log (Info_candidates m))
         (ManipulateImage first_seen
            (sample_world [save_detection; other_detection; save_detection]
               (fun _ => true)) "raw-images/photo.jpg")
    /\ (List.length
         (uploads (ManipulateImage first_seen
                     (sample_world [save_detection; other_detection; save_detection]
                        (fun _ => true)) "raw-images/photo.jpg")) <= 1)%nat
    /\ (1 <= m)%nat
    /\ (m <= List.length results)%nat.
Proof.
  apply (counts_decrease first_seen
           (sample_world [save_detection; other_detection; save_detection]
              (fun _ => true)) "raw-images/photo.jpg" 1 first_seen_order).
  vm_compute. auto.
Defined.

(** ** Names of the crops *)

Lemma append_inv_head (a b c : string) :
  (a ++ b)%string = (a ++ c)%string -> b = c.
Proof.
  induction a as [|x a IH]; cbn [append]; [auto|].
  intros H. injection H as H. auto.
Qed.

Lemma length_append (a b : string) :
  String.length (a ++ b) = (String.length a + String.length b)%nat.
Proof.
  induction a as [|x a IH]; cbn [append String.length Nat.add]; [reflexivity|].
  now rewrite IH.
Qed.

Lemma append_inv_tail (e b c : string) :
  (b ++ e)%string = (c ++ e)%string -> b = c.
Proof.
  revert c. induction b as [|x b IH]; intros c H.
  - destruct c as [|y c]; [reflexivity|]. exfalso.
    apply (f_equal String.length) in H.
    cbn [append String.length] in H. rewrite length_append in H. lia.
  - destruct c as [|y c]; cbn [append] in H.
    + exfalso. apply (f_equal String.length) in H.
      cbn [String.length] in H. rewrite length_append in H. lia.
    + injection H as <- H. f_equal. auto.
Qed.

Lemma str_inj n n' : PyStr.str n = PyStr.str n' -> n = n'.
Proof.
  unfold PyStr.str. intros H.
  apply Unsigned.to_uint_inj.
  apply (f_equal NilEmpty.uint_of_string) in H.
  rewrite !NilEmpty.usu in H. now injection H.
Qed.

Lemma crop_filename_inj name ext k k' :
  crop_filename name ext k = crop_filename name ext k' -> k = k'.
Proof.
  unfold crop_filename. intros H.
  apply append_inv_head, append_inv_head, append_inv_tail in H.
  now apply str_inj.
Qed.

Lemma NoDup_map_injective {A B} (f : A -> B) (l : list A) :
  (forall x y, f x = f y -> x = y) -> NoDup l -> NoDup (map f l).
Proof.
  intros Hinj. induction 1 as [|a l Hin Hnd IH]; cbn [map]; constructor; auto.
  intros H. apply in_map_iff in H as (y & Hy & Hy'). apply Hinj in Hy. now subst.
Qed.

Lemma NoDup_firstn {A} (k : nat) (l : list A) : NoDup l -> NoDup (firstn k l).
Proof.
  intros H. revert k. induction H as [|a l Hin Hnd IH]; intros [|k];
    cbn [firstn]; try constructor; auto.
  intros Hk. apply Hin. rewrite <- (firstn_skipn k l). apply in_or_app. now left.
Qed.

Lemma StronglySorted_lt_NoDup (l : list nat) : StronglySorted lt l -> NoDup l.
Proof.
  induction 1 as [|a l Hs IH Hall]; constructor; auto.
  intros Hin. rewrite Forall_forall in Hall. specialize (Hall a Hin). lia.
Qed.

(** The numbers in the names of the uploaded crops are pairwise distinct. *)
Lemma uploaded_indices_NoDup image tags k :
  NoDup (map fst (firstn k (emitted_from image 0 tags))).
Proof.
  rewrite <- firstn_map. apply NoDup_firstn, StronglySorted_lt_NoDup.
  apply (emitted_from_positions image tags 0).
Qed.

(** X11. No two uploads of one invocation go to the same blob: the names
    of the uploaded crops are pairwise distinct, so no crop overwrites
    another crop of the same image. *)
Theorem crop_names_distinct :
  forall (set_iter : list box -> list box) (w : world) (blob_name : string),
    NoDup (map fst (uploads (ManipulateImage set_iter w blob_name))).
Proof.
  intros set_iter w blob_name.
  destruct (ManipulateImage_courses set_iter w blob_name)
    as [(image & results & cands & tags & Hdec & Hread & Hc & Hf & E)|[[m E]|[E|[E|E]]]];
    rewrite E; clear E; try (cbn; constructor).
  rewrite uploads_app. cbn [uploads app].
  destruct (PyStr.splitext (PyStr.basename blob_name)) as [name ext] eqn:Hs.
  destruct (storage_events_uploads w image blob_name tags name ext Hs)
    as (k & Hk & _).
  rewrite Hk, map_map. unfold upload_of. cbn [fst].
  rewrite <- (map_map fst (fun i => crop_filename name ext (i + 1))).
  apply NoDup_map_injective; [|apply uploaded_indices_NoDup].
  intros i j H. apply crop_filename_inj in H. lia.
Qed.

Lemma has_char_append c a b :
  has_char c (a ++ b) = has_char c a || has_char c b.
Proof.
  induction a as [|x a IH]; cbn [append has_char]; [reflexivity|].
  now rewrite IH, orb_assoc.
Qed.

Lemma rfind_none_has_char c p : PyStr.rfind c p = None -> has_char c p = false.
Proof.
  induction p as [|a p IH]; cbn [PyStr.rfind has_char]; [reflexivity|].
  destruct (PyStr.rfind c p); [discriminate|].
  destruct (Ascii.eqb a c); [discriminate|]. auto.
Qed.

Lemma rfind_drop c p i :
  PyStr.rfind c p = Some i -> PyStr.rfind c (PyStr.drop (S i) p) = None.
Proof.
  revert i. induction p as [|a p IH]; intros i; cbn [PyStr.rfind]; [discriminate|].
  destruct (PyStr.rfind c p) as [j|] eqn:E.
  - intros [= <-]. cbn [PyStr.drop]. now apply IH.
  - destruct (Ascii.eqb a c); [|discriminate].
    intros [= <-]. cbn [PyStr.drop]. exact E.
Qed.

Lemma basename_no_slash p : has_char "/" (PyStr.basename p) = false.
Proof.
  unfold PyStr.basename. destruct (PyStr.rfind "/" p) as [i|] eqn:E.
  - apply rfind_none_has_char. now apply rfind_drop.
  - now apply rfind_none_has_char.
Qed.

Lemma str_no_slash n : has_char "/" (PyStr.str n) = false.
Proof.
  unfold PyStr.str. induction (Nat.to_uint n) as [|d IH|d IH|d IH|d IH|d IH|d IH|d IH|d IH|d IH|d IH];
    cbn [NilEmpty.string_of_uint has_char]; auto.
Qed.

(** X12. The crops are written flat into the container: the name of an
    uploaded crop never contains a slash, whatever virtual directory the
    name of the triggering blob has, since only the base name of the blob
    enters the name of the crop. *)
Theorem crop_names_flat :
  forall (set_iter : list box -> list box) (w : world) (blob_name : string)
         (f : string) (data : Numpy.view),
    In (f, data) (uploads (ManipulateImage set_iter w blob_name)) ->
    has_char "/" f = false
    /\ exists name ext k,
         (name ++ ext)%string = PyStr.basename blob_name
         /\ f = (name ++ "_crop_" ++ PyStr.str k ++ ext)%string.
Proof.
  intros set_iter w blob_name f data Hin.
  destruct (ManipulateImage_courses set_iter w blob_name)
    as [(image & results & cands & tags & Hdec & Hread & Hc & Hf & E)|[[m E]|[E|[E|E]]]];
    rewrite E in Hin; clear E; try (cbn in Hin; contradiction).
  rewrite uploads_app in Hin. cbn [uploads app] in Hin.
  destruct (PyStr.splitext (PyStr.basename blob_name)) as [name ext] eqn:Hs.
  destruct (storage_events_uploads w image blob_name tags name ext Hs)
    as (k & Hk & _).
  rewrite Hk in Hin. apply in_map_iff in Hin as ([i b] & Hu & _).
  unfold upload_of in Hu. cbn [fst snd] in Hu. injection Hu as <- _.
  pose proof (splitext_app _ _ _ Hs) as Happ.
  pose proof (basename_no_slash blob_name) as Hb.
  rewrite <- Happ, has_char_append in Hb. apply orb_false_iff in Hb as [Hn He].
  split.
  - unfold crop_filename. rewrite !has_char_append, Hn, He, str_no_slash.
    reflexivity.
  - exists name, ext, (i + 1)%nat. auto.
Qed.

Lemma crop_names_flat_witness :
  has_char "/" "photo_crop_1.jpg" = false
  /\ exists name ext k,
       (name ++ ext)%string = PyStr.basename "raw-images/2024/photo.jpg"
       /\ "photo_crop_1.jpg"%string = (name ++ "_crop_" ++ PyStr.str k ++ ext)%string.
Proof.
  apply (crop_names_flat first_seen
           (sample_world [save_detection] (fun _ => true))
           "raw-images/2024/photo.jpg" "photo_crop_1.jpg"
           {| Numpy.view_y := 0; Numpy.view_x := 10;
              Numpy.view_height := 100; Numpy.view_width := 60 |}).
  vm_compute. auto.
Defined.

(** ** Independence of the order of the set *)

Lemma Permutation_filter_same {A} (f : A -> bool) (l l' : list A) :
  Permutation l l' -> Permutation (filter f l) (filter f l').
Proof.
  induction 1 as [|x l l' HP IH|x y l|l l' l'' H1 IH1 H2 IH2]; cbn [filter].
  - constructor.
  - destruct (f x); [now constructor | exact IH].
  - destruct (f x), (f y); try reflexivity. apply perm_swap.
  - now transitivity (filter f l').
Qed.

Lemma storage_events_offline w image blob_name tags :
  from_connection_string w = false ->
  uploads (storage_events w image blob_name tags) = [].
Proof.
  intros H. unfold storage_events. rewrite H. now destruct tags.
Qed.

Lemma storage_events_regions w image blob_name tags :
  from_connection_string w = true ->
  encodable w image tags ->
  (forall f, upload_blob w f = true) ->
  map snd (uploads (storage_events w image blob_name tags))
  = map (expanded_crop image) (filter (has_pixels image) tags).
Proof.
  intros Hc He Hall.
  destruct (PyStr.splitext (PyStr.basename blob_name)) as [name ext] eqn:Hs.
  destruct (storage_events_uploads w image blob_name tags name ext Hs)
    as (k & Hk & Hlen).
  rewrite Hk, (Hlen Hc He Hall), firstn_all, map_map.
  unfold upload_of. cbn [snd].
  rewrite <- (map_map snd (expanded_crop image)). now rewrite emitted_from_snd.
Qed.

(** X13. Which regions are uploaded does not depend on the order in which
    the set of candidate boxes is iterated: when no encoding and no upload
    fails, two iteration orders give the same crops up to their order (only
    the numbers in their names can differ). *)
Theorem uploaded_regions_order_independent :
  forall (set_iter set_iter' : list box -> list box) (w : world) (blob_name : string),
    set_order set_iter -> set_order set_iter' ->
    (forall v, imencode w v = true) ->
    (forall f, upload_blob w f = true) ->
    Permutation
      (map snd (uploads (ManipulateImage set_iter w blob_name)))
      (map snd (uploads (ManipulateImage set_iter' w blob_name))).
Proof.
  intros set_iter set_iter' w blob_name Hs Hs' Henc Hall.
  destruct (imdecode w) as [image| |] eqn:Hdec;
    [|unfold ManipulateImage, try_block; rewrite Hdec; reflexivity
     |unfold ManipulateImage, try_block; rewrite Hdec; reflexivity].
  destruct (readtext w) as [results|] eqn:Hread;
    [|rewrite !(ManipulateImage_no_readtext _ _ _ _ Hdec Hread); reflexivity].
  destruct (find_candidates DISCOUNT_KEYWORDS results) as [cands|] eqn:Hc;
    [|rewrite !(ManipulateImage_no_boxes _ _ _ _ _ Hdec Hread Hc); reflexivity].
  destruct (filter_by_area set_iter FINAL_MIN_AREA_PERCENTAGE
              FINAL_MAX_AREA_PERCENTAGE (total_area_of image) cands)
    as [tags|] eqn:Hf;
    destruct (filter_by_area set_iter' FINAL_MIN_AREA_PERCENTAGE
                FINAL_MAX_AREA_PERCENTAGE (total_area_of image) cands)
      as [tags'|] eqn:Hf'.
  - rewrite (ManipulateImage_decoded _ _ _ _ _ _ _ Hdec Hread Hc Hf).
    rewrite (ManipulateImage_decoded _ _ _ _ _ _ _ Hdec Hread Hc Hf').
    rewrite !uploads_app. cbn [uploads app].
    destruct (from_connection_string w) eqn:Hconn.
    + rewrite !storage_events_regions;
        try assumption; try (intros b _ _; apply Henc).
      apply Permutation_map, Permutation_filter_same.
      apply filter_by_area_inv in Hf as (fz & Hz & ->).
      apply filter_by_area_inv in Hf' as (fz' & Hz' & ->).
      assert (fz' = fz) by congruence. subst fz'.
      destruct (Hs cands) as [Hnd Hin].
      destruct (Hs' cands) as [Hnd' Hin'].
      apply NoDup_Permutation; auto using NoDup_filter.
      intros b. rewrite !filter_In, Hin, Hin'. tauto.
    + rewrite !storage_events_offline by assumption. reflexivity.
  - exfalso. unfold filter_by_area in Hf, Hf'.
    destruct (min_area _ _); try discriminate.
    destruct (max_area _ _); discriminate.
  - exfalso. unfold filter_by_area in Hf, Hf'.
    destruct (min_area _ _); try discriminate.
    destruct (max_area _ _); discriminate.
  - rewrite (ManipulateImage_no_thresholds _ _ _ _ _ _ Hdec Hread Hc Hf).
    rewrite (ManipulateImage_no_thresholds _ _ _ _ _ _ Hdec Hread Hc Hf').
    reflexivity.
Qed.

(** The reverse of the order of first occurrence: another admissible
    order of the set. *)
Lemma last_seen_order : set_order (fun l => rev (first_seen l)).
Proof.
  intros l. destruct (first_seen_order l) as [Hnd Hin]. split.
  - now apply NoDup_rev.
  - intros b. rewrite <- in_rev. apply Hin.
Qed.

Lemma uploaded_regions_order_independent_witness :
  Permutation
    (map snd (uploads (ManipulateImage first_seen
                         (sample_world [save_detection; free_detection] (fun _ => true))
                         "raw-images/photo.jpg")))
    (map snd (uploads (ManipulateImage (fun l => rev (first_seen l))
                         (sample_world [save_detection; free_detection] (fun _ => true))
                         "raw-images/photo.jpg"))).
Proof.
  apply (uploaded_regions_order_independent first_seen (fun l => rev (first_seen l))
           (sample_world [save_detection; free_detection] (fun _ => true))
           "raw-images/photo.jpg" first_seen_order last_seen_order).
  - intros v. reflexivity.
  - intros f. reflexivity.
Defined.

(** ** Runs in which everything succeeds *)

Lemma crop_loop_all_ok w image name ext tags :
  encodable w image tags -> (forall f, upload_blob w f = true) ->
  forall i, snd (crop_loop w image name ext i tags) = Some tt.
Proof.
  intros He Hall. induction tags as [|b tags IH]; intros i; [reflexivity|].
  cbn [crop_loop].
  assert (He' : encodable w image tags)
    by (intros b' Hb'; apply He; now right).
  specialize (IH He' (S i)).
  destruct (crop_loop w image name ext (S i) tags) as [t r]. cbn [snd] in IH.
  destruct (0 <? Numpy.size (expanded_crop image b)) eqn:Epix.
  - unfold do_encode, do_upload, logging, emit, ret, raise.
    rewrite (He b (or_introl eq_refl) Epix), Hall. cbn [bind app snd]. exact IH.
  - unfold ret. cbn [bind app snd]. exact IH.
Qed.

Lemma filter_all {A} (f : A -> bool) (l : list A) :
  Forall (fun x => f x = true) l -> filter f l = l.
Proof.
  induction 1 as [|x l Hx Hl IH]; cbn [filter]; [reflexivity|].
  now rewrite Hx, IH.
Qed.

Lemma emitted_from_all_eq image tags :
  Forall (fun b => has_pixels image b = true) tags ->
  forall i, emitted_from image i tags = enumerate_from i tags.
Proof.
  induction 1 as [|b tags Hb Hall IH]; intros i; [reflexivity|].
  rewrite emitted_from_cons. unfold has_pixels in Hb. rewrite Hb.
  rewrite IH. reflexivity.
Qed.

Lemma inside_image_has_pixels image b :
  inside_image image b -> has_pixels image b = true.
Proof.
  destruct b as [[[x y] w] h]. intros (Hx & Hy & Hw & Hh & HW & HH).
  apply has_pixels_nonneg; lia.
Qed.

Lemma enumerate_from_names name ext tags :
  forall i,
    map (fun ib : nat * box => crop_filename name ext (fst ib + 1)) (enumerate_from i tags)
    = map (crop_filename name ext) (seq (i + 1) (List.length tags)).
Proof.
  induction tags as [|b tags IH]; intros i; [reflexivity|].
  unfold enumerate_from in *. cbn [List.length seq combine map fst].
  f_equal. apply (IH (S i)).
Qed.

(** X14. When every collaborator succeeds (the connection is made, every
    crop is encoded, no upload fails) and every kept tag is a well-formed
    box inside the image, every kept tag is uploaded, once and in order:
    the crops are numbered 1, 2, ..., n without a gap, and no error is
    logged. *)
Theorem inside_tags_all_uploaded :
  forall (set_iter : list box -> list box) (w : world) (blob_name : string)
         (image : Numpy.ndarray) (results : list detection)
         (candidate_boxes tags : list box) (name ext : string),
    imdecode w = Decoded image ->
    readtext w = Some results ->
    find_candidates DISCOUNT_KEYWORDS results = Some candidate_boxes ->
    filter_by_area set_iter FINAL_MIN_AREA_PERCENTAGE FINAL_MAX_AREA_PERCENTAGE
      (total_area_of image) candidate_boxes = Some tags ->
    PyStr.splitext (PyStr.basename blob_name) = (name, ext) ->
    from_connection_string w = true ->
    encodable w image tags ->
    (forall f, upload_blob w f = true) ->
    Forall (inside_image image) tags ->
    map snd (uploads (ManipulateImage set_iter w blob_name))
    = map (expanded_crop image) tags
    /\ map fst (uploads (ManipulateImage set_iter w blob_name))
       = map (fun k => (name ++ "_crop_" ++ PyStr.str k ++ ext)%string)
             (seq 1 (List.length tags))
    /\ Forall (fun e => is_error e = false) (ManipulateImage set_iter w blob_name).
Proof.
  intros set_iter w blob_name image results candidate_boxes tags name ext
         Hdec Hread Hc Hf Hsplit Hconn Henc Hall Hin.
  assert (Hpix : Forall (fun b => has_pixels image b = true) tags).
  { eapply Forall_impl; [|exact Hin]. apply inside_image_has_pixels. }
  rewrite (ManipulateImage_decoded _ _ _ _ _ _ _ Hdec Hread Hc Hf).
  rewrite uploads_app. cbn [uploads app].
  destruct (storage_events_uploads w image blob_name tags name ext Hsplit)
    as (k & Hk & Hlen).
  rewrite Hk, (Hlen Hconn Henc Hall), firstn_all, (emitted_from_all_eq _ _ Hpix).
  split; [|split].
  - rewrite map_map. unfold upload_of, enumerate_from. cbn [snd].
    rewrite <- (map_map snd (expanded_crop image)).
    fold (enumerate_from 0 tags).
    rewrite <- (emitted_from_all_eq _ _ Hpix 0%nat), emitted_from_snd.
    now rewrite (filter_all _ _ Hpix).
  - rewrite map_map. unfold upload_of. cbn [fst].
    exact (enumerate_from_names name ext tags 0).
  - do 4 (constructor; [reflexivity|]).
    unfold storage_events. destruct tags as [|b tags]; [repeat constructor|].
    rewrite Hconn, Hsplit. constructor; [reflexivity|].
    pose proof (crop_loop_loop_trace w image name ext (b :: tags) O) as Hl.
    pose proof (crop_loop_all_ok w image name ext (b :: tags) Henc Hall O) as Hok.
    destruct (crop_loop w image name ext 0 (b :: tags)) as [t r].
    cbn [fst snd] in *. subst r. cbn [closing]. rewrite app_nil_r.
    now destruct (loop_trace_events w t _ Hl) as (H & _ & _).
Qed.

Lemma inside_tags_all_uploaded_witness :
  map snd (uploads (ManipulateImage first_seen
                      (sample_world [save_detection; free_detection] (fun _ => true))
                      "raw-images/photo.jpg"))
  = map (expanded_crop {| Numpy.height := 1000; Numpy.width := 1000 |})
        [(10, 50, 60, 50); (100, 100, 51, 51)]
  /\ map fst (uploads (ManipulateImage first_seen
                        (sample_world [save_detection; free_detection] (fun _ => true))
                        "raw-images/photo.jpg"))
     = map (fun k => ("photo" ++ "_crop_" ++ PyStr.str k ++ ".jpg")%string)
           (seq 1 (List.length [(10, 50, 60, 50); (100, 100, 51, 51)])).
Proof.
  destruct (inside_tags_all_uploaded first_seen
              (sample_world [save_detection; free_detection] (fun _ => true))
              "raw-images/photo.jpg"
              {| Numpy.height := 1000; Numpy.width := 1000 |}
              [save_detection; free_detection]
              [(10, 50, 60, 50); (100, 100, 51, 51)]
              [(10, 50, 60, 50); (100, 100, 51, 51)] "photo" ".jpg"
              eq_refl eq_refl) as (H1 & H2 & _).
  - vm_compute. reflexivity.
  - vm_compute. reflexivity.
  - vm_compute. reflexivity.
  - reflexivity.
  - intros b _ _. reflexivity.
  - intros f. reflexivity.
  - repeat constructor; cbn; lia.
  - split; assumption.
Defined.

(** X15. For an image of fewer than [2^52] pixels the computation of the
    two thresholds raises nothing: whenever the OCR reader returns and the
    candidate boxes are computed, both counts are logged, and the tags
    counted are exactly the distinct candidates whose area [w * h]
    satisfies [total_area / 500 < w * h < total_area]. *)
Theorem tags_kept_exactly :
  forall (set_iter : list box -> list box) (w : world) (blob_name : string)
         (image : Numpy.ndarray) (results : list detection)
         (candidate_boxes : list box),
    set_order set_iter ->
    imdecode w = Decoded image ->
    readtext w = Some results ->
    find_candidates DISCOUNT_KEYWORDS results = Some candidate_boxes ->
    0 < total_area_of image < 2 ^ 52 ->
    exists tags,
      ManipulateImage set_iter w blob_name =
      [Log (Info_triggered blob_name); Readtext;
       Log (Info_candidates (List.length candidate_boxes));
       Log (Info_final (List.length tags))]
      ++ storage_events w image blob_name tags
      /\ NoDup tags
      /\ forall x y wd h,
           In (x, y, wd, h) tags <->
           In (x, y, wd, h) candidate_boxes
           /\ total_area_of image < 500 * (wd * h)
           /\ wd * h < total_area_of image.
Proof.
  intros set_iter w blob_name image results candidate_boxes Hset Hdec Hread Hc HT.
  destruct (filter_by_area_default_exact set_iter (total_area_of image)
              candidate_boxes Hset HT)
    as (tags & Hf & Hmem).
  exists tags. split; [now apply (ManipulateImage_decoded _ _ _ _ results)|].
  split; [|exact Hmem].
  apply filter_by_area_inv in Hf as (fz & _ & ->).
  apply NoDup_filter. apply Hset.
Qed.

Lemma tags_kept_exactly_witness :
  exists tags,
    ManipulateImage first_seen
      (sample_world [save_detection; other_detection; save_detection] (fun _ => true))
      "raw-images/photo.jpg" =
    [Log (Info_triggered "raw-images/photo.jpg"); Readtext;
     Log (Info_candidates (List.length [(10, 50, 60, 50); (10, 50, 60, 50)]));
     Log (Info_final (List.length tags))]
    ++ storage_events
         (sample_world [save_detection; other_detection; save_detection] (fun _ => true))
         {| Numpy.height := 1000; Numpy.width := 1000 |} "raw-images/photo.jpg" tags
    /\ NoDup tags.
Proof.
  destruct (tags_kept_exactly first_seen
              (sample_world [save_detection; other_detection; save_detection]
                 (fun _ => true))
              "raw-images/photo.jpg"
              {| Numpy.height := 1000; Numpy.width := 1000 |}
              [save_detection; other_detection; save_detection]
              [(10, 50, 60, 50); (10, 50, 60, 50)]
              first_seen_order eq_refl eq_refl)
    as (tags & H1 & H2 & _).
  - vm_compute. reflexivity.
  - split; vm_compute; reflexivity.
  - exists tags. split; assumption.
Defined.

(** X16. Filtering again changes nothing: the area filter applied to the
    tags it kept (for the same image and thresholds, under any iteration
    order of the set) keeps all of them and nothing else. *)
Theorem filter_by_area_idempotent :
  forall (set_iter set_iter' : list box -> list box)
         (min_percentage max_percentage : Float64.float) (total_area : Z)
         (boxes tags : list box),
    set_order set_iter -> set_order set_iter' ->
    filter_by_area set_iter min_percentage max_percentage total_area boxes = Some tags ->
    exists tags',
      filter_by_area set_iter' min_percentage max_percentage total_area tags = Some tags'
      /\ Permutation tags' tags.
Proof.
  intros set_iter set_iter' minp maxp total boxes tags Hs Hs' Hf.
  pose proof Hf as Hf0.
  apply filter_by_area_inv in Hf as (fz & Hz & Htags).
  unfold filter_by_area in *.
  destruct (min_area minp total) as [mn|] eqn:Emin; [|discriminate].
  destruct (max_area maxp total) as [mx|] eqn:Emax; [|discriminate].
  eexists. split; [reflexivity|].
  rewrite area_loop_spec. cbn [app].
  injection Hf0 as Hf0. rewrite area_loop_spec in Hf0. cbn [app] in Hf0.
  destruct (Hs boxes) as [Hnd Hin]. destruct (Hs' tags) as [Hnd' Hin'].
  assert (Hnt : NoDup tags) by (rewrite <- Hf0; now apply NoDup_filter).
  apply NoDup_Permutation; [now apply NoDup_filter | exact Hnt |].
  intros b. rewrite filter_In, Hin'. split; [tauto|].
  intros Hb. split; [exact Hb|].
  rewrite <- Hf0 in Hb. apply filter_In in Hb. tauto.
Qed.

Lemma filter_by_area_idempotent_witness :
  exists tags',
    filter_by_area (fun l => rev (first_seen l))
      FINAL_MIN_AREA_PERCENTAGE FINAL_MAX_AREA_PERCENTAGE (1000 * 1000)
      [(10, 50, 60, 50); (100, 100, 51, 51)] = Some tags'
    /\ Permutation tags' [(10, 50, 60, 50); (100, 100, 51, 51)].
Proof.
  apply (filter_by_area_idempotent first_seen (fun l => rev (first_seen l))
           FINAL_MIN_AREA_PERCENTAGE FINAL_MAX_AREA_PERCENTAGE (1000 * 1000)
           [(10, 50, 60, 50); (0, 0, 40, 50); (100, 100, 51, 51); (10, 50, 60, 50)]
           [(10, 50, 60, 50); (100, 100, 51, 51)]
           first_seen_order last_seen_order).
  vm_compute. reflexivity.
Defined.

(** ** The box of a quad *)

Ltac unfold_Q :=
  unfold Qminus; unfold Qle, Qlt, Qplus, Qopp, inject_Z;
  cbn [Qnum Qden Pos.mul].

Lemma finite_truncated s m e :
  truncated (PyNum.PyFloat (S754_finite s m e))
    (cond_Zopp s match e with
                 | Zneg p => Z.pos m / 2 ^ Z.pos p
                 | _ => Z.pos m * 2 ^ e
                 end).
Proof.
  unfold truncated, value, Float64.to_Q.
  destruct e as [|p|p]; cbv iota beta.
  - rewrite Z.pow_0_r, !Z.mul_1_r.
    destruct s; unfold cond_Zopp; unfold_Q; lia.
  - generalize (2 ^ Z.pos p). intros d.
    destruct s; unfold cond_Zopp; unfold_Q; rewrite ?Z.mul_opp_l;
      generalize (Z.pos m * d); intros; lia.
  - assert (Hd : Z.pos (2 ^ p) = 2 ^ Z.pos p) by apply Pos2Z.inj_pow.
    assert (Hpos : 0 < 2 ^ Z.pos p) by (apply Z.pow_pos_nonneg; lia).
    pose proof (Z.mul_div_le (Z.pos m) (2 ^ Z.pos p) Hpos) as H1.
    pose proof (Z.mul_succ_div_gt (Z.pos m) (2 ^ Z.pos p) Hpos) as H2.
    pose proof (Z.div_pos (Z.pos m) (2 ^ Z.pos p) ltac:(lia) Hpos) as H3.
    destruct s; unfold cond_Zopp; unfold_Q; rewrite ?Pos.mul_1_r, Hd;
      revert H1 H2 H3 Hpos; generalize (Z.pos m / 2 ^ Z.pos p);
      generalize (2 ^ Z.pos p); intros d q H1 H2 H3 Hpos;
      rewrite ?Z.mul_opp_l; split; intros H; nia.
Qed.

Lemma to_int_truncated f z :
  Float64.to_int f = Some z -> truncated (PyNum.PyFloat f) z.
Proof.
  destruct f as [s|s| |s m e]; try discriminate; intros H.
  - injection H as <-. unfold truncated, value, Float64.to_Q. unfold_Q. lia.
  - injection H as <-. apply finite_truncated.
Qed.

Lemma int_truncated a z : PyNum.int a = Some z -> truncated a z.
Proof.
  destruct a as [x|f]; cbn [PyNum.int]; [|apply to_int_truncated].
  intros [= <-]. unfold truncated, value. unfold_Q. lia.
Qed.

(** The value of a finite float, scaled by a power of two that makes it an
    integer. *)
Lemma to_Q_scaled s m e k :
  0 <= k -> 0 <= e + k ->
  (Float64.to_Q (S754_finite s m e) * inject_Z (2 ^ k)
   == inject_Z (cond_Zopp s (Z.pos m) * 2 ^ (e + k)))%Q.
Proof.
  intros Hk Hek. cbn [Float64.to_Q]. destruct e as [|p|p].
  - rewrite Z.pow_0_r, Z.mul_1_r, Z.add_0_l.
    unfold Qeq, Qmult, inject_Z; cbn [Qnum Qden]. lia.
  - rewrite Z.pow_add_r by lia.
    unfold Qeq, Qmult, inject_Z; cbn [Qnum Qden]. lia.
  - assert (Hd : Z.pos (2 ^ p) = 2 ^ Z.pos p) by apply Pos2Z.inj_pow.
    unfold Qeq, Qmult, inject_Z; cbn [Qnum Qden].
    rewrite Pos.mul_1_r, Hd, Z.mul_1_r.
    replace k with ((Z.neg p + k) + Z.pos p) at 1 by lia.
    rewrite Z.pow_add_r by lia. lia.
Qed.

Lemma shl_align_scaled m e ez :
  ez <= e ->
  Z.pos (fst (shl_align m e ez)) = Z.pos m * 2 ^ (e - ez).
Proof.
  intros Hle. unfold shl_align.
  destruct (ez - e) as [|d|d] eqn:E.
  - replace (e - ez) with 0 by lia. cbn [fst]. lia.
  - lia.
  - cbn [fst]. unfold shift_pos. rewrite iter_xO.
    replace (e - ez) with (Z.pos d) by lia. reflexivity.
Qed.

(** The aligned mantissas of two finite floats are ordered as the floats
    are. *)
Lemma aligned_le sx mx ex sy my ey :
  (Float64.to_Q (S754_finite sx mx ex) <= Float64.to_Q (S754_finite sy my ey))%Q ->
  cond_Zopp sx (Z.pos (fst (shl_align mx ex (Z.min ex ey))))
  <= cond_Zopp sy (Z.pos (fst (shl_align my ey (Z.min ex ey)))).
Proof.
  intros Hle. set (ez := Z.min ex ey).
  assert (Hx : ez <= ex) by (unfold ez; lia).
  assert (Hy : ez <= ey) by (unfold ez; lia).
  set (k := Z.max 0 (- ez)).
  assert (Hk : 0 <= k) by (unfold k; lia).
  assert (Hzk : 0 <= ez + k) by (unfold k; lia).
  assert (Hp : (0 < inject_Z (2 ^ k))%Q).
  { unfold Qlt, inject_Z; cbn [Qnum Qden].
    pose proof (Z.pow_pos_nonneg 2 k ltac:(lia) Hk). lia. }
  apply (Qmult_le_compat_r _ _ (inject_Z (2 ^ k))) in Hle; [|now apply Qlt_le_weak].
  rewrite !to_Q_scaled in Hle by lia.
  rewrite <- Zle_Qle in Hle.
  replace (ex + k) with ((ex - ez) + (ez + k)) in Hle by lia.
  replace (ey + k) with ((ey - ez) + (ez + k)) in Hle by lia.
  rewrite (Z.pow_add_r 2 (ex - ez) (ez + k)), (Z.pow_add_r 2 (ey - ez) (ez + k)),
    !Z.mul_assoc in Hle by lia.
  apply Z.mul_le_mono_pos_r in Hle; [|apply Z.pow_pos_nonneg; lia].
  rewrite !shl_align_scaled by assumption.
  destruct sx, sy; cbn [cond_Zopp] in *; lia.
Qed.

Lemma binary_normalize_not_negative m e :
  0 <= m ->
  Float64.not_negative (binary_normalize Float64.prec Float64.emax m e false) = true.
Proof.
  intros Hm. unfold binary_normalize. destruct m as [|p|p]; [reflexivity| |lia].
  unfold binary_round. destruct (shl_align _ _ _) as [mz ez].
  apply binary_round_aux_not_negative.
Qed.

Lemma to_Q_sign s m e :
  ((0 <= Float64.to_Q (S754_finite s m e))%Q -> s = false)
  /\ ((Float64.to_Q (S754_finite s m e) <= 0)%Q -> s = true).
Proof.
  cbn [Float64.to_Q].
  destruct e as [|p|p], s; cbn [cond_Zopp]; unfold Qle, inject_Z; cbn [Qnum Qden];
    split; intros H; try reflexivity; exfalso.
  all: try (pose proof (Z.pow_pos_nonneg 2 (Z.pos p) ltac:(lia) ltac:(lia)); nia).
  all: lia.
Qed.

(** The binary64 difference of two floats is not negative when the first
    is not smaller than the second. *)
Lemma sub_not_negative f g :
  Float64.is_finite f = true -> Float64.is_finite g = true ->
  (Float64.to_Q f <= Float64.to_Q g)%Q ->
  Float64.not_negative (Float64.sub g f) = true.
Proof.
  destruct f as [sf| | |sf mf ef]; try discriminate;
    destruct g as [sg| | |sg mg eg]; try discriminate; intros _ _ Hle.
  - destruct sf, sg; reflexivity.
  - cbn. apply (to_Q_sign sg mg eg) in Hle. now subst sg.
  - cbn. apply (to_Q_sign sf mf ef) in Hle. now subst sf.
  - unfold Float64.sub, SFsub. apply binary_normalize_not_negative.
    pose proof (aligned_le sf mf ef sg mg eg Hle) as H.
    rewrite Z.min_comm in H. lia.
Qed.

Lemma to_int_not_negative f z :
  Float64.not_negative f = true -> Float64.to_int f = Some z -> 0 <= z.
Proof.
  destruct f as [s|s| |s m e]; try discriminate.
  - intros _ H. injection H as <-. lia.
  - destruct s; [discriminate|]. intros _ H.
    assert (H0 : 0 <= match e with
                      | Zneg p => Z.pos m / 2 ^ Z.pos p
                      | _ => Z.pos m * 2 ^ e
                      end).
    { destruct e as [|p|p].
      - apply Z.mul_nonneg_nonneg; [lia | apply Z.pow_nonneg; lia].
      - apply Z.mul_nonneg_nonneg; [lia | apply Z.pow_nonneg; lia].
      - apply Z.div_pos; [lia | apply Z.pow_pos_nonneg; lia]. }
    injection H as <-. exact H0.
Qed.

Lemma to_int_finite f z : Float64.to_int f = Some z -> Float64.is_finite f = true.
Proof. destruct f; try discriminate; reflexivity. Qed.

Lemma sub_finite f g :
  Float64.is_finite (Float64.sub g f) = true ->
  Float64.is_finite f = true /\ Float64.is_finite g = true.
Proof.
  destruct f as [sf|sf| |sf mf ef], g as [sg|sg| |sg mg eg]; cbn; auto;
    try discriminate; destruct sf, sg; discriminate.
Qed.

(** An extent is not negative when the far coordinate is not smaller than
    the near one and both are [int]s or both are [float]s. *)
Lemma int_sub_not_negative a b z :
  int_sub b a = Some z -> same_kind a b = true ->
  (value a <= value b)%Q -> 0 <= z.
Proof.
  unfold int_sub. destruct a as [x|f], b as [y|g]; try discriminate;
    cbn [PyNum.sub PyNum.int value]; intros Hz _ Hle.
  - injection Hz as <-. rewrite <- Zle_Qle in Hle. lia.
  - pose proof (to_int_finite _ _ Hz) as Hfin.
    apply sub_finite in Hfin as [Hf Hg].
    exact (to_int_not_negative _ _ (sub_not_negative f g Hf Hg Hle) Hz).
Qed.

(** X17. The box of a detection is taken from the top-left and the
    bottom-right point of the quad only. [x] and [y] are the coordinates of
    the top-left point with their fraction cut off; [w] and [h] are the
    differences of the coordinates as Python computes them (exactly for
    [int]s, in binary64 for [float]s) with their fraction cut off. When
    the top-left point is not right of (not below) the bottom-right point
    and the two coordinates are both [int]s or both [float]s, [w] ([h]) is
    not negative. For [int] points the box is exact. *)
Theorem box_truncates_quad :
  forall (tl tr br bl : point) (x y w h : Z),
    box_of_bbox (tl, tr, br, bl) = Some (x, y, w, h) ->
    (forall tr' bl', box_of_bbox (tl, tr', br, bl') = Some (x, y, w, h))
    /\ truncated (fst tl) x
    /\ truncated (snd tl) y
    /\ (exists dx dy,
          PyNum.sub (fst br) (fst tl) = Some dx /\ truncated dx w
          /\ PyNum.sub (snd br) (snd tl) = Some dy /\ truncated dy h)
    /\ (same_kind (fst tl) (fst br) = true ->
        (value (fst tl) <= value (fst br))%Q -> 0 <= w)
    /\ (same_kind (snd tl) (snd br) = true ->
        (value (snd tl) <= value (snd br))%Q -> 0 <= h)
    /\ (forall x0 y0 x1 y1 : Z,
          tl = (PyNum.PyInt x0, PyNum.PyInt y0) ->
          br = (PyNum.PyInt x1, PyNum.PyInt y1) ->
          (x, y, w, h) = (x0, y0, x1 - x0, y1 - y0)).
Proof.
  intros tl tr br bl x y w h Hb.
  split; [intros tr' bl'; exact Hb|].
  unfold box_of_bbox in Hb.
  destruct (int_sub (fst br) (fst tl)) as [w'|] eqn:Ew; [|discriminate].
  destruct (int_sub (snd br) (snd tl)) as [h'|] eqn:Eh; [|discriminate].
  destruct (PyNum.int (fst tl)) as [x'|] eqn:Ex; [|discriminate].
  destruct (PyNum.int (snd tl)) as [y'|] eqn:Ey; [|discriminate].
  injection Hb as <- <- <- <-.
  split; [now apply int_truncated|]. split; [now apply int_truncated|].
  split.
  { unfold int_sub in Ew, Eh.
    destruct (PyNum.sub (fst br) (fst tl)) as [dx|]; [|discriminate].
    destruct (PyNum.sub (snd br) (snd tl)) as [dy|]; [|discriminate].
    exists dx, dy.
    split; [reflexivity|]. split; [now apply int_truncated|].
    split; [reflexivity | now apply int_truncated]. }
  split; [intros Hk Hle; exact (int_sub_not_negative _ _ _ Ew Hk Hle)|].
  split; [intros Hk Hle; exact (int_sub_not_negative _ _ _ Eh Hk Hle)|].
  intros x0 y0 x1 y1 -> ->. cbn in Ew, Eh, Ex, Ey. congruence.
Qed.

Lemma box_truncates_quad_witness :
  box_of_bbox (bbox_of float_detection) = Some (0, 0, 100, 50)
  /\ truncated (PyNum.PyFloat float_0_3) 0
  /\ 0 <= 100
  /\ 0 <= 50.
Proof.
  assert (E : box_of_bbox (bbox_of float_detection) = Some (0, 0, 100, 50))
    by (vm_compute; reflexivity).
  split; [exact E|].
  destruct (box_truncates_quad _ _ _ _ 0 0 100 50 E) as (_ & Hx & _ & _ & Hw & Hh & _).
  split; [exact Hx|]. split.
  - apply Hw; [reflexivity | unfold Qle; vm_compute; discriminate].
  - apply Hh; [reflexivity | unfold Qle; vm_compute; discriminate].
Defined.

(** In binary64 the difference of the columns 100.3 and 0.3 is 100.0,
    though the double 100.3 is less than 100 above the double 0.3: the
    width of the box is 100. *)
Example rounded_extent :
  Float64.sub float_100_3 float_0_3 = Float64.lit_100_0
  /\ (Float64.to_Q float_100_3 - Float64.to_Q float_0_3 < 100)%Q
  /\ int_sub (PyNum.PyFloat float_100_3) (PyNum.PyFloat float_0_3) = Some 100.
Proof.
  split; [vm_compute; reflexivity|].
  split; [unfold Qlt; vm_compute; reflexivity | vm_compute; reflexivity].
Qed.

(** ** Trimming and the keyword match *)

Lemma prefix_cons a k c s :
  String.prefix (String a k) (String c s)
  = if ascii_dec a c then String.prefix k s else false.
Proof. reflexivity. Qed.

Lemma prefix_empty_r k : k <> EmptyString -> String.prefix k EmptyString = false.
Proof. destruct k; [congruence | reflexivity]. Qed.

Lemma prefix_empty_l s : String.prefix EmptyString s = true.
Proof. now destruct s. Qed.

Lemma ends_nonspace_nonempty k : ends_nonspace k = true -> k <> EmptyString.
Proof. destruct k; [discriminate | discriminate]. Qed.

Lemma contains_lstrip k s :
  starts_nonspace k = true ->
  PyStr.contains k (PyStr.lstrip s) = PyStr.contains k s.
Proof.
  destruct k as [|a k]; [discriminate|]. cbn [starts_nonspace]. intros Ha.
  apply negb_true_iff in Ha.
  induction s as [|c s IH]; [reflexivity|].
  cbn [PyStr.lstrip]. destruct (PyStr.is_space c) eqn:Ec; [|reflexivity].
  rewrite IH. cbn [PyStr.contains]. rewrite prefix_cons.
  destruct (ascii_dec a c) as [->|_]; [congruence | reflexivity].
Qed.

Lemma rstrip_cons c s :
  PyStr.rstrip (String c s) = EmptyString
  /\ PyStr.rstrip s = EmptyString /\ PyStr.is_space c = true
  \/ PyStr.rstrip (String c s) = String c (PyStr.rstrip s).
Proof.
  cbn [PyStr.rstrip]. destruct (PyStr.rstrip s) as [|b r]; [|now right].
  destruct (PyStr.is_space c); [left | right]; auto.
Qed.

Lemma prefix_rstrip s :
  forall k, ends_nonspace k = true ->
            String.prefix k (PyStr.rstrip s) = String.prefix k s.
Proof.
  induction s as [|c s IH]; intros k Hk; [reflexivity|].
  destruct k as [|a k]; [discriminate|].
  destruct (rstrip_cons c s) as [(E & Es & Ec)|E]; rewrite E.
  - rewrite prefix_cons. cbn [String.prefix].
    destruct (ascii_dec a c) as [->|_]; [|reflexivity].
    destruct k as [|a' k].
    + cbn [ends_nonspace] in Hk. apply negb_true_iff in Hk. congruence.
    + rewrite <- (IH (String a' k) Hk), Es. reflexivity.
  - rewrite !prefix_cons. destruct (ascii_dec a c) as [_|_]; [|reflexivity].
    destruct k as [|a' k]; [now rewrite !prefix_empty_l|].
    apply IH. exact Hk.
Qed.

Lemma contains_rstrip k s :
  ends_nonspace k = true ->
  PyStr.contains k (PyStr.rstrip s) = PyStr.contains k s.
Proof.
  intros Hk. induction s as [|c s IH]; [reflexivity|].
  pose proof (prefix_rstrip (String c s) k Hk) as Hp.
  destruct (rstrip_cons c s) as [(E & Es & Ec)|E]; rewrite E in *.
  - cbn [PyStr.contains]. rewrite <- Hp, <- IH, Es.
    cbn [PyStr.contains]. now destruct (String.prefix k EmptyString).
  - cbn [PyStr.contains]. now rewrite Hp, IH.
Qed.

Lemma contains_strip k s :
  starts_nonspace k = true -> ends_nonspace k = true ->
  PyStr.contains k (PyStr.strip s) = PyStr.contains k s.
Proof.
  intros H1 H2. unfold PyStr.strip.
  now rewrite contains_rstrip, contains_lstrip.
Qed.

(** X18. Trimming never decides a match. Every keyword of the source
    begins and ends with a character that is no white space, so a keyword
    occurs in the trimmed text exactly when it occurs in the lower-cased
    text itself: a detection is a candidate exactly when some keyword is a
    substring of its lower-cased text, white space around it or not. *)
Theorem trimming_never_decides :
  forall (d : detection),
    (forall keyword text,
        starts_nonspace keyword = true -> ends_nonspace keyword = true ->
        PyStr.contains keyword (PyStr.strip text) = PyStr.contains keyword text)
    /\ forallb (fun k => starts_nonspace k && ends_nonspace k) DISCOUNT_KEYWORDS = true
    /\ (matches DISCOUNT_KEYWORDS d = true <->
        exists k, In k DISCOUNT_KEYWORDS /\ Substring k (PyStr.lower (text_of d))).
Proof.
  intros d. split; [intros; now apply contains_strip|].
  assert (Hall : forallb (fun k => starts_nonspace k && ends_nonspace k)
                   DISCOUNT_KEYWORDS = true) by (vm_compute; reflexivity).
  split; [exact Hall|].
  rewrite forallb_forall in Hall.
  unfold matches, normalize. rewrite existsb_exists.
  split; intros (k & Hin & Hk); exists k; (split; [exact Hin|]);
    specialize (Hall k Hin); apply andb_true_iff in Hall as [H1 H2].
  - apply contains_iff_substring. now rewrite <- (contains_strip k _ H1 H2).
  - rewrite (contains_strip k _ H1 H2). now apply contains_iff_substring.
Qed.

(** ** From detections to uploads *)

Lemma in_firstn {A} (k : nat) (l : list A) (a : A) : In a (firstn k l) -> In a l.
Proof.
  intros H. rewrite <- (firstn_skipn k l). apply in_or_app. now left.
Qed.

(** X19. Every uploaded crop comes from a detection that matched: its
    data is the expanded crop, with pixels, of the box of an OCR detection
    whose normalized text contains a keyword, and that box passed the area
    filter. Nothing is uploaded for text without a keyword. *)
Theorem uploads_come_from_matches :
  forall (set_iter : list box -> list box) (w : world) (blob_name : string)
         (f : string) (data : Numpy.view),
    set_order set_iter ->
    In (f, data) (uploads (ManipulateImage set_iter w blob_name)) ->
    exists image results candidate_boxes tags d b,
      imdecode w = Decoded image
      /\ readtext w = Some results
      /\ find_candidates DISCOUNT_KEYWORDS results = Some candidate_boxes
      /\ filter_by_area set_iter FINAL_MIN_AREA_PERCENTAGE FINAL_MAX_AREA_PERCENTAGE
           (total_area_of image) candidate_boxes = Some tags
      /\ In d results
      /\ matches DISCOUNT_KEYWORDS d = true
      /\ box_of_bbox (bbox_of d) = Some b
      /\ In b tags
      /\ data = expanded_crop image b
      /\ 0 < Numpy.size data.
Proof.
  intros set_iter w blob_name f data Hset Hin.
  destruct (ManipulateImage_courses set_iter w blob_name)
    as [(image & results & cands & tags & Hdec & Hread & Hc & Hf & E)|[[m E]|[E|[E|E]]]];
    rewrite E in Hin; clear E; try (cbn in Hin; contradiction).
  rewrite uploads_app in Hin. cbn [uploads app] in Hin.
  destruct (PyStr.splitext (PyStr.basename blob_name)) as [name ext] eqn:Hs.
  destruct (storage_events_uploads w image blob_name tags name ext Hs)
    as (k & Hk & _).
  rewrite Hk in Hin. apply in_map_iff in Hin as ([i b] & Hu & Hib).
  apply in_firstn in Hib.
  destruct (emitted_from_positions image tags 0) as [_ Hpos].
  destruct (Hpos i b Hib) as (_ & Hnth & Hpix).
  apply nth_error_In in Hnth.
  unfold upload_of in Hu. cbn [fst snd] in Hu. injection Hu as _ <-.
  pose proof Hf as Hf0.
  apply filter_by_area_inv in Hf0 as (fz & _ & Htags).
  assert (Hcand : In b cands).
  { rewrite Htags in Hnth. apply filter_In in Hnth as [Hb _]. now apply Hset. }
  apply (find_candidates_In _ _ _ Hc) in Hcand as (d & Hd & Hm & Hdb).
  exists image, results, cands, tags, d, b. repeat split; auto.
Qed.

Lemma uploads_come_from_matches_witness :
  exists image results candidate_boxes tags d b,
    imdecode (sample_world [other_detection; save_detection] (fun _ => true))
    = Decoded image
    /\ readtext (sample_world [other_detection; save_detection] (fun _ => true))
       = Some results
    /\ find_candidates DISCOUNT_KEYWORDS results = Some candidate_boxes
    /\ filter_by_area first_seen FINAL_MIN_AREA_PERCENTAGE FINAL_MAX_AREA_PERCENTAGE
         (total_area_of image) candidate_boxes = Some tags
    /\ In d results
    /\ matches DISCOUNT_KEYWORDS d = true
    /\ box_of_bbox (bbox_of d) = Some b
    /\ In b tags
    /\ {| Numpy.view_y := 0; Numpy.view_x := 10;
          Numpy.view_height := 100; Numpy.view_width := 60 |}
       = expanded_crop image b
    /\ 0 < Numpy.size {| Numpy.view_y := 0; Numpy.view_x := 10;
                         Numpy.view_height := 100; Numpy.view_width := 60 |}.
Proof.
  apply (uploads_come_from_matches first_seen
           (sample_world [other_detection; save_detection] (fun _ => true))
           "raw-images/photo.jpg" "photo_crop_1.jpg"
           {| Numpy.view_y := 0; Numpy.view_x := 10;
              Numpy.view_height := 100; Numpy.view_width := 60 |}
           first_seen_order).
  vm_compute. auto.
Defined.

Lemma emitted_from_In image tags b :
  In b tags -> has_pixels image b = true ->
  exists i, In (i, b) (emitted_from image 0 tags).
Proof.
  intros Hin Hpix.
  assert (H : In b (map snd (emitted_from image 0 tags)))
    by (rewrite emitted_from_snd; apply filter_In; auto).
  apply in_map_iff in H as ([i b'] & Hb & Hi). cbn [snd] in Hb. subst b'.
  now exists i.
Qed.

(** X20. A detection that matched is uploaded: when the image has fewer
    than [2^52] pixels, the candidate boxes are computed, the connection is
    made and no encoding and no upload fails, every detection whose
    normalized text contains a keyword and whose box is a well-formed box
    inside the image with an area strictly between 0.2 percent and
    100 percent of the image has its expanded crop uploaded. *)
Theorem matching_detection_is_uploaded :
  forall (set_iter : list box -> list box) (w : world) (blob_name : string)
         (image : Numpy.ndarray) (results : list detection)
         (candidate_boxes : list box) (d : detection) (b : box),
    set_order set_iter ->
    imdecode w = Decoded image ->
    readtext w = Some results ->
    find_candidates DISCOUNT_KEYWORDS results = Some candidate_boxes ->
    from_connection_string w = true ->
    (forall b', imencode w (expanded_crop image b') = true) ->
    (forall f, upload_blob w f = true) ->
    0 < total_area_of image < 2 ^ 52 ->
    In d results ->
    matches DISCOUNT_KEYWORDS d = true ->
    box_of_bbox (bbox_of d) = Some b ->
    inside_image image b ->
    total_area_of image < 500 * area b ->
    area b < total_area_of image ->
    exists f,
      In (f, expanded_crop image b)
         (uploads (ManipulateImage set_iter w blob_name)).
Proof.
  intros set_iter w blob_name image results candidate_boxes d b
         Hset Hdec Hread Hc Hconn Henc Hall HT Hd Hm Hb Hinside Hlo Hhi.
  destruct (filter_by_area_default_exact set_iter (total_area_of image)
              candidate_boxes Hset HT)
    as (tags & Hf & Hmem).
  assert (Htag : In b tags).
  { destruct b as [[[x y] wd] h].
    apply Hmem. cbn [area] in Hlo, Hhi. repeat split; auto.
    apply (find_candidates_In _ _ _ Hc). exists d. auto. }
  destruct (emitted_from_In image tags _ Htag (inside_image_has_pixels _ _ Hinside))
    as [i Hi].
  rewrite (ManipulateImage_decoded _ _ _ _ _ _ _ Hdec Hread Hc Hf).
  rewrite uploads_app. cbn [uploads app].
  destruct (PyStr.splitext (PyStr.basename blob_name)) as [name ext] eqn:Hs.
  destruct (storage_events_uploads w image blob_name tags name ext Hs)
    as (k & Hk & Hlen).
  rewrite Hk, (Hlen Hconn (fun b' _ _ => Henc b') Hall), firstn_all.
  exists (crop_filename name ext (i + 1)).
  apply in_map_iff. exists (i, b). split; [reflexivity | exact Hi].
Qed.

Lemma matching_detection_is_uploaded_witness :
  exists f,
    In (f, expanded_crop {| Numpy.height := 1000; Numpy.width := 1000 |}
             (10, 50, 60, 50))
       (uploads (ManipulateImage first_seen
                   (sample_world [other_detection; save_detection] (fun _ => true))
                   "raw-images/photo.jpg")).
Proof.
  apply (matching_detection_is_uploaded first_seen
           (sample_world [other_detection; save_detection] (fun _ => true))
           "raw-images/photo.jpg"
           {| Numpy.height := 1000; Numpy.width := 1000 |}
           [other_detection; save_detection] [(10, 50, 60, 50)] save_detection
           (10, 50, 60, 50) first_seen_order).
  - reflexivity.
  - reflexivity.
  - vm_compute. reflexivity.
  - reflexivity.
  - intros b'. reflexivity.
  - intros f. reflexivity.
  - split; vm_compute; reflexivity.
  - right. now left.
  - vm_compute. reflexivity.
  - vm_compute. reflexivity.
  - vm_compute. repeat split; discriminate.
  - vm_compute. reflexivity.
  - vm_compute. reflexivity.
Defined.

(** ** Boxes that cannot be computed and crops that cannot be encoded *)

Lemma boxes_of_None ds :
  boxes_of ds = None <-> exists d, In d ds /\ box_of_bbox (bbox_of d) = None.
Proof.
  induction ds as [|d ds IH]; cbn [boxes_of].
  - split; [discriminate | intros (d & [] & _)].
  - destruct (box_of_bbox (bbox_of d)) as [b|] eqn:Eb.
    + destruct (boxes_of ds) as [bs|].
      * split; [discriminate|]. intros (d' & [<-|Hd'] & Hn); [congruence|].
        assert (H : Some bs = None) by (apply IH; eauto). discriminate.
      * split; [|reflexivity]. intros _.
        destruct (proj1 IH eq_refl) as (d' & Hd' & Hn).
        exists d'. split; [now right | exact Hn].
    + split; [|reflexivity]. intros _. exists d. split; [now left | exact Eb].
Qed.

Lemma find_candidates_None keywords results :
  find_candidates keywords results = None <->
  exists d, In d results /\ matches keywords d = true
            /\ box_of_bbox (bbox_of d) = None.
Proof.
  rewrite find_candidates_boxes_of, boxes_of_None.
  split; intros (d & Hd & H).
  - apply filter_In in Hd as [Hd Hm]. eauto.
  - destruct H as [Hm Hn]. exists d. split; [apply filter_In; auto | exact Hn].
Qed.

(** X21. A detection that matches a keyword and whose box cannot be
    computed (a coordinate of its top-left point, or a difference of its
    coordinates, is no finite number) ends the invocation: the handler logs
    the exception right after the OCR call, no count is logged, the blob
    service is not contacted and nothing is uploaded, whatever the other
    detections are. The coordinates of a detection that matches no keyword
    are never looked at: when the box of every matching detection can be
    computed, the candidates are computed and counted. *)
Theorem uncomputable_box_aborts :
  forall (set_iter : list box -> list box) (w : world) (blob_name : string)
         (image : Numpy.ndarray) (results : list detection),
    imdecode w = Decoded image ->
    readtext w = Some results ->
    ((exists d, In d results /\ matches DISCOUNT_KEYWORDS d = true
                /\ box_of_bbox (bbox_of d) = None) ->
     ManipulateImage set_iter w blob_name =
     [Log (Info_triggered blob_name); Readtext; Log Error_exception]
     /\ uploads (ManipulateImage set_iter w blob_name) = [])
    /\ ((forall d, In d results -> matches DISCOUNT_KEYWORDS d = true ->
                   exists b, box_is d b) ->
        exists candidate_boxes rest,
          find_candidates DISCOUNT_KEYWORDS results = Some candidate_boxes
          /\ ManipulateImage set_iter w blob_name =
             Log (Info_triggered blob_name) :: Readtext
             :: Log (Info_candidates (List.length candidate_boxes)) :: rest).
Proof.
  intros set_iter w blob_name image results Hdec Hread. split.
  - intros Hd. apply find_candidates_None in Hd.
    rewrite (ManipulateImage_no_boxes _ _ _ _ _ Hdec Hread Hd).
    split; reflexivity.
  - intros Hall.
    destruct (find_candidates DISCOUNT_KEYWORDS results) as [cands|] eqn:Hc.
    + exists cands.
      destruct (filter_by_area set_iter FINAL_MIN_AREA_PERCENTAGE
                  FINAL_MAX_AREA_PERCENTAGE (total_area_of image) cands)
        as [tags|] eqn:Hf.
      * eexists. split; [reflexivity|].
        rewrite (ManipulateImage_decoded _ _ _ _ _ _ _ Hdec Hread Hc Hf).
        reflexivity.
      * eexists. split; [reflexivity|].
        rewrite (ManipulateImage_no_thresholds _ _ _ _ _ _ Hdec Hread Hc Hf).
        reflexivity.
    + exfalso. apply find_candidates_None in Hc as (d & Hd & Hm & Hn).
      destruct (Hall d Hd Hm) as [b Hb]. unfold box_is in Hb. congruence.
Qed.

Lemma uncomputable_box_aborts_witness :
  ManipulateImage first_seen
    (sample_world [save_detection; nan_detection; free_detection] (fun _ => true))
    "raw-images/photo.jpg" =
  [Log (Info_triggered "raw-images/photo.jpg"); Readtext; Log Error_exception]
  /\ uploads (ManipulateImage first_seen
                (sample_world [save_detection; nan_detection; free_detection]
                   (fun _ => true))
                "raw-images/photo.jpg") = [].
Proof.
  destruct (uncomputable_box_aborts first_seen
              (sample_world [save_detection; nan_detection; free_detection]
                 (fun _ => true))
              "raw-images/photo.jpg"
              {| Numpy.height := 1000; Numpy.width := 1000 |}
              [save_detection; nan_detection; free_detection] eq_refl eq_refl)
    as [H _].
  apply H. exists nan_detection.
  split; [right; now left|]. split; vm_compute; reflexivity.
Defined.

Lemma crop_loop_unencodable w image name ext tags1 b tags2 :
  encodable w image tags1 ->
  (forall f, upload_blob w f = true) ->
  has_pixels image b = true ->
  imencode w (expanded_crop image b) = false ->
  forall i,
    crop_loop w image name ext i (tags1 ++ b :: tags2)
    = (fst (crop_loop w image name ext i tags1), None).
Proof.
  intros He Hall Hpix Hb. induction tags1 as [|b1 tags1 IH]; intros i.
  - cbn [app crop_loop fst]. unfold has_pixels in Hpix. rewrite Hpix.
    unfold do_encode. rewrite Hb. reflexivity.
  - assert (He' : encodable w image tags1)
      by (intros b' Hb'; apply He; now right).
    cbn [app crop_loop]. rewrite (IH He' (S i)).
    destruct (crop_loop w image name ext (S i) tags1) as [t r]. cbn [fst].
    destruct (0 <? Numpy.size (expanded_crop image b1)) eqn:Epix.
    + unfold do_encode, do_upload, logging, emit, ret, raise.
      rewrite (He b1 (or_introl eq_refl) Epix), Hall. reflexivity.
    + reflexivity.
Qed.

(** X22. A crop that has pixels and cannot be encoded ends the invocation
    without an upload attempt for it: when the connection is made and
    nothing fails before, the crops of the tags before it have been
    uploaded, each with its success record, then the handler logs the
    exception, and neither this crop nor the crop of any later tag is
    uploaded. *)
Theorem unencodable_crop_aborts :
  forall (set_iter : list box -> list box) (w : world) (blob_name : string)
         (image : Numpy.ndarray) (results : list detection)
         (candidate_boxes tags1 : list box) (b : box) (tags2 : list box)
         (name ext : string),
    imdecode w = Decoded image ->
    readtext w = Some results ->
    find_candidates DISCOUNT_KEYWORDS results = Some candidate_boxes ->
    filter_by_area set_iter FINAL_MIN_AREA_PERCENTAGE FINAL_MAX_AREA_PERCENTAGE
      (total_area_of image) candidate_boxes = Some (tags1 ++ b :: tags2) ->
    PyStr.splitext (PyStr.basename blob_name) = (name, ext) ->
    from_connection_string w = true ->
    encodable w image tags1 ->
    (forall f, upload_blob w f = true) ->
    0 < Numpy.size (expanded_crop image b) ->
    imencode w (expanded_crop image b) = false ->
    ManipulateImage set_iter w blob_name =
    [Log (Info_triggered blob_name); Readtext;
     Log (Info_candidates (List.length candidate_boxes));
     Log (Info_final (List.length (tags1 ++ b :: tags2))); Connect]
    ++ fst (crop_loop w image name ext 0 tags1) ++ [Log Error_exception]
    /\ uploads (ManipulateImage set_iter w blob_name)
       = map (upload_of image name ext) (emitted_from image 0 tags1).
Proof.
  intros set_iter w blob_name image results candidate_boxes tags1 b tags2 name ext
         Hdec Hread Hc Hf Hsplit Hconn He Hall Hpix Hb.
  apply Z.ltb_lt in Hpix.
  assert (E : ManipulateImage set_iter w blob_name =
              [Log (Info_triggered blob_name); Readtext;
               Log (Info_candidates (List.length candidate_boxes));
               Log (Info_final (List.length (tags1 ++ b :: tags2))); Connect]
              ++ fst (crop_loop w image name ext 0 tags1) ++ [Log Error_exception]).
  { rewrite (ManipulateImage_decoded _ _ _ _ _ _ _ Hdec Hread Hc Hf).
    unfold storage_events. rewrite Hconn, Hsplit.
    rewrite (crop_loop_unencodable w image name ext tags1 b tags2 He Hall Hpix Hb).
    destruct tags1; reflexivity. }
  split; [exact E|]. rewrite E, !uploads_app. cbn [uploads app].
  rewrite app_nil_r.
  destruct (crop_loop_uploads w image name ext tags1 O) as (k & Hk & Hlen).
  rewrite Hk, (Hlen He Hall). apply f_equal, firstn_all.
Qed.

Lemma unencodable_crop_aborts_witness :
  ManipulateImage first_seen (panorama_world [corner_detection; banner_detection])
    "raw-images/aisle.jpg" =
  [Log (Info_triggered "raw-images/aisle.jpg"); Readtext;
   Log (Info_candidates (List.length [(10, 0, 500, 1); (0, 0, 65501, 1)]));
   Log (Info_final (List.length ([(10, 0, 500, 1)] ++ (0, 0, 65501, 1) :: []))); Connect]
  ++ fst (crop_loop (panorama_world [corner_detection; banner_detection]) panorama
            "aisle" ".jpg" 0 [(10, 0, 500, 1)])
  ++ [Log Error_exception]
  /\ uploads (ManipulateImage first_seen
                (panorama_world [corner_detection; banner_detection])
                "raw-images/aisle.jpg")
     = map (upload_of panorama "aisle" ".jpg")
           (emitted_from panorama 0 [(10, 0, 500, 1)]).
Proof.
  apply (unencodable_crop_aborts first_seen
           (panorama_world [corner_detection; banner_detection])
           "raw-images/aisle.jpg" panorama
           [corner_detection; banner_detection]
           [(10, 0, 500, 1); (0, 0, 65501, 1)]
           [(10, 0, 500, 1)] (0, 0, 65501, 1) [] "aisle" ".jpg").
  - reflexivity.
  - reflexivity.
  - vm_compute. reflexivity.
  - vm_compute. reflexivity.
  - vm_compute. reflexivity.
  - reflexivity.
  - intros b [<-|[]] _. vm_compute. reflexivity.
  - intros f. reflexivity.
  - vm_compute. reflexivity.
  - vm_compute. reflexivity.
Defined.

(** A banner wider than the limit of JPEG in a panorama: the one crop
    cannot be encoded, and the invocation ends with the error record and
    without an upload. *)
Example banner_is_not_uploaded :
  ManipulateImage first_seen (panorama_world [banner_detection]) "raw-images/aisle.jpg"
  = [Log (Info_triggered "raw-images/aisle.jpg"); Readtext;
     Log (Info_candidates 1); Log (Info_final 1); Connect; Log Error_exception].
Proof. vm_compute. reflexivity. Qed.
